(** * pricing-calculator: a shallow embedding of the BoQ engine

    The repository prices cloud resources ("Bill of Quantity").  Three
    cloud functions make up the engine:

    - the BoQ calculator ([calculateBoQ], [calculateResourceBoQ],
      [fetchPricingForResource], [calculateBaseCosts],
      [calculateDiscounts], [calculateTotals], [calculateSummary]),
      embedded in [Module Calc], and its [fetchResourceSpecifications]
      in [Module Intake];
    - the pricing updater ([fetchServicePricing], [isRelevantSku],
      [extractPricingInfo], [extractMachineInfo],
      [markExistingPricingInactive], [insertPricingData],
      [cleanupOldPricingData], [generateUpdateReport], the
      [updatePricingCatalog] handler), embedded in [Module Updater];
    - the pricing fetcher ([fetchGCPPricing], its own
      [extractPricingInfo] and [extractMachineInfo],
      [savePricingToBigQuery], the [fetchPricing] handler), embedded in
      [Module Fetcher].

    Data representation.
    - A JavaScript number that carries money, a price or a size in GB is
      an IEEE-754 binary64 value: Rocq's primitive [float], whose
      operations are the same correctly rounded binary64 operations.
    - The columns the BigQuery schema declares INTEGER
      (usage_duration_hours, vcpu_count, disk_size_gb, gpu_count) are [Z];
      [num] injects them into [float] where the source mixes them with
      prices.
    - Nullable columns are [option]; strings are [string].
    - In the price list of the billing API, the int64 [units] of a
      price arrive as a string of decimal digits and are represented by
      the integer they denote; the start amount of a tier is a double.
      Where the source adds such a string without [parseInt] (the
      fetcher's price), the value is kept as the text it is
      ([Fetcher.Row.Text]).
    - Exceptions are values of [Result]; the external stores (BigQuery
      tables, the billing API) are explicit arguments ([Store], [World]),
      which also say which of the calls to them are rejected.

    Assumptions of the embedding.
    - Integer columns hold values of magnitude at most 2^53, which
      JavaScript numbers represent exactly.
    - SKU descriptions are ASCII text ([toLowerCase] and the character
      classes of the regular expressions are the ASCII ones).
    - Where SQL leaves the order of equal-ranked rows open, a query
      returns them in table order.
    - The specification table satisfies its schema: project_id,
      resource_id, region and pricing_model are NOT NULL; ORDER BY
      compares these strings character by character.
    - A store operation is atomic: a rejected statement changes nothing.
    - A run reads one clock value: every [new Date()] of a run gives the
      same instant, so a run does not cross midnight UTC.  The time zone
      of the host enters the purge only; it is a field of the world
      ([Updater.zone_shift]) and a hypothesis where a bound depends on
      it.
    - The maps of the summary ([cost_by_project], [cost_by_region])
      are finite maps; this is what the plain objects of the source are
      for keys that are not names every JavaScript object inherits
      ([Calc.plain_key]), which the theorems about these keys assume as
      a hypothesis. *)

From Stdlib Require Import ZArith List String Ascii Bool Lia Floats Sorted.
#[local] Set Warnings "-inexact-float".
From stdpp Require Import base option list strings gmap.
Import ListNotations.

#[local] Open Scope string_scope.
#[local] Open Scope Z_scope.

(* ===================================================================== *)
(** * JavaScript numbers                                                   *)
(* ===================================================================== *)

Module Num.

(** The binary64 value of an integer (round to nearest even; exact for
    every integer of magnitude at most 2^53). *)
Definition num (z : Z) : float :=
  SF2Prim (binary_normalize prec emax z 0 false).

(** [Math.max(a, b)]: NaN when either argument is NaN, and [+0] is
    larger than [-0]. *)
Definition Math_max (a b : float) : float :=
  if (is_nan a || is_nan b)%bool then nan
  else if (a <? b)%float then b
  else if (b <? a)%float then a
  else if get_sign a then b else a.

(** [Math.floor(x)]: the largest integer not above [x]; NaN, the
    infinities and the zeros are returned unchanged. *)
Definition Math_floor (x : float) : float :=
  match Prim2SF x with
  | S754_finite s m e =>
      if 0 <=? e then x
      else num ((if s then Z.neg m else Z.pos m) / 2 ^ (- e))
  | _ => x
  end.

(** [Math.trunc(x)]: the integer part of [x], toward zero; NaN, the
    infinities and the zeros are returned unchanged. *)
Definition Math_trunc (x : float) : float :=
  match Prim2SF x with
  | S754_finite s m e =>
      if 0 <=? e then x
      else
        let magnitude := num (Z.pos m / 2 ^ (- e)) in
        if s then (- magnitude)%float else magnitude
  | _ => x
  end.

(** [String(x)] is written without exponent: [x] is a zero, or
    [1e-6 <= |x| < 1e21]. *)
Definition positional (x : float) : bool :=
  (is_zero x || ((1e-6 <=? abs x)%float && (abs x <? 1e21)%float))%bool.

(** [Math.min(a, b)]. *)
Definition Math_min (a b : float) : float :=
  if (is_nan a || is_nan b)%bool then nan
  else if (a <? b)%float then a
  else if (b <? a)%float then b
  else if get_sign a then a else b.

(** The exact rational value of a finite binary64 number, as a
    fraction [(n, d)] with [d > 0]; [None] for NaN and the infinities. *)
Definition exact_value (x : float) : option (Z * Z) :=
  match Prim2SF x with
  | S754_zero _ => Some (0, 1)
  | S754_finite s m e =>
      let n := if s then Z.neg m else Z.pos m in
      Some (if 0 <=? e then (n * 2 ^ e, 1) else (n, 2 ^ (- e)))
  | _ => None
  end.

(** [x] is exactly the rational [n / d]. *)
Definition is_exactly (x : float) (n d : Z) : bool :=
  match exact_value x with
  | Some (a, b) => a * d =? n * b
  | None => false
  end.

(** JavaScript truthiness of a number: false for [0], [-0] and NaN. *)
Definition truthy (x : float) : bool :=
  negb (is_nan x || is_zero x).

End Num.
Export Num.

(* ===================================================================== *)
(** * Exceptions                                                           *)
(* ===================================================================== *)

(** What a [throw] carries: the message of the error. *)
Inductive Result (A : Type) : Type :=
| Ok (a : A)
| Throw (message : string).
Arguments Ok {A} a.
Arguments Throw {A} message.

#[global] Instance Result_ret : MRet Result := fun A a => Ok a.
#[global] Instance Result_bind : MBind Result := fun A B k m =>
  match m with
  | Ok a => k a
  | Throw e => Throw e
  end.

Definition is_ok {A} (m : Result A) : bool :=
  match m with Ok _ => true | Throw _ => false end.

(** Statements that work on a mutable object or store of type [S] and may
    throw.  What was written before a throw stays written. *)
Definition Eff (S A : Type) : Type := S -> S * Result A.

#[global] Instance Eff_ret {S} : MRet (Eff S) := fun A a s => (s, Ok a).
#[global] Instance Eff_bind {S} : MBind (Eff S) := fun A B k m s =>
  match m s with
  | (s', Ok a) => k a s'
  | (s', Throw e) => (s', Throw e)
  end.

(** An expression that may throw and leaves the state alone. *)
Definition eval {S A} (m : Result A) : Eff S A := fun s => (s, m).

(** A write to the state. *)
Definition modify {S} (f : S -> S) : Eff S unit := fun s => (f s, Ok tt).

(** [try { m } catch (error) { h error }]. *)
Definition try_catch {S A} (m : Eff S A) (h : string -> Eff S A) : Eff S A :=
  fun s =>
    match m s with
    | (s', Ok a) => (s', Ok a)
    | (s', Throw e) => h e s'
    end.

(* ===================================================================== *)
(** * Strings                                                              *)
(* ===================================================================== *)

Module Str.

(** [s.startsWith(p)]. *)
Fixpoint starts_with (p s : string) : bool :=
  match p, s with
  | EmptyString, _ => true
  | String a p', String b s' => (Ascii.eqb a b && starts_with p' s')%bool
  | String _ _, EmptyString => false
  end.

(** [s.includes(p)]: [p] occurs in [s] as a contiguous substring. *)
Fixpoint includes (s p : string) : bool :=
  (starts_with p s ||
   match s with
   | EmptyString => false
   | String _ s' => includes s' p
   end)%bool.

(** Lower-casing of one ASCII character; other bytes are unchanged. *)
Definition lower_ascii (c : ascii) : ascii :=
  let n := nat_of_ascii c in
  if ((65 <=? n)%nat && (n <=? 90)%nat)%bool then ascii_of_nat (n + 32) else c.

(** [s.toLowerCase()] on ASCII text. *)
Fixpoint toLowerCase (s : string) : string :=
  match s with
  | EmptyString => EmptyString
  | String c s' => String (lower_ascii c) (toLowerCase s')
  end.

Definition upper_ascii (c : ascii) : ascii :=
  let n := nat_of_ascii c in
  if ((97 <=? n)%nat && (n <=? 122)%nat)%bool then ascii_of_nat (n - 32) else c.

(** [s.toUpperCase()] on ASCII text. *)
Fixpoint toUpperCase (s : string) : string :=
  match s with
  | EmptyString => EmptyString
  | String c s' => String (upper_ascii c) (toUpperCase s')
  end.

(** [s.split(sep)[0]] for a one-character separator: the text before
    the first occurrence of [sep], the whole string when there is none. *)
Fixpoint split_head (sep : ascii) (s : string) : string :=
  match s with
  | EmptyString => EmptyString
  | String c s' => if Ascii.eqb c sep then EmptyString else String c (split_head sep s')
  end.

End Str.


(* ===================================================================== *)
(** * Regular expressions and number parsing                               *)
(* ===================================================================== *)

Module Regex.

(** The fragment of JavaScript regular expressions the parsers use. *)
Inductive t :=
| Lit (s : string)           (* literal text *)
| Class (p : ascii -> bool)  (* one character of a class *)
| Seq (a b : t)              (* ab *)
| Alt (a b : t)              (* a|b, [a] tried first *)
| Star (a : t)               (* a*, greedy *)
| Group (i : nat) (a : t).   (* capturing group number [i] *)

(** [a+] and [a?]. *)
Definition Plus (a : t) : t := Seq a (Star a).
Definition Opt (a : t) : t := Alt a (Lit "").

(** [(s1|s2|...)] over literal alternatives, in the order written. *)
Fixpoint one_of (alternatives : list string) : t :=
  match alternatives with
  | [] => Class (fun _ => false)
  | [s] => Lit s
  | s :: rest => Alt (Lit s) (one_of rest)
  end.

(** What the capturing groups hold, most recent first. *)
Definition captures := list (nat * string).

Definition capture (i : nat) (c : captures) : option string :=
  snd <$> List.find (fun p => Nat.eqb (fst p) i) c.

(** [match[i]] for a group that took part in the match. *)
Definition group (i : nat) (c : captures) : string := default "" (capture i c).

(** The text consumed between the input [s] and its suffix [rest]. *)
Definition consumed (s rest : string) : string :=
  String.substring 0 (String.length s - String.length rest) s.

Fixpoint drop_prefix (p s : string) : option string :=
  match p, s with
  | EmptyString, _ => Some s
  | String a p', String b s' => if Ascii.eqb a b then drop_prefix p' s' else None
  | String _ _, EmptyString => None
  end.

(** Backtracking matcher: [run r s c k] matches [r] at the start of
    [s] and hands the rest of the input and the captures to the
    continuation [k]; when [k] fails, the next way to match [r] is
    tried. *)
Fixpoint run {R : Type} (r : t) {struct r}
    : string -> captures -> (string -> captures -> option R) -> option R :=
  match r with
  | Lit p => fun s c k =>
      match drop_prefix p s with
      | Some rest => k rest c
      | None => None
      end
  | Class p => fun s c k =>
      match s with
      | String a rest => if p a then k rest c else None
      | EmptyString => None
      end
  | Seq a b => fun s c k => run a s c (fun s' c' => run b s' c' k)
  | Alt a b => fun s c k =>
      match run a s c k with
      | Some x => Some x
      | None => run b s c k
      end
  | Star a => fun s c k =>
      (fix loop (fuel : nat) (s : string) (c : captures) {struct fuel} : option R :=
         match fuel with
         | O => k s c
         | S fuel' =>
             match run a s c (fun s' c' =>
                      if (String.length s' <? String.length s)%nat
                      then loop fuel' s' c' else None) with
             | Some x => Some x
             | None => k s c
             end
         end) (S (String.length s)) s c
  | Group i a => fun s c k =>
      run a s c (fun s' c' => k s' ((i, consumed s s') :: c'))
  end.

(** [s.match(r)] for a regular expression without the global flag: the
    leftmost match, as the matched text and the captures. *)
Fixpoint search (r : t) (s : string) : option (string * captures) :=
  match run r s [] (fun rest c => Some (rest, c)) with
  | Some (rest, c) => Some (consumed s rest, c)
  | None =>
      match s with
      | EmptyString => None
      | String _ s' => search r s'
      end
  end.

(** Character classes. *)
Definition digit (a : ascii) : bool :=
  let n := nat_of_ascii a in ((48 <=? n) && (n <=? 57))%nat%bool.
Definition lower (a : ascii) : bool :=
  let n := nat_of_ascii a in ((97 <=? n) && (n <=? 122))%nat%bool.
(** [\s], on ASCII: tab, line feed, vertical tab, form feed, carriage
    return and space. *)
Definition space (a : ascii) : bool :=
  let n := nat_of_ascii a in (((9 <=? n) && (n <=? 13)) || (n =? 32))%nat%bool.

End Regex.

Module Parse.

(** [parseInt(s)] for a string of decimal digits. *)
Definition digit_value (a : ascii) : Z := Z.of_nat (nat_of_ascii a) - 48.

Fixpoint digits_from (acc : Z) (s : string) : Z :=
  match s with
  | String a rest => if Regex.digit a then digits_from (10 * acc + digit_value a) rest else acc
  | EmptyString => acc
  end.

Definition parseInt (s : string) : Z := digits_from 0 s.

(** [parseInt(x)] for a number [x]: [parseInt] reads the decimal
    rendering [String(x)] up to the first character that is no digit.
    NaN and the infinities render as words and give NaN; a zero renders
    as "0".  A [positional] number renders without exponent, and the
    digits before the point are its integer part.  Any other finite
    number renders with an exponent ("1.5e-7", "1e+21"), of which
    [parseInt] returns the leading digit; that case is outside the
    embedding (the integer part is returned here too), and what is
    proved of a parsed number has [positional] as a hypothesis. *)
Definition parseInt_number (x : float) : float :=
  match Prim2SF x with
  | S754_nan | S754_infinity _ => nan
  | S754_zero _ => 0%float
  | S754_finite _ _ _ => Math_trunc x
  end.

(** The binary64 number nearest to [n / d] (ties to even), for [d > 0]. *)
Definition nearest_ratio (n d : Z) : float :=
  match n, d with
  | Z.pos p, Z.pos q => SF2Prim (SFdiv prec emax (S754_finite false p 0) (S754_finite false q 0))
  | _, _ => 0%float
  end.

(** [parseFloat(s)] for [s] of the form digits, or digits "." digits. *)
Definition parseFloat (s : string) : float :=
  let whole := Str.split_head "." s in
  let fraction :=
    String.substring (S (String.length whole))
                     (String.length s - S (String.length whole)) s in
  nearest_ratio (digits_from 0 (whole ++ fraction)) (10 ^ Z.of_nat (String.length fraction)).

End Parse.

(* ===================================================================== *)
(** * The pricing catalog table ([gcp_pricing_catalog])                    *)
(* ===================================================================== *)

Module Catalog.

(** One tier of a tiered rate, as the updater builds it; the start
    amount is a JavaScript number (the result of [parseInt]). *)
Record tier := {
  start_usage_amount : float;
  tier_price_per_unit : float;
  tier_currency_code : string;
}.

(** One row of the table.  Nullable columns are options.  Dates are day
    numbers (days since the epoch, UTC), timestamps are milliseconds. *)
Record entry := {
  sku_id : string;
  sku_name : string;
  service_name : string;
  service_id : string;
  resource_family : string;
  resource_group : string;
  usage_type : string;
  region : option string;
  currency_code : string;
  pricing_unit : string;
  price_per_unit : float;
  tiered_rates : option (list tier);
  machine_family : option string;
  machine_type : option string;
  vcpu_count : option Z;
  memory_gb : option float;
  disk_type : option string;
  gpu_type : option string;
  commitment_term : option string;
  commitment_type : option string;
  discount_percent : Z;
  network_tier : option string;
  effective_date : Z;
  last_updated : Z;
  pricing_source : string;
  is_active : bool;
  validation_status : string;
  description : string;
  category : string;
  tags : list string;
}.

(** SQL [column = @param] on a nullable column: true only when the
    column is not NULL and equal to the parameter. *)
Definition sql_eq (column : option string) (param : string) : bool :=
  match column with
  | Some v => String.eqb v param
  | None => false
  end.

(** SQL [column IS NULL]. *)
Definition is_null (column : option string) : bool :=
  match column with Some _ => false | None => true end.

(** [CASE WHEN c THEN 1 ELSE 2 END]. *)
Definition case_rank (c : bool) : Z := if c then 1 else 2.

(** [ORDER BY k1, k2 LIMIT 1]: the first row, in table order, among the
    rows whose key pair is least (SQL leaves the order of ties open;
    the table order is taken here). *)
Definition key_lt (a b : Z * Z) : bool :=
  ((fst a <? fst b) || ((fst a =? fst b) && (snd a <? snd b)))%bool.

Fixpoint least_by (key : entry -> Z * Z) (best : entry) (rows : list entry) : entry :=
  match rows with
  | [] => best
  | e :: rest => least_by key (if key_lt (key e) (key best) then e else best) rest
  end.

Definition order_by_limit_1 (key : entry -> Z * Z) (rows : list entry) : list entry :=
  match rows with
  | [] => []
  | e :: rest => [least_by key e rest]
  end.

End Catalog.

(* ===================================================================== *)
(** * The BoQ calculator                                                   *)
(* ===================================================================== *)

Module Disk.
(** An element of [additional_disks]. *)
Record t := {
  disk_type : option string;
  size_gb : Z;
  description : option string;
}.
End Disk.

Module DiskCost.
(** An element of [additional_storage_costs]. *)
Record t := {
  disk_type : option string;
  size_gb : Z;
  price_per_gb_month : float;
  cost_usd : float;
}.
End DiskCost.

Module Calc.

(** A row of [gcp_resource_specifications].  [machine_type] is declared
    NOT NULL by the schema; it is an option here so that a specification
    that lacks it can be written down. *)
Record ResourceSpecification := {
  project_id : string;
  resource_id : string;
  instance_name : option string;
  machine_type : option string;
  vcpu_count : Z;
  memory_gb : float;
  disk_type : string;
  disk_size_gb : Z;
  additional_disks : list Disk.t;
  region : string;
  usage_duration_hours : Z;
  usage_pattern : option string;
  pricing_model : string;
  gpu_type : option string;
  gpu_count : option Z;
  external_ip : bool;
  cost_center : option string;
  environment : option string;
  team : option string;
}.

(** The [pricing] object of [fetchPricingForResource]. *)
Record Pricing := {
  compute_price_per_hour : float;
  memory_price_per_gb_hour : float;
  storage_price_per_gb_month : float;
  network_price_per_gb : float;
  gpu_price_per_hour : float;
}.

(** The [costs] object of [calculateBaseCosts]. *)
Record Costs := {
  compute : float;
  memory : float;
  storage : float;
  network : float;
  gpu : float;
}.

(** The [discounts] object of [calculateDiscounts]. *)
Record Discounts := {
  sud_percent : Z;
  cud_percent : Z;
  spot_percent : Z;
  sud_amount : float;
  cud_amount : float;
  spot_amount : float;
}.

(** The object [calculateTotals] returns. *)
Record Totals := {
  subtotal : float;
  total_discount : float;
  total_cost : float;
}.

(* ------------------------------------------------------------------- *)
(** ** Helper functions                                                  *)

Definition getUsageType (pricingModel : string) : string :=
  if String.eqb pricingModel "spot" then "Preemptible"
  else if String.eqb pricingModel "preemptible" then "Preemptible"
  else if String.eqb pricingModel "cud-1-year" then "Committed"
  else if String.eqb pricingModel "cud-3-year" then "Committed"
  else "OnDemand".

Definition estimateComputePricing (resource : ResourceSpecification) : float :=
  let basePrice := 0.0475%float in
  let memoryPrice := 0.0063%float in
  (num (vcpu_count resource) * basePrice + memory_gb resource * memoryPrice)%float.

Definition getDefaultStoragePricing (diskType : option string) : float :=
  match diskType with
  | Some "pd-ssd" => 0.17%float
  | Some "pd-balanced" => 0.1%float
  | _ => 0.04%float
  end.

(** [resource.gpu_count && resource.gpu_count > 0]. *)
Definition has_gpu (resource : ResourceSpecification) : bool :=
  match gpu_count resource with
  | Some n => (negb (n =? 0) && (0 <? n))%bool
  | None => false
  end.

(** [gpu_count] as the number the arithmetic sees. *)
Definition gpu_count_num (resource : ResourceSpecification) : float :=
  match gpu_count resource with
  | Some n => num n
  | None => 0%float
  end.

(* ------------------------------------------------------------------- *)
(** ** The catalog store as the calculator queries it                    *)

(** The three parametrized queries of [fetchPricingForResource]. *)
Inductive Query :=
| ComputeQuery (machineType machineFamily region usageType : string)
| StorageQuery (diskType region : string)
| GpuQuery (gpuType : option string) (region : string).

(** The WHERE clause of each query; a NULL parameter equals nothing. *)
Definition where_clause (q : Query) (e : Catalog.entry) : bool :=
  match q with
  | ComputeQuery machineType machineFamily region usageType =>
      String.eqb (Catalog.service_name e) "Compute Engine"
      && String.eqb (Catalog.category e) "compute"
      && (Catalog.sql_eq (Catalog.machine_type e) machineType
          || Catalog.sql_eq (Catalog.machine_family e) machineFamily)
      && (Catalog.sql_eq (Catalog.region e) region || Catalog.is_null (Catalog.region e))
      && String.eqb (Catalog.usage_type e) usageType
      && Catalog.is_active e
  | StorageQuery diskType region =>
      String.eqb (Catalog.service_name e) "Compute Engine"
      && String.eqb (Catalog.category e) "storage"
      && Catalog.sql_eq (Catalog.disk_type e) diskType
      && (Catalog.sql_eq (Catalog.region e) region || Catalog.is_null (Catalog.region e))
      && Catalog.is_active e
  | GpuQuery gpuType region =>
      String.eqb (Catalog.service_name e) "Compute Engine"
      && String.eqb (Catalog.category e) "gpu"
      && match gpuType with
         | Some g => Catalog.sql_eq (Catalog.gpu_type e) g
         | None => false
         end
      && (Catalog.sql_eq (Catalog.region e) region || Catalog.is_null (Catalog.region e))
      && Catalog.is_active e
  end.

(** The ORDER BY keys of each query. *)
Definition order_key (q : Query) (e : Catalog.entry) : Z * Z :=
  match q with
  | ComputeQuery machineType _ region _ =>
      (Catalog.case_rank (Catalog.sql_eq (Catalog.machine_type e) machineType),
       Catalog.case_rank (Catalog.sql_eq (Catalog.region e) region))
  | StorageQuery _ region =>
      (Catalog.case_rank (Catalog.sql_eq (Catalog.region e) region), 0)
  | GpuQuery _ region =>
      (Catalog.case_rank (Catalog.sql_eq (Catalog.region e) region), 0)
  end.

Definition run_query (q : Query) (rows : list Catalog.entry) : list Catalog.entry :=
  Catalog.order_by_limit_1 (order_key q) (List.filter (where_clause q) rows).

(** The catalog store: the rows of the table, and which queries the
    service rejects (an outage, a permission error, ...). *)
Record Store := {
  catalog : list Catalog.entry;
  rejects : Query -> bool;
}.

(** [await bigquery.query({query, params})]. *)
Definition bigquery_query (db : Store) (q : Query) : Result (list Catalog.entry) :=
  if rejects db q then Throw "query failed"
  else Ok (run_query q (catalog db)).

(* ------------------------------------------------------------------- *)
(** ** fetchPricingForResource                                           *)

Definition set_compute_price_per_hour (v : float) (p : Pricing) : Pricing :=
  {| compute_price_per_hour := v;
     memory_price_per_gb_hour := memory_price_per_gb_hour p;
     storage_price_per_gb_month := storage_price_per_gb_month p;
     network_price_per_gb := network_price_per_gb p;
     gpu_price_per_hour := gpu_price_per_hour p |}.

Definition set_storage_price_per_gb_month (v : float) (p : Pricing) : Pricing :=
  {| compute_price_per_hour := compute_price_per_hour p;
     memory_price_per_gb_hour := memory_price_per_gb_hour p;
     storage_price_per_gb_month := v;
     network_price_per_gb := network_price_per_gb p;
     gpu_price_per_hour := gpu_price_per_hour p |}.

Definition set_gpu_price_per_hour (v : float) (p : Pricing) : Pricing :=
  {| compute_price_per_hour := compute_price_per_hour p;
     memory_price_per_gb_hour := memory_price_per_gb_hour p;
     storage_price_per_gb_month := storage_price_per_gb_month p;
     network_price_per_gb := network_price_per_gb p;
     gpu_price_per_hour := v |}.

(** The receiver of [resource.machine_type.split]: reading [split] off
    an absent field is a TypeError. *)
Definition split_receiver (machine_type : option string) : Result string :=
  match machine_type with
  | Some t => Ok t
  | None => Throw "Cannot read properties of undefined (reading 'split')"
  end.

(** The statements inside [try { ... }], on the [pricing] object. *)
Definition try_block (db : Store) (resource : ResourceSpecification) : Eff Pricing unit :=
  let usageType := getUsageType (pricing_model resource) in
  machineType ← eval (split_receiver (machine_type resource));
  let machineFamily := Str.split_head "-" machineType in
  computeRows ← eval (bigquery_query db
                   (ComputeQuery machineType machineFamily (region resource) usageType));
  modify (set_compute_price_per_hour
            match computeRows with
            | row :: _ => Catalog.price_per_unit row
            | [] => estimateComputePricing resource
            end);;
  storageRows ← eval (bigquery_query db
                   (StorageQuery (disk_type resource) (region resource)));
  modify (set_storage_price_per_gb_month
            match storageRows with
            | row :: _ => Catalog.price_per_unit row
            | [] => getDefaultStoragePricing (Some (disk_type resource))
            end);;
  if has_gpu resource then
    gpuRows ← eval (bigquery_query db (GpuQuery (gpu_type resource) (region resource)));
    match gpuRows with
    | row :: _ => modify (set_gpu_price_per_hour (Catalog.price_per_unit row))
    | [] => mret tt
    end
  else mret tt.

(** The statements inside [catch (error) { ... }]. *)
Definition catch_block (resource : ResourceSpecification) : Eff Pricing unit :=
  modify (set_compute_price_per_hour (estimateComputePricing resource));;
  modify (set_storage_price_per_gb_month
            (getDefaultStoragePricing (Some (disk_type resource)))).

Definition fetchPricingForResource (db : Store) (resource : ResourceSpecification) : Pricing :=
  let pricing :=
    {| compute_price_per_hour := 0;
       memory_price_per_gb_hour := 0;
       storage_price_per_gb_month := 0;
       network_price_per_gb := 0;
       gpu_price_per_hour := 0 |} in
  fst (try_catch (try_block db resource) (fun _ => catch_block resource) pricing).

(* ------------------------------------------------------------------- *)
(** ** calculateBaseCosts, calculateDiscounts, calculateTotals           *)

Definition calculateBaseCosts (resource : ResourceSpecification) (pricing : Pricing) : Costs :=
  let hours := num (usage_duration_hours resource) in
  let hoursPerMonth := 730%float in
  let storageMonths := (hours / hoursPerMonth)%float in
  {| compute := (compute_price_per_hour pricing * hours)%float;
     memory := 0;
     storage :=
       (storage_price_per_gb_month pricing * num (disk_size_gb resource) * storageMonths)%float;
     network := if external_ip resource then (0.004 * hours)%float else 0%float;
     gpu :=
       if has_gpu resource
       then (gpu_price_per_hour pricing * gpu_count_num resource * hours)%float
       else 0%float |}.

(** [Math.min(30, Math.floor((usage_duration_hours - 183) / 73) * 5)] on
    the integer column. *)
Definition sustained_use_percent (usage_duration_hours : Z) : Z :=
  Z.min 30 ((usage_duration_hours - 183) / 73 * 5).

Definition calculateDiscounts (resource : ResourceSpecification) (costs : Costs) : Discounts :=
  let totalComputeCost := (compute costs + gpu costs)%float in
  let model := pricing_model resource in
  if (String.eqb model "spot" || String.eqb model "preemptible")%bool then
    {| sud_percent := 0; cud_percent := 0; spot_percent := 60;
       sud_amount := 0; cud_amount := 0;
       spot_amount := (totalComputeCost * (num 60 / 100))%float |}
  else if String.eqb model "cud-1-year" then
    {| sud_percent := 0; cud_percent := 25; spot_percent := 0;
       sud_amount := 0;
       cud_amount := (totalComputeCost * (num 25 / 100))%float;
       spot_amount := 0 |}
  else if String.eqb model "cud-3-year" then
    {| sud_percent := 0; cud_percent := 37; spot_percent := 0;
       sud_amount := 0;
       cud_amount := (totalComputeCost * (num 37 / 100))%float;
       spot_amount := 0 |}
  else
    if ((183 <? usage_duration_hours resource)
        && bool_decide (usage_pattern resource = Some "continuous"))%bool
    then
      let percent := sustained_use_percent (usage_duration_hours resource) in
      {| sud_percent := percent; cud_percent := 0; spot_percent := 0;
         sud_amount := (totalComputeCost * (num percent / 100))%float;
         cud_amount := 0; spot_amount := 0 |}
    else
      {| sud_percent := 0; cud_percent := 0; spot_percent := 0;
         sud_amount := 0; cud_amount := 0; spot_amount := 0 |}.

Definition calculateTotals (costs : Costs) (discounts : Discounts) : Totals :=
  let subtotal :=
    (compute costs + memory costs + storage costs + network costs + gpu costs)%float in
  let totalDiscount :=
    (sud_amount discounts + cud_amount discounts + spot_amount discounts)%float in
  let totalCost := (subtotal - totalDiscount)%float in
  {| subtotal := subtotal;
     total_discount := totalDiscount;
     total_cost := Math_max 0 totalCost |}.

Definition calculateAdditionalStorageCosts
    (resource : ResourceSpecification) (pricing : Pricing) : list DiskCost.t :=
  let hoursPerMonth := 730%float in
  let storageMonths := (num (usage_duration_hours resource) / hoursPerMonth)%float in
  List.map (fun disk =>
    {| DiskCost.disk_type := Disk.disk_type disk;
       DiskCost.size_gb := Disk.size_gb disk;
       DiskCost.price_per_gb_month := getDefaultStoragePricing (Disk.disk_type disk);
       DiskCost.cost_usd :=
         (getDefaultStoragePricing (Disk.disk_type disk)
          * num (Disk.size_gb disk) * storageMonths)%float |})
    (additional_disks resource).

(* ------------------------------------------------------------------- *)
(** ** calculateResourceBoQ                                              *)

Module Item.
(** A BoQ line item: the object [calculateResourceBoQ] returns. *)
Record t := {
  boq_id : string;
  calculation_timestamp : Z;
  requested_by : option string;
  resource_id : string;
  project_id : string;
  instance_name : option string;
  machine_type : option string;
  vcpu_count : Z;
  memory_gb : float;
  disk_type : string;
  disk_size_gb : Z;
  region : string;
  pricing_model : string;
  usage_duration_hours : Z;
  usage_pattern : option string;
  compute_cost_usd : float;
  memory_cost_usd : float;
  storage_cost_usd : float;
  network_cost_usd : float;
  gpu_cost_usd : float;
  compute_price_per_hour : float;
  memory_price_per_gb_hour : float;
  storage_price_per_gb_month : float;
  sustained_use_discount_percent : Z;
  committed_use_discount_percent : Z;
  spot_discount_percent : Z;
  subtotal_usd : float;
  total_discount_usd : float;
  total_cost_usd : float;
  additional_storage_costs : list DiskCost.t;
  pricing_date : Z;
  calculation_version : string;
  cost_center : option string;
  environment : option string;
  team : option string;
}.
End Item.

(** Milliseconds per day: [toISOString().split("T")[0]] is the UTC day. *)
Definition day_of (now : Z) : Z := now / 86400000.

Definition calculateResourceBoQ
    (db : Store) (now : Z)
    (resource : ResourceSpecification) (boqId : string) (requestedBy : option string)
    : Item.t :=
  let pricing := fetchPricingForResource db resource in
  let costs := calculateBaseCosts resource pricing in
  let discounts := calculateDiscounts resource costs in
  let totals := calculateTotals costs discounts in
  {| Item.boq_id := boqId;
     Item.calculation_timestamp := now;
     Item.requested_by := requestedBy;
     Item.resource_id := resource_id resource;
     Item.project_id := project_id resource;
     Item.instance_name := instance_name resource;
     Item.machine_type := machine_type resource;
     Item.vcpu_count := vcpu_count resource;
     Item.memory_gb := memory_gb resource;
     Item.disk_type := disk_type resource;
     Item.disk_size_gb := disk_size_gb resource;
     Item.region := region resource;
     Item.pricing_model := pricing_model resource;
     Item.usage_duration_hours := usage_duration_hours resource;
     Item.usage_pattern := usage_pattern resource;
     Item.compute_cost_usd := compute costs;
     Item.memory_cost_usd := memory costs;
     Item.storage_cost_usd := storage costs;
     Item.network_cost_usd := network costs;
     Item.gpu_cost_usd := gpu costs;
     Item.compute_price_per_hour := compute_price_per_hour pricing;
     Item.memory_price_per_gb_hour := memory_price_per_gb_hour pricing;
     Item.storage_price_per_gb_month := storage_price_per_gb_month pricing;
     Item.sustained_use_discount_percent := sud_percent discounts;
     Item.committed_use_discount_percent := cud_percent discounts;
     Item.spot_discount_percent := spot_percent discounts;
     Item.subtotal_usd := subtotal totals;
     Item.total_discount_usd := total_discount totals;
     Item.total_cost_usd := total_cost totals;
     Item.additional_storage_costs := calculateAdditionalStorageCosts resource pricing;
     Item.pricing_date := day_of now;
     Item.calculation_version := "1.0";
     Item.cost_center := cost_center resource;
     Item.environment := environment resource;
     Item.team := team resource |}.

(* ------------------------------------------------------------------- *)
(** ** calculateSummary                                                  *)

Record Summary := {
  total_resources : nat;
  total_cost_usd : float;
  total_discount_usd : float;
  average_cost_per_resource : float;
  cost_by_project : gmap string float;
  cost_by_region : gmap string float;
}.

(** The names every plain JavaScript object inherits from
    [Object.prototype].  Reading one of them off [{}] finds the
    inherited value, not [undefined], and assigning to [__proto__] adds
    no own key. *)
Definition inherited_names : list string :=
  ["constructor"; "__proto__"; "hasOwnProperty"; "isPrototypeOf";
   "propertyIsEnumerable"; "toLocaleString"; "toString"; "valueOf";
   "__defineGetter__"; "__defineSetter__"; "__lookupGetter__"; "__lookupSetter__"].

(** A key under which a plain object behaves as a finite map. *)
Definition plain_key (key : string) : Prop := ~ In key inherited_names.

(** [(m[key] || 0) + amount], stored back under [key], for a
    [plain_key]: the lookup then finds an own property or nothing.  The
    theorems about the keys of the summary carry [plain_key] as a
    hypothesis. *)
Definition accumulate (m : gmap string float) (key : string) (amount : float)
    : gmap string float :=
  let previous :=
    match m !! key with
    | Some v => if truthy v then v else 0%float
    | None => 0%float
    end in
  <[key := (previous + amount)%float]> m.

(** [calculateSummary]; [None] is the empty object [{}]. *)
Definition calculateSummary (results : list Item.t) : option Summary :=
  match results with
  | [] => None
  | _ =>
      let totalCost :=
        fold_left (fun sum r => (sum + Item.total_cost_usd r)%float) results 0%float in
      let totalDiscount :=
        fold_left (fun sum r => (sum + Item.total_discount_usd r)%float) results 0%float in
      let avgCost := (totalCost / num (Z.of_nat (length results)))%float in
      Some {| total_resources := length results;
              total_cost_usd := totalCost;
              total_discount_usd := totalDiscount;
              average_cost_per_resource := avgCost;
              cost_by_project :=
                fold_left (fun m r => accumulate m (Item.project_id r) (Item.total_cost_usd r))
                          results ∅;
              cost_by_region :=
                fold_left (fun m r => accumulate m (Item.region r) (Item.total_cost_usd r))
                          results ∅ |}
  end.

(* ------------------------------------------------------------------- *)
(** ** The calculateBoQ handler                                          *)

(** What the handler sends back. *)
Inductive Response :=
| Status200 (boq_id : string) (resources_processed : nat)
            (summary : option Summary) (results : list Item.t) (timestamp : Z)
| Status404 (message : string)
| Status500 (message : string) (timestamp : Z).

(** The [success] field of the response body. *)
Definition success (r : Response) : bool :=
  match r with
  | Status200 _ _ _ _ _ => true
  | Status404 _ | Status500 _ _ => false
  end.

Definition resources_processed (r : Response) : option nat :=
  match r with
  | Status200 _ n _ _ _ => Some n
  | _ => None
  end.

Definition summary_of (r : Response) : option Summary :=
  match r with
  | Status200 _ _ s _ _ => s
  | _ => None
  end.

Definition results_of (r : Response) : list Item.t :=
  match r with
  | Status200 _ _ _ rs _ => rs
  | _ => []
  end.

(** What the handler meets outside the engine: the outcome of
    [fetchResourceSpecifications], the catalog store, whether the insert
    into the results table is rejected, the clock and the fresh uuid. *)
Record World := {
  fetched : Result (list ResourceSpecification);
  db : Store;
  save_rejects : bool;
  now : Z;
  uuid : string;
}.

Section Loop.

(** The awaited per-resource calculation, which may throw. *)
Variable calculate : ResourceSpecification -> Result Item.t.

(** The [for (const resource of resourceSpecs) { try ... catch ... }]
    loop over the accumulator [boqResults]. *)
Fixpoint for_each_resource (resourceSpecs : list ResourceSpecification)
    (boqResults : list Item.t) : list Item.t :=
  match resourceSpecs with
  | [] => boqResults
  | resource :: rest =>
      match calculate resource with
      | Ok boqResult => for_each_resource rest (boqResults ++ [boqResult])
      | Throw _ => for_each_resource rest boqResults
      end
  end.

(** [saveBoQResults]: logs and rethrows. *)
Definition saveBoQResults (w : World) (results : list Item.t) : Result unit :=
  if save_rejects w then Throw "insert failed" else Ok tt.

Definition handler (w : World) : Response :=
  let attempt : Result Response :=
    resourceSpecs ← fetched w;
    match resourceSpecs with
    | [] => Ok (Status404 "No resource specifications found matching the criteria")
    | _ =>
        let boqResults := for_each_resource resourceSpecs [] in
        _ ← match boqResults with
            | [] => Ok tt
            | _ => saveBoQResults w boqResults
            end;
        let summary := calculateSummary boqResults in
        Ok (Status200 (uuid w) (length boqResults) summary boqResults (now w))
    end in
  match attempt with
  | Ok response => response
  | Throw message => Status500 message (now w)
  end.

End Loop.

(** The handler as deployed: the per-resource step is
    [calculateResourceBoQ]. *)
Definition calculateBoQ (w : World) (requestedBy : option string) : Response :=
  handler (fun resource =>
             Ok (calculateResourceBoQ (db w) (now w) resource (uuid w) requestedBy)) w.

End Calc.

(* ===================================================================== *)
(** * The raw pricing feed (Cloud Billing SKUs)                            *)
(* ===================================================================== *)

Module Billing.

(** A fixed-point amount: whole units and billionths.  [units] is an
    int64, which the billing client delivers as a string of decimal
    digits: [Some n] stands for the digits of [n] (a truthy string, also
    for 0), and [parseInt] of it is [n].  [nanos] is an int32, delivered
    as a number. *)
Record Money := {
  units : option Z;
  nanos : option Z;
  currencyCode : option string;
}.

(** A tier of the price list; the start amount is a double. *)
Record TierRate := {
  startUsageAmount : option float;
  unitPrice : option Money;
}.

Record PricingExpression := {
  usageUnit : string;
  tieredRates : option (list TierRate);
}.

Record PricingInfo := {
  pricingExpression : option PricingExpression;
}.

Record Sku := {
  skuId : string;
  description : string;
  serviceRegions : option (list string);
  pricingInfo : option (list PricingInfo);
}.

(** Reading a property off [x]: a TypeError when [x] is undefined. *)
Definition defined {A} (x : option A) : Result A :=
  match x with
  | Some a => Ok a
  | None => Throw "Cannot read properties of undefined"
  end.

(** [x || 0] for an optional integer. *)
Definition or_zero (x : option Z) : Z := default 0 x.

(** [x || "USD"]: the empty string is falsy too. *)
Definition or_usd (x : option string) : string :=
  match x with
  | Some "" | None => "USD"
  | Some c => c
  end.

End Billing.

(* ===================================================================== *)
(** * The pricing updater                                                  *)
(* ===================================================================== *)

Module Updater.
Import Billing.

(** The [info] object of [extractMachineInfo]. *)
Record MachineInfo := {
  resourceFamily : string;
  resourceGroup : string;
  usageType : string;
  machineFamily : option string;
  machineType : option string;
  vcpuCount : option Z;
  memoryGb : option float;
  diskType : option string;
  gpuType : option string;
  commitmentTerm : option string;
  commitmentType : option string;
  discountPercent : Z;
  networkTier : option string;
  category : string;
  tags : list string;
}.

(** Assignments to one field of [info]. *)
Definition set_resourceGroup (v : string) (info : MachineInfo) : MachineInfo :=
  {| resourceFamily := resourceFamily info; resourceGroup := v;
     usageType := usageType info; machineFamily := machineFamily info;
     machineType := machineType info; vcpuCount := vcpuCount info;
     memoryGb := memoryGb info; diskType := diskType info; gpuType := gpuType info;
     commitmentTerm := commitmentTerm info; commitmentType := commitmentType info;
     discountPercent := discountPercent info; networkTier := networkTier info;
     category := category info; tags := tags info |}.

Definition set_usageType (v : string) (info : MachineInfo) : MachineInfo :=
  {| resourceFamily := resourceFamily info; resourceGroup := resourceGroup info;
     usageType := v; machineFamily := machineFamily info; machineType := machineType info;
     vcpuCount := vcpuCount info; memoryGb := memoryGb info; diskType := diskType info;
     gpuType := gpuType info; commitmentTerm := commitmentTerm info;
     commitmentType := commitmentType info; discountPercent := discountPercent info;
     networkTier := networkTier info; category := category info; tags := tags info |}.

Definition set_machineFamily (v : option string) (info : MachineInfo) : MachineInfo :=
  {| resourceFamily := resourceFamily info; resourceGroup := resourceGroup info;
     usageType := usageType info; machineFamily := v; machineType := machineType info;
     vcpuCount := vcpuCount info; memoryGb := memoryGb info; diskType := diskType info;
     gpuType := gpuType info; commitmentTerm := commitmentTerm info;
     commitmentType := commitmentType info; discountPercent := discountPercent info;
     networkTier := networkTier info; category := category info; tags := tags info |}.

Definition set_machineType (v : option string) (info : MachineInfo) : MachineInfo :=
  {| resourceFamily := resourceFamily info; resourceGroup := resourceGroup info;
     usageType := usageType info; machineFamily := machineFamily info; machineType := v;
     vcpuCount := vcpuCount info; memoryGb := memoryGb info; diskType := diskType info;
     gpuType := gpuType info; commitmentTerm := commitmentTerm info;
     commitmentType := commitmentType info; discountPercent := discountPercent info;
     networkTier := networkTier info; category := category info; tags := tags info |}.

Definition set_vcpuCount (v : option Z) (info : MachineInfo) : MachineInfo :=
  {| resourceFamily := resourceFamily info; resourceGroup := resourceGroup info;
     usageType := usageType info; machineFamily := machineFamily info;
     machineType := machineType info; vcpuCount := v; memoryGb := memoryGb info;
     diskType := diskType info; gpuType := gpuType info;
     commitmentTerm := commitmentTerm info; commitmentType := commitmentType info;
     discountPercent := discountPercent info; networkTier := networkTier info;
     category := category info; tags := tags info |}.

Definition set_memoryGb (v : option float) (info : MachineInfo) : MachineInfo :=
  {| resourceFamily := resourceFamily info; resourceGroup := resourceGroup info;
     usageType := usageType info; machineFamily := machineFamily info;
     machineType := machineType info; vcpuCount := vcpuCount info; memoryGb := v;
     diskType := diskType info; gpuType := gpuType info;
     commitmentTerm := commitmentTerm info; commitmentType := commitmentType info;
     discountPercent := discountPercent info; networkTier := networkTier info;
     category := category info; tags := tags info |}.

Definition set_diskType (v : option string) (info : MachineInfo) : MachineInfo :=
  {| resourceFamily := resourceFamily info; resourceGroup := resourceGroup info;
     usageType := usageType info; machineFamily := machineFamily info;
     machineType := machineType info; vcpuCount := vcpuCount info;
     memoryGb := memoryGb info; diskType := v; gpuType := gpuType info;
     commitmentTerm := commitmentTerm info; commitmentType := commitmentType info;
     discountPercent := discountPercent info; networkTier := networkTier info;
     category := category info; tags := tags info |}.

Definition set_gpuType (v : option string) (info : MachineInfo) : MachineInfo :=
  {| resourceFamily := resourceFamily info; resourceGroup := resourceGroup info;
     usageType := usageType info; machineFamily := machineFamily info;
     machineType := machineType info; vcpuCount := vcpuCount info;
     memoryGb := memoryGb info; diskType := diskType info; gpuType := v;
     commitmentTerm := commitmentTerm info; commitmentType := commitmentType info;
     discountPercent := discountPercent info; networkTier := networkTier info;
     category := category info; tags := tags info |}.

Definition set_commitmentTerm (v : option string) (info : MachineInfo) : MachineInfo :=
  {| resourceFamily := resourceFamily info; resourceGroup := resourceGroup info;
     usageType := usageType info; machineFamily := machineFamily info;
     machineType := machineType info; vcpuCount := vcpuCount info;
     memoryGb := memoryGb info; diskType := diskType info; gpuType := gpuType info;
     commitmentTerm := v; commitmentType := commitmentType info;
     discountPercent := discountPercent info; networkTier := networkTier info;
     category := category info; tags := tags info |}.

Definition set_commitmentType (v : option string) (info : MachineInfo) : MachineInfo :=
  {| resourceFamily := resourceFamily info; resourceGroup := resourceGroup info;
     usageType := usageType info; machineFamily := machineFamily info;
     machineType := machineType info; vcpuCount := vcpuCount info;
     memoryGb := memoryGb info; diskType := diskType info; gpuType := gpuType info;
     commitmentTerm := commitmentTerm info; commitmentType := v;
     discountPercent := discountPercent info; networkTier := networkTier info;
     category := category info; tags := tags info |}.

Definition set_discountPercent (v : Z) (info : MachineInfo) : MachineInfo :=
  {| resourceFamily := resourceFamily info; resourceGroup := resourceGroup info;
     usageType := usageType info; machineFamily := machineFamily info;
     machineType := machineType info; vcpuCount := vcpuCount info;
     memoryGb := memoryGb info; diskType := diskType info; gpuType := gpuType info;
     commitmentTerm := commitmentTerm info; commitmentType := commitmentType info;
     discountPercent := v; networkTier := networkTier info; category := category info;
     tags := tags info |}.

Definition set_networkTier (v : option string) (info : MachineInfo) : MachineInfo :=
  {| resourceFamily := resourceFamily info; resourceGroup := resourceGroup info;
     usageType := usageType info; machineFamily := machineFamily info;
     machineType := machineType info; vcpuCount := vcpuCount info;
     memoryGb := memoryGb info; diskType := diskType info; gpuType := gpuType info;
     commitmentTerm := commitmentTerm info; commitmentType := commitmentType info;
     discountPercent := discountPercent info; networkTier := v; category := category info;
     tags := tags info |}.

Definition set_category (v : string) (info : MachineInfo) : MachineInfo :=
  {| resourceFamily := resourceFamily info; resourceGroup := resourceGroup info;
     usageType := usageType info; machineFamily := machineFamily info;
     machineType := machineType info; vcpuCount := vcpuCount info;
     memoryGb := memoryGb info; diskType := diskType info; gpuType := gpuType info;
     commitmentTerm := commitmentTerm info; commitmentType := commitmentType info;
     discountPercent := discountPercent info; networkTier := networkTier info;
     category := v; tags := tags info |}.

Definition set_tags (v : list string) (info : MachineInfo) : MachineInfo :=
  {| resourceFamily := resourceFamily info; resourceGroup := resourceGroup info;
     usageType := usageType info; machineFamily := machineFamily info;
     machineType := machineType info; vcpuCount := vcpuCount info;
     memoryGb := memoryGb info; diskType := diskType info; gpuType := gpuType info;
     commitmentTerm := commitmentTerm info; commitmentType := commitmentType info;
     discountPercent := discountPercent info; networkTier := networkTier info;
     category := category info; tags := v |}.

(** [info.tags.push(tag)]. *)
Definition push_tag (tag : string) (info : MachineInfo) : MachineInfo :=
  set_tags (tags info ++ [tag]) info.

(** Statements executed in order on [info]. *)
Definition statements (block : list (MachineInfo -> MachineInfo)) (info : MachineInfo)
    : MachineInfo :=
  fold_left (fun i statement => statement i) block info.

(* ------------------------------------------------------------------- *)
(** ** The regular expressions of the parser                             *)

Definition families : list string :=
  ["n1"; "n2"; "n2d"; "e2"; "c2"; "c2d"; "m1"; "m2"; "f1"; "g1"; "a2"; "t2d"; "t2a"].

(** [/(n1|n2|...|t2a)-/] *)
Definition family_re : Regex.t :=
  Regex.Seq (Regex.Group 1 (Regex.one_of families)) (Regex.Lit "-").

(** [/(n1|n2|...|t2a)-[a-z0-9-]+/] *)
Definition machine_re : Regex.t :=
  Regex.Seq (Regex.Group 1 (Regex.one_of families))
    (Regex.Seq (Regex.Lit "-")
       (Regex.Plus (Regex.Class (fun a =>
          (Regex.lower a || Regex.digit a || Ascii.eqb a "-")%bool)))).

(** [/(\d+)\s*vcpu/] *)
Definition vcpu_re : Regex.t :=
  Regex.Seq (Regex.Group 1 (Regex.Plus (Regex.Class Regex.digit)))
    (Regex.Seq (Regex.Star (Regex.Class Regex.space)) (Regex.Lit "vcpu")).

(** [/(\d+(?:\.\d+)?)\s*gb/] *)
Definition memory_re : Regex.t :=
  Regex.Seq
    (Regex.Group 1
       (Regex.Seq (Regex.Plus (Regex.Class Regex.digit))
          (Regex.Opt (Regex.Seq (Regex.Lit ".") (Regex.Plus (Regex.Class Regex.digit))))))
    (Regex.Seq (Regex.Star (Regex.Class Regex.space)) (Regex.Lit "gb")).

(** [/(nvidia|tesla)[-\s]([a-z0-9]+)/] *)
Definition gpu_re : Regex.t :=
  Regex.Seq (Regex.Group 1 (Regex.one_of ["nvidia"; "tesla"]))
    (Regex.Seq (Regex.Class (fun a => (Ascii.eqb a "-" || Regex.space a)%bool))
       (Regex.Group 2 (Regex.Plus (Regex.Class (fun a =>
          (Regex.lower a || Regex.digit a)%bool))))).

(* ------------------------------------------------------------------- *)
(** ** extractMachineInfo, one definition per block of the source        *)

Definition initial_info : MachineInfo :=
  {| resourceFamily := "Compute";
     resourceGroup := "Standard";
     usageType := "OnDemand";
     machineFamily := None;
     machineType := None;
     vcpuCount := None;
     memoryGb := None;
     diskType := None;
     gpuType := None;
     commitmentTerm := None;
     commitmentType := None;
     discountPercent := 0;
     networkTier := None;
     category := "compute";
     tags := [] |}.

(** Extract machine family and type. *)
Definition family_block (desc : string) : MachineInfo -> MachineInfo :=
  match Regex.search family_re desc with
  | Some (_, groups) =>
      let family := Regex.group 1 groups in
      statements
        [ set_machineFamily (Some family);
          set_resourceGroup (Str.toUpperCase family ++ "Standard");
          push_tag ("family:" ++ family) ]
  | None => statements []
  end.

Definition machine_block (desc : string) : MachineInfo -> MachineInfo :=
  match Regex.search machine_re desc with
  | Some (whole, _) => statements [ set_machineType (Some whole) ]
  | None => statements []
  end.

(** Extract vCPU count. *)
Definition vcpu_block (desc : string) : MachineInfo -> MachineInfo :=
  match Regex.search vcpu_re desc with
  | Some (_, groups) =>
      statements [ set_vcpuCount (Some (Parse.parseInt (Regex.group 1 groups))) ]
  | None => statements []
  end.

(** Extract memory. *)
Definition memory_block (desc : string) : MachineInfo -> MachineInfo :=
  match Regex.search memory_re desc with
  | Some (_, groups) =>
      statements [ set_memoryGb (Some (Parse.parseFloat (Regex.group 1 groups))) ]
  | None => statements []
  end.

(** Detect categories and types. *)
Definition disk_block (desc : string) : MachineInfo -> MachineInfo :=
  if Str.includes desc "ssd" then
    statements [ set_diskType (Some "pd-ssd"); set_category "storage";
                 push_tag "storage:ssd" ]
  else if Str.includes desc "balanced" then
    statements [ set_diskType (Some "pd-balanced"); set_category "storage";
                 push_tag "storage:balanced" ]
  else if Str.includes desc "standard" then
    if (Str.includes desc "disk" || Str.includes desc "storage")%bool then
      statements [ set_diskType (Some "pd-standard"); set_category "storage";
                   push_tag "storage:standard" ]
    else statements []
  else statements [].

(** Detect GPU. *)
Definition gpu_block (desc : string) : MachineInfo -> MachineInfo :=
  if (Str.includes desc "gpu" || Str.includes desc "nvidia" || Str.includes desc "tesla")%bool
  then
    statements
      [ set_category "gpu";
        match Regex.search gpu_re desc with
        | Some (_, groups) =>
            let gpu := Regex.group 1 groups ++ "-" ++ Regex.group 2 groups in
            statements [ set_gpuType (Some gpu); push_tag ("gpu:" ++ gpu) ]
        | None => statements []
        end ]
  else statements [].

(** Detect usage types. *)
Definition usage_block (desc : string) : MachineInfo -> MachineInfo :=
  if (Str.includes desc "preemptible" || Str.includes desc "spot")%bool then
    statements [ set_usageType "Preemptible"; push_tag "usage:preemptible" ]
  else statements [].

(** Detect commitment terms. *)
Definition commitment_block (desc : string) : MachineInfo -> MachineInfo :=
  if (Str.includes desc "1 year" || Str.includes desc "1-year")%bool then
    statements [ set_commitmentTerm (Some "1-year"); set_usageType "Committed";
                 set_commitmentType (Some "resource"); set_discountPercent 25;
                 push_tag "commitment:1-year" ]
  else if (Str.includes desc "3 year" || Str.includes desc "3-year")%bool then
    statements [ set_commitmentTerm (Some "3-year"); set_usageType "Committed";
                 set_commitmentType (Some "resource"); set_discountPercent 37;
                 push_tag "commitment:3-year" ]
  else statements [].

(** Detect network tiers. *)
Definition network_block (desc : string) : MachineInfo -> MachineInfo :=
  if Str.includes desc "premium" then
    statements [ set_networkTier (Some "premium"); set_category "network";
                 push_tag "network:premium" ]
  else if Str.includes desc "standard" then
    if (Str.includes desc "network" || Str.includes desc "egress"
        || Str.includes desc "ip")%bool then
      statements [ set_networkTier (Some "standard"); set_category "network";
                   push_tag "network:standard" ]
    else statements []
  else statements [].

(** Regional vs global. *)
Definition scope_block (desc : string) : MachineInfo -> MachineInfo :=
  if Str.includes desc "regional" then statements [ push_tag "scope:regional" ]
  else if Str.includes desc "global" then statements [ push_tag "scope:global" ]
  else statements [].

Definition extractMachineInfo (description : string) : MachineInfo :=
  let desc := Str.toLowerCase description in
  statements
    [ family_block desc; machine_block desc; vcpu_block desc; memory_block desc;
      disk_block desc; gpu_block desc; usage_block desc; commitment_block desc;
      network_block desc; scope_block desc ]
    initial_info.

(* ------------------------------------------------------------------- *)
(** ** isRelevantSku                                                     *)

Definition relevantKeywords : list string :=
  ["instance"; "vm"; "virtual machine"; "disk"; "storage"; "persistent"; "gpu";
   "nvidia"; "tesla"; "ip address"; "network"; "memory"; "cpu"; "core"].

Definition excludeKeywords : list string :=
  ["license"; "support"; "premium support"; "api"; "monitoring"; "logging";
   "backup"; "snapshot transfer"].

Definition isRelevantSku (sku : Sku) : bool :=
  let description := Str.toLowerCase (description sku) in
  let hasRelevantKeyword := existsb (fun keyword => Str.includes description keyword)
                                     relevantKeywords in
  let hasExcludeKeyword := existsb (fun keyword => Str.includes description keyword)
                                    excludeKeywords in
  (hasRelevantKeyword && negb hasExcludeKeyword)%bool.

(* ------------------------------------------------------------------- *)
(** ** extractPricingInfo                                                *)

(** [parseInt(price.nanos || 0) / 1000000000 + parseInt(price.units || 0)] *)
Definition decimal_price (price : Money) : float :=
  (num (or_zero (nanos price)) / 1000000000 + num (or_zero (units price)))%float.

(** [rate.startUsageAmount || 0]. *)
Definition start_or_zero (rate : TierRate) : float :=
  match startUsageAmount rate with
  | Some x => if truthy x then x else 0%float
  | None => 0%float
  end.

(** One element of [tieredRates.map(...)]. *)
Definition tier_of (rate : TierRate) : Result Catalog.tier :=
  unitPrice ← defined (unitPrice rate);
  Ok {| Catalog.start_usage_amount := Parse.parseInt_number (start_or_zero rate);
        Catalog.tier_price_per_unit := decimal_price unitPrice;
        Catalog.tier_currency_code := or_usd (currencyCode unitPrice) |}.

Fixpoint map_tiers (rates : list TierRate) : Result (list Catalog.tier) :=
  match rates with
  | [] => Ok []
  | rate :: rest =>
      t ← tier_of rate;
      ts ← map_tiers rest;
      Ok (t :: ts)
  end.

(** Milliseconds per day: [toISOString().split("T")[0]] is the UTC day. *)
Definition day_of (now : Z) : Z := now / 86400000.

(** The body of the [try] block; [Ok None] is [return null]. *)
Definition extract (now : Z) (sku : Sku) (serviceName serviceId : string)
    : Result (option Catalog.entry) :=
  match pricingInfo sku with
  | None | Some [] => Ok None
  | Some (pricing :: _) =>
      pricingExpression ← defined (pricingExpression pricing);
      match tieredRates pricingExpression with
      | None | Some [] => Ok None
      | Some ((baseRate :: _) as rates) =>
          price ← defined (unitPrice baseRate);
          let pricePerUnit := decimal_price price in
          if (pricePerUnit =? 0)%float then Ok None
          else
            let machineInfo := extractMachineInfo (description sku) in
            tieredRates ← map_tiers rates;
            Ok (Some
              {| Catalog.sku_id := skuId sku;
                 Catalog.sku_name := description sku;
                 Catalog.service_name := serviceName;
                 Catalog.service_id := serviceId;
                 Catalog.resource_family := resourceFamily machineInfo;
                 Catalog.resource_group := resourceGroup machineInfo;
                 Catalog.usage_type := usageType machineInfo;
                 Catalog.region :=
                   match serviceRegions sku with
                   | Some (first :: _) => Some first
                   | _ => None
                   end;
                 Catalog.currency_code := or_usd (currencyCode price);
                 Catalog.pricing_unit := usageUnit pricingExpression;
                 Catalog.price_per_unit := pricePerUnit;
                 Catalog.tiered_rates :=
                   if (1 <? length tieredRates)%nat then Some tieredRates else None;
                 Catalog.machine_family := machineFamily machineInfo;
                 Catalog.machine_type := machineType machineInfo;
                 Catalog.vcpu_count := vcpuCount machineInfo;
                 Catalog.memory_gb := memoryGb machineInfo;
                 Catalog.disk_type := diskType machineInfo;
                 Catalog.gpu_type := gpuType machineInfo;
                 Catalog.commitment_term := commitmentTerm machineInfo;
                 Catalog.commitment_type := commitmentType machineInfo;
                 Catalog.discount_percent := discountPercent machineInfo;
                 Catalog.network_tier := networkTier machineInfo;
                 Catalog.effective_date := day_of now;
                 Catalog.last_updated := now;
                 Catalog.pricing_source := "cloud-billing-api";
                 Catalog.is_active := true;
                 Catalog.validation_status := "valid";
                 Catalog.description := description sku;
                 Catalog.category := category machineInfo;
                 Catalog.tags := tags machineInfo |})
      end
  end.

(** [extractPricingInfo]: any exception inside is logged and turned
    into [null]. *)
Definition extractPricingInfo (now : Z) (sku : Sku) (serviceName serviceId : string)
    : option Catalog.entry :=
  match extract now sku serviceName serviceId with
  | Ok result => result
  | Throw _ => None
  end.

(* ------------------------------------------------------------------- *)
(** ** The store and the world around a refresh                          *)

(** The rows of [gcp_pricing_catalog]. *)
Definition Table : Type := list Catalog.entry.

(** What a refresh meets outside the engine: the outcome of
    [billingClient.listSkus], which store operations are rejected (the
    insert per batch number, counted from 0), the clock, and the time
    zone of the host as far as the purge depends on it: [zone_shift] is
    by how many milliseconds the instant that the host's local calendar
    gives for "the same time 90 days ago" differs from [now] minus 90
    times 24 hours.  It is 0 on a host whose time zone is UTC, and an
    hour where daylight saving time began or ended in between. *)
Record World := {
  listed : Result (list Sku);
  update_rejects : bool;
  insert_rejects : nat -> bool;
  delete_rejects : bool;
  report_rejects : bool;
  now : Z;
  zone_shift : Z;
}.

(* ------------------------------------------------------------------- *)
(** ** fetchServicePricing                                               *)

(** The [for (const sku of skus)] loop over the accumulator
    [pricingData]. *)
Fixpoint for_each_sku (now : Z) (serviceName serviceId : string)
    (skus : list Sku) (pricingData : list Catalog.entry) : list Catalog.entry :=
  match skus with
  | [] => pricingData
  | sku :: rest =>
      if negb (isRelevantSku sku) then for_each_sku now serviceName serviceId rest pricingData
      else
        match extractPricingInfo now sku serviceName serviceId with
        | Some pricingInfo =>
            for_each_sku now serviceName serviceId rest (pricingData ++ [pricingInfo])
        | None => for_each_sku now serviceName serviceId rest pricingData
        end
  end.

Definition fetchServicePricing (w : World) (serviceId serviceName : string)
    : list Catalog.entry :=
  match listed w with
  | Ok skus => for_each_sku (now w) serviceName serviceId skus []
  | Throw _ => []
  end.

(* ------------------------------------------------------------------- *)
(** ** The three lifecycle steps                                         *)

(** [UPDATE ... SET is_active = false, last_updated = CURRENT_TIMESTAMP()
     WHERE is_active = true AND effective_date < @effectiveDate] *)
Definition deactivate (now : Z) (e : Catalog.entry) : Catalog.entry :=
  {| Catalog.sku_id := Catalog.sku_id e;
     Catalog.sku_name := Catalog.sku_name e;
     Catalog.service_name := Catalog.service_name e;
     Catalog.service_id := Catalog.service_id e;
     Catalog.resource_family := Catalog.resource_family e;
     Catalog.resource_group := Catalog.resource_group e;
     Catalog.usage_type := Catalog.usage_type e;
     Catalog.region := Catalog.region e;
     Catalog.currency_code := Catalog.currency_code e;
     Catalog.pricing_unit := Catalog.pricing_unit e;
     Catalog.price_per_unit := Catalog.price_per_unit e;
     Catalog.tiered_rates := Catalog.tiered_rates e;
     Catalog.machine_family := Catalog.machine_family e;
     Catalog.machine_type := Catalog.machine_type e;
     Catalog.vcpu_count := Catalog.vcpu_count e;
     Catalog.memory_gb := Catalog.memory_gb e;
     Catalog.disk_type := Catalog.disk_type e;
     Catalog.gpu_type := Catalog.gpu_type e;
     Catalog.commitment_term := Catalog.commitment_term e;
     Catalog.commitment_type := Catalog.commitment_type e;
     Catalog.discount_percent := Catalog.discount_percent e;
     Catalog.network_tier := Catalog.network_tier e;
     Catalog.effective_date := Catalog.effective_date e;
     Catalog.last_updated := now;
     Catalog.pricing_source := Catalog.pricing_source e;
     Catalog.is_active := false;
     Catalog.validation_status := Catalog.validation_status e;
     Catalog.description := Catalog.description e;
     Catalog.category := Catalog.category e;
     Catalog.tags := Catalog.tags e |}.

Definition update_job (w : World) (effectiveDate : Z) : Eff Table unit :=
  fun table =>
    if update_rejects w then (table, Throw "update failed")
    else
      (List.map (fun e =>
                   if (Catalog.is_active e && (Catalog.effective_date e <? effectiveDate))%bool
                   then deactivate (now w) e else e) table,
       Ok tt).

(** Step 1.  The catch block only logs: "Don't fail the entire update
    for this". *)
Definition markExistingPricingInactive (w : World) (effectiveDate : Z) : Eff Table unit :=
  try_catch (update_job w effectiveDate) (fun _ => mret tt).

(** [await table.insert(batch)] for batch number [k]. *)
Definition table_insert (w : World) (k : nat) (batch : list Catalog.entry) : Eff Table unit :=
  fun table =>
    if insert_rejects w k then (table, Throw "insert failed")
    else ((table ++ batch)%list, Ok tt).

(** [for (let i = 0; i < pricingData.length; i += batchSize)] with
    [batch = pricingData.slice(i, i + batchSize)]; [k] is the number of
    the batch, [remaining] what lies at and after index [i]. *)
Fixpoint insert_batches (w : World) (fuel : nat) (batchSize : nat) (k : nat)
    (remaining : list Catalog.entry) : Eff Table unit :=
  match fuel, remaining with
  | O, _ | _, [] => mret tt
  | S fuel', _ =>
      table_insert w k (take batchSize remaining);;
      insert_batches w fuel' batchSize (S k) (drop batchSize remaining)
  end.

(** Step 2.  The catch block logs and rethrows. *)
Definition insertPricingData (w : World) (pricingData : list Catalog.entry) : Eff Table unit :=
  let batchSize := 1000%nat in
  try_catch (insert_batches w (length pricingData) batchSize 0 pricingData)
            (fun error => eval (Throw error)).

(** [cutoffDate.setDate(cutoffDate.getDate() - 90)] on [new Date()],
    then [toISOString().split("T")[0]]: the subtraction is done on the
    local calendar date, the result is read as a UTC date. *)
Definition purge_cutoff (w : World) : Z :=
  day_of (now w - 90 * 86400000 + zone_shift w).

(** [DELETE ... WHERE effective_date < @cutoffDate AND is_active = false] *)
Definition delete_job (w : World) : Eff Table unit :=
  fun table =>
    let cutoffDate := purge_cutoff w in
    if delete_rejects w then (table, Throw "delete failed")
    else
      (List.filter (fun e =>
                      negb ((Catalog.effective_date e <? cutoffDate)
                            && negb (Catalog.is_active e))) table,
       Ok tt).

(** Step 3.  The catch block only logs: "Don't fail for cleanup
    errors". *)
Definition cleanupOldPricingData (w : World) : Eff Table unit :=
  try_catch (delete_job w) (fun _ => mret tt).

(* ------------------------------------------------------------------- *)
(** ** generateUpdateReport and the handler                              *)

(** A row of the report query: the group and its COUNT; the price
    aggregates (AVG, MIN, MAX) are computed by the store and are not
    represented. *)
Record CategoryRow := {
  row_category : string;
  row_service_name : string;
  record_count : nat;
}.

Definition group_compare (c1 s1 c2 s2 : string) : comparison :=
  match String.compare c1 c2 with
  | Eq => String.compare s1 s2
  | other => other
  end.

(** Count one more record of group [(c, s)], keeping the rows in
    [ORDER BY category, service_name] order. *)
Fixpoint count_group (c s : string) (rows : list CategoryRow) : list CategoryRow :=
  match rows with
  | [] => [ {| row_category := c; row_service_name := s; record_count := 1 |} ]
  | r :: rest =>
      match group_compare c s (row_category r) (row_service_name r) with
      | Eq => {| row_category := c; row_service_name := s;
                 record_count := S (record_count r) |} :: rest
      | Lt => {| row_category := c; row_service_name := s; record_count := 1 |} :: r :: rest
      | Gt => r :: count_group c s rest
      end
  end.

Definition report_query (w : World) (effectiveDate : Z) : Eff Table (list CategoryRow) :=
  fun table =>
    if report_rejects w then (table, Throw "report query failed")
    else
      (table,
       Ok (fold_left
             (fun rows e =>
                if ((Catalog.effective_date e =? effectiveDate) && Catalog.is_active e)%bool
                then count_group (Catalog.category e) (Catalog.service_name e) rows
                else rows)
             table [])).

Record Report := {
  report_effective_date : Z;
  total_records : nat;
  categories : option (list CategoryRow);
  update_timestamp : option Z;
  error : option string;
}.

Definition generateUpdateReport (w : World) (effectiveDate : Z) (totalRecords : nat)
    : Eff Table Report :=
  try_catch
    (rows ← report_query w effectiveDate;
     mret {| report_effective_date := effectiveDate;
             total_records := totalRecords;
             categories := Some rows;
             update_timestamp := Some (now w);
             error := None |})
    (fun message =>
       mret {| report_effective_date := effectiveDate;
               total_records := totalRecords;
               categories := None;
               update_timestamp := None;
               error := Some message |}).

(** What the handler returns when it does not throw. *)
Record Outcome := {
  success : bool;
  message : string;
  timestamp : Z;
  records_updated : nat;
  report : Report;
}.

Definition COMPUTE_ENGINE : string := "6F81-5844-456A".

(** The [updatePricingCatalog] handler; its catch block logs and
    rethrows. *)
Definition updatePricingCatalog (w : World) : Eff Table Outcome :=
  try_catch
    (let updateTimestamp := now w in
     let effectiveDate := day_of (now w) in
     let computePricing := fetchServicePricing w COMPUTE_ENGINE "Compute Engine" in
     let allPricingData := ([] ++ computePricing)%list in
     markExistingPricingInactive w effectiveDate;;
     match allPricingData with
     | [] => mret tt
     | _ => insertPricingData w allPricingData
     end;;
     cleanupOldPricingData w;;
     report ← generateUpdateReport w effectiveDate (length allPricingData);
     mret {| success := true;
             message := "Pricing catalog updated successfully";
             timestamp := updateTimestamp;
             records_updated := length allPricingData;
             report := report |})
    (fun error => eval (Throw error)).

End Updater.

(* ===================================================================== *)
(** * The pricing fetcher                                                  *)
(* ===================================================================== *)

Module Fetcher.
Import Billing.

(** The [info] object of the fetcher's [extractMachineInfo]. *)
Record MachineInfo := {
  resourceFamily : string;
  resourceGroup : string;
  usageType : string;
  machineFamily : option string;
  machineType : option string;
  vcpuCount : option Z;
  memoryGb : option float;
  diskType : option string;
  gpuType : option string;
  commitmentTerm : option string;
  category : string;
}.

(** Assignments to one field of [info]. *)
Definition set_resourceGroup (v : string) (info : MachineInfo) : MachineInfo :=
  {| resourceFamily := resourceFamily info; resourceGroup := v;
     usageType := usageType info; machineFamily := machineFamily info;
     machineType := machineType info; vcpuCount := vcpuCount info;
     memoryGb := memoryGb info; diskType := diskType info; gpuType := gpuType info;
     commitmentTerm := commitmentTerm info; category := category info |}.

Definition set_usageType (v : string) (info : MachineInfo) : MachineInfo :=
  {| resourceFamily := resourceFamily info; resourceGroup := resourceGroup info;
     usageType := v; machineFamily := machineFamily info; machineType := machineType info;
     vcpuCount := vcpuCount info; memoryGb := memoryGb info; diskType := diskType info;
     gpuType := gpuType info; commitmentTerm := commitmentTerm info;
     category := category info |}.

Definition set_machineFamily (v : option string) (info : MachineInfo) : MachineInfo :=
  {| resourceFamily := resourceFamily info; resourceGroup := resourceGroup info;
     usageType := usageType info; machineFamily := v; machineType := machineType info;
     vcpuCount := vcpuCount info; memoryGb := memoryGb info; diskType := diskType info;
     gpuType := gpuType info; commitmentTerm := commitmentTerm info;
     category := category info |}.

Definition set_machineType (v : option string) (info : MachineInfo) : MachineInfo :=
  {| resourceFamily := resourceFamily info; resourceGroup := resourceGroup info;
     usageType := usageType info; machineFamily := machineFamily info; machineType := v;
     vcpuCount := vcpuCount info; memoryGb := memoryGb info; diskType := diskType info;
     gpuType := gpuType info; commitmentTerm := commitmentTerm info;
     category := category info |}.

Definition set_vcpuCount (v : option Z) (info : MachineInfo) : MachineInfo :=
  {| resourceFamily := resourceFamily info; resourceGroup := resourceGroup info;
     usageType := usageType info; machineFamily := machineFamily info;
     machineType := machineType info; vcpuCount := v; memoryGb := memoryGb info;
     diskType := diskType info; gpuType := gpuType info;
     commitmentTerm := commitmentTerm info; category := category info |}.

Definition set_memoryGb (v : option float) (info : MachineInfo) : MachineInfo :=
  {| resourceFamily := resourceFamily info; resourceGroup := resourceGroup info;
     usageType := usageType info; machineFamily := machineFamily info;
     machineType := machineType info; vcpuCount := vcpuCount info; memoryGb := v;
     diskType := diskType info; gpuType := gpuType info;
     commitmentTerm := commitmentTerm info; category := category info |}.

Definition set_diskType (v : option string) (info : MachineInfo) : MachineInfo :=
  {| resourceFamily := resourceFamily info; resourceGroup := resourceGroup info;
     usageType := usageType info; machineFamily := machineFamily info;
     machineType := machineType info; vcpuCount := vcpuCount info;
     memoryGb := memoryGb info; diskType := v; gpuType := gpuType info;
     commitmentTerm := commitmentTerm info; category := category info |}.

Definition set_gpuType (v : option string) (info : MachineInfo) : MachineInfo :=
  {| resourceFamily := resourceFamily info; resourceGroup := resourceGroup info;
     usageType := usageType info; machineFamily := machineFamily info;
     machineType := machineType info; vcpuCount := vcpuCount info;
     memoryGb := memoryGb info; diskType := diskType info; gpuType := v;
     commitmentTerm := commitmentTerm info; category := category info |}.

Definition set_commitmentTerm (v : option string) (info : MachineInfo) : MachineInfo :=
  {| resourceFamily := resourceFamily info; resourceGroup := resourceGroup info;
     usageType := usageType info; machineFamily := machineFamily info;
     machineType := machineType info; vcpuCount := vcpuCount info;
     memoryGb := memoryGb info; diskType := diskType info; gpuType := gpuType info;
     commitmentTerm := v; category := category info |}.

Definition set_category (v : string) (info : MachineInfo) : MachineInfo :=
  {| resourceFamily := resourceFamily info; resourceGroup := resourceGroup info;
     usageType := usageType info; machineFamily := machineFamily info;
     machineType := machineType info; vcpuCount := vcpuCount info;
     memoryGb := memoryGb info; diskType := diskType info; gpuType := gpuType info;
     commitmentTerm := commitmentTerm info; category := v |}.

Definition statements (block : list (MachineInfo -> MachineInfo)) (info : MachineInfo)
    : MachineInfo :=
  fold_left (fun i statement => statement i) block info.

Definition families : list string :=
  ["n1"; "n2"; "n2d"; "e2"; "c2"; "c2d"; "m1"; "m2"; "f1"; "g1"].

(** [/(n1|n2|n2d|e2|c2|c2d|m1|m2|f1|g1)-/] *)
Definition family_re : Regex.t :=
  Regex.Seq (Regex.Group 1 (Regex.one_of families)) (Regex.Lit "-").

(** [/(n1|n2|n2d|e2|c2|c2d|m1|m2|f1|g1)-[a-z0-9-]+/] *)
Definition machine_re : Regex.t :=
  Regex.Seq (Regex.Group 1 (Regex.one_of families))
    (Regex.Seq (Regex.Lit "-")
       (Regex.Plus (Regex.Class (fun a =>
          (Regex.lower a || Regex.digit a || Ascii.eqb a "-")%bool)))).

Definition initial_info : MachineInfo :=
  {| resourceFamily := "Compute";
     resourceGroup := "Standard";
     usageType := "OnDemand";
     machineFamily := None;
     machineType := None;
     vcpuCount := None;
     memoryGb := None;
     diskType := None;
     gpuType := None;
     commitmentTerm := None;
     category := "compute" |}.

(** Extract machine family (n1, n2, e2, c2, etc.). *)
Definition family_block (desc : string) : MachineInfo -> MachineInfo :=
  match Regex.search family_re desc with
  | Some (_, groups) =>
      let family := Regex.group 1 groups in
      statements
        [ set_machineFamily (Some family);
          set_resourceGroup (Str.toUpperCase family ++ "Standard") ]
  | None => statements []
  end.

(** Extract full machine type. *)
Definition machine_block (desc : string) : MachineInfo -> MachineInfo :=
  match Regex.search machine_re desc with
  | Some (whole, _) => statements [ set_machineType (Some whole) ]
  | None => statements []
  end.

(** Extract vCPU count. *)
Definition vcpu_block (desc : string) : MachineInfo -> MachineInfo :=
  match Regex.search Updater.vcpu_re desc with
  | Some (_, groups) =>
      statements [ set_vcpuCount (Some (Parse.parseInt (Regex.group 1 groups))) ]
  | None => statements []
  end.

(** Extract memory. *)
Definition memory_block (desc : string) : MachineInfo -> MachineInfo :=
  match Regex.search Updater.memory_re desc with
  | Some (_, groups) =>
      statements [ set_memoryGb (Some (Parse.parseFloat (Regex.group 1 groups))) ]
  | None => statements []
  end.

(** Detect disk types. *)
Definition disk_block (desc : string) : MachineInfo -> MachineInfo :=
  if Str.includes desc "ssd" then
    statements [ set_diskType (Some "pd-ssd"); set_category "storage" ]
  else if Str.includes desc "standard" then
    statements [ set_diskType (Some "pd-standard"); set_category "storage" ]
  else if Str.includes desc "balanced" then
    statements [ set_diskType (Some "pd-balanced"); set_category "storage" ]
  else statements [].

(** Detect GPU. *)
Definition gpu_block (desc : string) : MachineInfo -> MachineInfo :=
  if (Str.includes desc "gpu" || Str.includes desc "nvidia" || Str.includes desc "tesla")%bool
  then
    statements
      [ set_category "gpu";
        match Regex.search Updater.gpu_re desc with
        | Some (_, groups) =>
            statements
              [ set_gpuType (Some (Regex.group 1 groups ++ "-" ++ Regex.group 2 groups)) ]
        | None => statements []
        end ]
  else statements [].

(** Detect preemptible/spot. *)
Definition usage_block (desc : string) : MachineInfo -> MachineInfo :=
  if (Str.includes desc "preemptible" || Str.includes desc "spot")%bool then
    statements [ set_usageType "Preemptible" ]
  else statements [].

(** Detect commitment terms. *)
Definition commitment_block (desc : string) : MachineInfo -> MachineInfo :=
  if (Str.includes desc "1 year" || Str.includes desc "1-year")%bool then
    statements [ set_commitmentTerm (Some "1-year"); set_usageType "Committed" ]
  else if (Str.includes desc "3 year" || Str.includes desc "3-year")%bool then
    statements [ set_commitmentTerm (Some "3-year"); set_usageType "Committed" ]
  else statements [].

Definition extractMachineInfo (description : string) : MachineInfo :=
  let desc := Str.toLowerCase description in
  statements
    [ family_block desc; machine_block desc; vcpu_block desc; memory_block desc;
      disk_block desc; gpu_block desc; usage_block desc; commitment_block desc ]
    initial_info.

Module Row.
(** The JavaScript value of [price_per_unit]: a number, or the string
    made of the decimal rendering of a number followed by the decimal
    digits of an integer. *)
Inductive PricePerUnit :=
| Number (value : float)
| Text (number : float) (units : Z).

(** The object [extractPricingInfo] returns, key by key.  Dates are day
    numbers (days since the epoch, UTC), timestamps are milliseconds. *)
Record t := {
  sku_id : string;
  sku_name : string;
  service_name : string;
  service_id : string;
  resource_family : string;
  resource_group : string;
  usage_type : string;
  region : option string;
  currency_code : string;
  pricing_unit : string;
  price_per_unit : PricePerUnit;
  machine_family : option string;
  machine_type : option string;
  vcpu_count : option Z;
  memory_gb : option float;
  disk_type : option string;
  gpu_type : option string;
  commitment_term : option string;
  effective_date : Z;
  last_updated : Z;
  is_active : bool;
  validation_status : string;
  description : string;
  category : string;
}.
End Row.

(** [parseInt(price.nanos) / 1000000000 + (price.units || 0)].
    [parseInt(undefined)] is NaN.  [price.units] is an int64, which the
    billing client delivers as a string of decimal digits, and it is
    added here without [parseInt]: when the units are present (the
    string "0" is truthy too) [+] is string concatenation, and the value
    is the text made of the decimal rendering of the number
    [parseInt(nanos) / 1e9] followed by the digits of the units,
    [Row.Text]; when they are absent it is the number, [Row.Number]. *)
Definition decimal_price (price : Money) : Row.PricePerUnit :=
  let fraction :=
    ((match nanos price with Some n => num n | None => nan end) / 1000000000)%float in
  match units price with
  | Some digits => Row.Text fraction digits
  | None => Row.Number (fraction + 0)%float
  end.

(** The body of the [try] block; [Ok None] is [return null]. *)
Definition extract (now : Z) (sku : Sku) : Result (option Row.t) :=
  match pricingInfo sku with
  | None | Some [] => Ok None
  | Some (pricing :: _) =>
      pricingExpression ← defined (pricingExpression pricing);
      match tieredRates pricingExpression with
      | None | Some [] => Ok None
      | Some (baseRate :: _) =>
          price ← defined (unitPrice baseRate);
          let pricePerUnit := decimal_price price in
          let machineInfo := extractMachineInfo (description sku) in
          regions ← defined (serviceRegions sku);
          Ok (Some
            {| Row.sku_id := skuId sku;
               Row.sku_name := description sku;
               Row.service_name := "Compute Engine";
               Row.service_id := "6F81-5844-456A";
               Row.resource_family := resourceFamily machineInfo;
               Row.resource_group := resourceGroup machineInfo;
               Row.usage_type := usageType machineInfo;
               Row.region := match regions with first :: _ => Some first | [] => None end;
               Row.currency_code := or_usd (currencyCode price);
               Row.pricing_unit := usageUnit pricingExpression;
               Row.price_per_unit := pricePerUnit;
               Row.machine_family := machineFamily machineInfo;
               Row.machine_type := machineType machineInfo;
               Row.vcpu_count := vcpuCount machineInfo;
               Row.memory_gb := memoryGb machineInfo;
               Row.disk_type := diskType machineInfo;
               Row.gpu_type := gpuType machineInfo;
               Row.commitment_term := commitmentTerm machineInfo;
               Row.effective_date := Updater.day_of now;
               Row.last_updated := now;
               Row.is_active := true;
               Row.validation_status := "valid";
               Row.description := description sku;
               Row.category := category machineInfo |})
      end
  end.

Definition extractPricingInfo (now : Z) (sku : Sku) : option Row.t :=
  match extract now sku with
  | Ok result => result
  | Throw _ => None
  end.

(* ------------------------------------------------------------------- *)
(** ** fetchGCPPricing, savePricingToBigQuery and the handler            *)

(** What a fetch meets outside the engine: the outcome of
    [billingClient.listSkus], which inserts the store rejects (per batch
    number, counted from 0), and the clock. *)
Record World := {
  listed : Result (list Sku);
  insert_rejects : nat -> bool;
  now : Z;
}.

(** JavaScript truthiness of an optional string. *)
Definition truthy_string (x : option string) : bool :=
  match x with
  | Some "" | None => false
  | Some _ => true
  end.

(** The filter for compute instances at the head of the loop. *)
Definition wanted (sku : Sku) : bool :=
  let d := Str.toLowerCase (description sku) in
  (Str.includes d "instance" || Str.includes d "disk" || Str.includes d "gpu")%bool.

(** [region && !sku.serviceRegions.includes(region)]: reading [includes]
    off absent regions is a TypeError. *)
Definition outside_region (region : option string) (sku : Sku) : Result bool :=
  if truthy_string region then
    regions ← defined (serviceRegions sku);
    Ok (negb (existsb (String.eqb (default "" region)) regions))
  else Ok false.

(** The [for (const sku of skus)] loop over the accumulator
    [pricingData]. *)
Fixpoint for_each_sku (now : Z) (region : option string)
    (skus : list Sku) (pricingData : list Row.t) : Result (list Row.t) :=
  match skus with
  | [] => Ok pricingData
  | sku :: rest =>
      if negb (wanted sku) then for_each_sku now region rest pricingData
      else
        skip ← outside_region region sku;
        if (skip : bool) then for_each_sku now region rest pricingData
        else
          match extractPricingInfo now sku with
          | Some pricingInfo => for_each_sku now region rest (pricingData ++ [pricingInfo])
          | None => for_each_sku now region rest pricingData
          end
  end.

(** [fetchGCPPricing(resourceType, region, machineType)]; its catch block
    logs and rethrows. *)
Definition fetchGCPPricing (w : World) (resourceType region machineType : option string)
    : Result (list Row.t) :=
  skus ← listed w;
  for_each_sku (now w) region skus [].

(** The rows [gcp_pricing_catalog] has received from the fetcher, as the
    insert requests carry them. *)
Definition Table : Type := list Row.t.

(** [await table.insert(batch)] for batch number [k]. *)
Definition table_insert (w : World) (k : nat) (batch : list Row.t) : Eff Table unit :=
  fun table =>
    if insert_rejects w k then (table, Throw "insert failed")
    else ((table ++ batch)%list, Ok tt).

(** The batch loop of [savePricingToBigQuery]. *)
Fixpoint insert_batches (w : World) (fuel : nat) (batchSize : nat) (k : nat)
    (remaining : list Row.t) : Eff Table unit :=
  match fuel, remaining with
  | O, _ | _, [] => mret tt
  | S fuel', _ =>
      table_insert w k (take batchSize remaining);;
      insert_batches w fuel' batchSize (S k) (drop batchSize remaining)
  end.

(** [savePricingToBigQuery]; its catch block logs and rethrows. *)
Definition savePricingToBigQuery (w : World) (pricingData : list Row.t)
    : Eff Table unit :=
  let batchSize := 1000%nat in
  try_catch (insert_batches w (length pricingData) batchSize 0 pricingData)
            (fun error => eval (Throw error)).

Module Query.
(** The query string of the request. *)
Record t := {
  resourceType : option string;
  region : option string;
  machineType : option string;
  save : option string;
}.
End Query.

(** What the handler sends back. *)
Inductive Response :=
| Status200 (data : list Row.t) (timestamp : Z)
| Status500 (message : string) (timestamp : Z).

(** The [fetchPricing] handler. *)
Definition fetchPricing (w : World) (req : Query.t) : Eff Table Response :=
  try_catch
    (pricingData ← eval (fetchGCPPricing w (Query.resourceType req) (Query.region req)
                                          (Query.machineType req));
     (if bool_decide (Query.save req = Some "true")
      then savePricingToBigQuery w pricingData
      else mret tt);;
     mret (Status200 pricingData (now w)))
    (fun message => mret (Status500 message (now w))).

End Fetcher.

(* ===================================================================== *)
(** * Notions the properties are stated with                               *)
(* ===================================================================== *)

Module Notions.

(** The pricing models the engine supports. *)
Definition supported_pricing_models : list string :=
  ["on-demand"; "cud-1-year"; "cud-3-year"; "spot"; "preemptible"].

(** A discount family is non-zero when its percentage or its amount is. *)
Definition family_nonzero (percent : Z) (amount : float) : bool :=
  (negb (percent =? 0) || negb (amount =? 0)%float)%bool.

(** How many of the three discount families are non-zero. *)
Definition nonzero_families (d : Calc.Discounts) : nat :=
  length (List.filter (fun b : bool => b)
    [ family_nonzero (Calc.sud_percent d) (Calc.sud_amount d);
      family_nonzero (Calc.cud_percent d) (Calc.cud_amount d);
      family_nonzero (Calc.spot_percent d) (Calc.spot_amount d) ]).

(** The sustained-use expression evaluated in binary64, on the hours as
    a JavaScript number:
    [Math.min(30, Math.floor((usage_duration_hours - 183) / 73) * 5)]. *)
Definition sustained_use_percent_binary64 (usage_duration_hours : float) : float :=
  Math_min 30 (Math_floor ((usage_duration_hours - 183) / 73) * 5)%float.

(** The catalog rows that satisfy the WHERE clause of the compute, the
    storage and the GPU query for a resource. *)
Definition compute_matches (resource : Calc.ResourceSpecification) (e : Catalog.entry)
    : bool :=
  match Calc.machine_type resource with
  | Some machineType =>
      Calc.where_clause
        (Calc.ComputeQuery machineType (Str.split_head "-" machineType)
           (Calc.region resource) (Calc.getUsageType (Calc.pricing_model resource))) e
  | None => false
  end.

Definition storage_matches (resource : Calc.ResourceSpecification) (e : Catalog.entry)
    : bool :=
  Calc.where_clause (Calc.StorageQuery (Calc.disk_type resource) (Calc.region resource)) e.

Definition gpu_matches (resource : Calc.ResourceSpecification) (e : Catalog.entry)
    : bool :=
  Calc.where_clause (Calc.GpuQuery (Calc.gpu_type resource) (Calc.region resource)) e.

(** The integers [start], [start + 1], ..., [count] of them. *)
Fixpoint integers_from (start : Z) (count : nat) : list Z :=
  match count with
  | O => []
  | S count' => start :: integers_from (start + 1) count'
  end.

(** The line item of a per-resource calculation that did not throw. *)
Definition ok_value {A} (m : Result A) : option A :=
  match m with
  | Ok a => Some a
  | Throw _ => None
  end.

(** The line items of the resources whose calculation did not throw, in
    the order of the batch. *)
Definition processed (calculate : Calc.ResourceSpecification -> Result Calc.Item.t)
    (batch : list Calc.ResourceSpecification) : list Calc.Item.t :=
  omap (fun resource => ok_value (calculate resource)) batch.

(** The unit price of the first tier of the first pricing info of a
    SKU: the fixed-point price the headline price is computed from. *)
Definition first_unit_price (sku : Billing.Sku) : option Billing.Money :=
  match Billing.pricingInfo sku with
  | Some (pricing :: _) =>
      match Billing.pricingExpression pricing with
      | Some expression =>
          match Billing.tieredRates expression with
          | Some (baseRate :: _) => Billing.unitPrice baseRate
          | _ => None
          end
      | None => None
      end
  | _ => None
  end.

(** The disk-type rule on the lower-cased description. *)
Definition disk_rule (desc : string) : option string :=
  if Str.includes desc "ssd" then Some "pd-ssd"
  else if Str.includes desc "balanced" then Some "pd-balanced"
  else if (Str.includes desc "standard"
           && (Str.includes desc "disk" || Str.includes desc "storage"))%bool
  then Some "pd-standard"
  else None.

(** The GPU rule and the network-tier rule fire. *)
Definition gpu_keyword (desc : string) : bool :=
  (Str.includes desc "gpu" || Str.includes desc "nvidia" || Str.includes desc "tesla")%bool.

Definition network_keyword (desc : string) : bool :=
  (Str.includes desc "premium"
   || (Str.includes desc "standard"
       && (Str.includes desc "network" || Str.includes desc "egress"
           || Str.includes desc "ip")))%bool.

(** The [info] object right after the disk-type block of the updater's
    parser. *)
Definition after_disk_block (description : string) : Updater.MachineInfo :=
  let desc := Str.toLowerCase description in
  Updater.statements
    [ Updater.family_block desc; Updater.machine_block desc; Updater.vcpu_block desc;
      Updater.memory_block desc; Updater.disk_block desc ]
    Updater.initial_info.

(** A block of the updater's parser that writes neither [diskType] nor
    [category]. *)
Definition keeps_disk_and_category (block : Updater.MachineInfo -> Updater.MachineInfo)
    : Prop :=
  forall info,
    Updater.diskType (block info) = Updater.diskType info
    /\ Updater.category (block info) = Updater.category info.

(** The entries a refresh is about to insert. *)
Definition new_generation (w : Updater.World) : list Catalog.entry :=
  Updater.fetchServicePricing w Updater.COMPUTE_ENGINE "Compute Engine".

End Notions.

(* ===================================================================== *)
(** * Sample data                                                          *)
(* ===================================================================== *)

Module Sample.

(** A resource in us-central1 with a 100 GB standard boot disk, no
    additional disks and no external IP. *)
Definition resource (machine_type : option string) (vcpu_count : Z) (memory_gb : float)
    (usage_duration_hours : Z) (usage_pattern pricing_model : string)
    (gpu_type : option string) (gpu_count : option Z) : Calc.ResourceSpecification :=
  {| Calc.project_id := "project-a";
     Calc.resource_id := "vm-1";
     Calc.instance_name := None;
     Calc.machine_type := machine_type;
     Calc.vcpu_count := vcpu_count;
     Calc.memory_gb := memory_gb;
     Calc.disk_type := "pd-standard";
     Calc.disk_size_gb := 100;
     Calc.additional_disks := [];
     Calc.region := "us-central1";
     Calc.usage_duration_hours := usage_duration_hours;
     Calc.usage_pattern := Some usage_pattern;
     Calc.pricing_model := pricing_model;
     Calc.gpu_type := gpu_type;
     Calc.gpu_count := gpu_count;
     Calc.external_ip := false;
     Calc.cost_center := None;
     Calc.environment := None;
     Calc.team := None |}.

(** The reference resource of the specification's end-to-end scenario. *)
Definition reference : Calc.ResourceSpecification :=
  resource (Some "n1-standard-2") 2 7.5 730 "continuous" "on-demand" None None.

(** The same resource without [machine_type]. *)
Definition no_machine_type : Calc.ResourceSpecification :=
  resource None 2 7.5 730 "continuous" "on-demand" None None.

(** On-demand and continuous for 200 hours. *)
Definition short_on_demand : Calc.ResourceSpecification :=
  resource (Some "n1-standard-2") 2 7.5 200 "continuous" "on-demand" None None.

(** On-demand and continuous for 800 hours. *)
Definition long_on_demand : Calc.ResourceSpecification :=
  resource (Some "n1-standard-2") 2 7.5 800 "continuous" "on-demand" None None.

(** A spot resource. *)
Definition spot : Calc.ResourceSpecification :=
  resource (Some "n1-standard-2") 2 7.5 730 "continuous" "spot" None None.

(** A resource with one GPU. *)
Definition with_gpu : Calc.ResourceSpecification :=
  resource (Some "n1-standard-2") 2 7.5 730 "continuous" "on-demand"
           (Some "nvidia-tesla-t4") (Some 1).

Definition costs : Calc.Costs :=
  {| Calc.compute := 100; Calc.memory := 0; Calc.storage := 4;
     Calc.network := 0; Calc.gpu := 0 |}.

(** An active Compute Engine catalog row. *)
Definition catalog_entry (sku category : string)
    (machine_type machine_family region disk_type gpu_type : option string)
    (price : float) : Catalog.entry :=
  {| Catalog.sku_id := sku;
     Catalog.sku_name := sku;
     Catalog.service_name := "Compute Engine";
     Catalog.service_id := "6F81-5844-456A";
     Catalog.resource_family := "Compute";
     Catalog.resource_group := "Standard";
     Catalog.usage_type := "OnDemand";
     Catalog.region := region;
     Catalog.currency_code := "USD";
     Catalog.pricing_unit := "h";
     Catalog.price_per_unit := price;
     Catalog.tiered_rates := None;
     Catalog.machine_family := machine_family;
     Catalog.machine_type := machine_type;
     Catalog.vcpu_count := None;
     Catalog.memory_gb := None;
     Catalog.disk_type := disk_type;
     Catalog.gpu_type := gpu_type;
     Catalog.commitment_term := None;
     Catalog.commitment_type := None;
     Catalog.discount_percent := 0;
     Catalog.network_tier := None;
     Catalog.effective_date := 20000;
     Catalog.last_updated := 1728000000000;
     Catalog.pricing_source := "cloud-billing-api";
     Catalog.is_active := true;
     Catalog.validation_status := "valid";
     Catalog.description := sku;
     Catalog.category := category;
     Catalog.tags := [] |}.

(** A row for the T4 GPU, valid in every region. *)
Definition gpu_entry : Catalog.entry :=
  catalog_entry "GPU-T4" "gpu" None None None None (Some "nvidia-tesla-t4") 0.35.

(** Three compute rows that all match the reference resource: by machine
    family without a region, by machine type without a region, and by
    machine type in the resource's region. *)
Definition family_entry : Catalog.entry :=
  catalog_entry "N1-FAMILY" "compute" None (Some "n1") None None None 0.05.

Definition type_entry : Catalog.entry :=
  catalog_entry "N1-STANDARD-2" "compute" (Some "n1-standard-2") (Some "n1") None None None
                0.095.

Definition regional_type_entry : Catalog.entry :=
  catalog_entry "N1-STANDARD-2-USC1" "compute" (Some "n1-standard-2") (Some "n1")
                (Some "us-central1") None None 0.1.

Definition compute_store : Calc.Store :=
  {| Calc.catalog := [family_entry; type_entry; regional_type_entry];
     Calc.rejects := fun _ => false |}.

(** A store that holds this one row and answers every query. *)
Definition gpu_store : Calc.Store :=
  {| Calc.catalog := [gpu_entry]; Calc.rejects := fun _ => false |}.

(** A catalog store without rows that answers every query. *)
Definition empty_store : Calc.Store :=
  {| Calc.catalog := []; Calc.rejects := fun _ => false |}.

(** A SKU with one pricing info of one tier, priced [units] and
    [nanos]. *)
Definition sku (description : string) (units nanos : Z) : Billing.Sku :=
  {| Billing.skuId := "0000-AAAA-1111";
     Billing.description := description;
     Billing.serviceRegions := Some ["us-central1"];
     Billing.pricingInfo :=
       Some [ {| Billing.pricingExpression :=
                   Some {| Billing.usageUnit := "h";
                           Billing.tieredRates :=
                             Some [ {| Billing.startUsageAmount := Some 0%float;
                                       Billing.unitPrice :=
                                         Some {| Billing.units := Some units;
                                                 Billing.nanos := Some nanos;
                                                 Billing.currencyCode := Some "USD" |} |} ]
                        |} |} ] |}.

(** An N1 core at 0.0475 USD per hour, and a SKU at 1.14 USD. *)
Definition n1_core : Billing.Sku :=
  sku "N1 Predefined Instance Core running in Americas" 0 47500000.

Definition priced_1_14 : Billing.Sku :=
  sku "N2 Instance Core running in Americas" 1 140000000.

(** A refresh in which the billing API lists the two sample SKUs, the
    deactivation (step 1) and the purge (step 3) are rejected, and the
    inserts are accepted. *)
Definition refresh_with_steps_1_and_3_failing : Updater.World :=
  {| Updater.listed := Ok [n1_core; priced_1_14];
     Updater.update_rejects := true;
     Updater.insert_rejects := fun _ => false;
     Updater.delete_rejects := true;
     Updater.report_rejects := false;
     Updater.now := 1728000000000;
     Updater.zone_shift := 0 |}.

(** The same refresh with steps 1 and 3 accepted and the first insert
    rejected. *)
Definition refresh_with_step_2_failing : Updater.World :=
  {| Updater.listed := Ok [n1_core; priced_1_14];
     Updater.update_rejects := false;
     Updater.insert_rejects := fun _ => true;
     Updater.delete_rejects := false;
     Updater.report_rejects := false;
     Updater.now := 1728000000000;
     Updater.zone_shift := 0 |}.

(** A batch of two: the reference resource and the one without
    [machine_type]; the specification fetch and the result insert
    succeed. *)
Definition world : Calc.World :=
  {| Calc.fetched := Ok [reference; no_machine_type];
     Calc.db := empty_store;
     Calc.save_rejects := false;
     Calc.now := 1728000000000;
     Calc.uuid := "boq-1" |}.

(** The same batch when the results table rejects the insert (its
    [machine_type] column is declared NOT NULL). *)
Definition world_insert_rejected : Calc.World :=
  {| Calc.fetched := Ok [reference; no_machine_type];
     Calc.db := empty_store;
     Calc.save_rejects := true;
     Calc.now := 1728000000000;
     Calc.uuid := "boq-1" |}.

(** A per-resource step that would reject a specification without
    [machine_type]. *)
Definition strict_calculate (resource : Calc.ResourceSpecification) : Result Calc.Item.t :=
  match Calc.machine_type resource with
  | Some _ =>
      Ok (Calc.calculateResourceBoQ empty_store 1728000000000 resource "boq-1" None)
  | None => Throw "machine_type is required"
  end.

End Sample.

(* ===================================================================== *)
(** * The resource store as the calculator queries it                      *)
(* ===================================================================== *)

Module Intake.

(** The [filters] argument of [fetchResourceSpecifications]: each array
    may be absent. *)
Record Filters := {
  projectIds : option (list string);
  resourceIds : option (list string);
  regions : option (list string);
  pricingModels : option (list string);
}.

(** [filters.x && filters.x.length > 0]. *)
Definition given (x : option (list string)) : bool :=
  match x with
  | Some (_ :: _) => true
  | _ => false
  end.

(** SQL [column IN UNNEST(@param)]. *)
Definition in_unnest (column : string) (param : option (list string)) : bool :=
  existsb (String.eqb column) (default [] param).

(** One pushed condition: its SQL text and what it demands of a row. *)
Definition Condition : Type := string * (Calc.ResourceSpecification -> bool).

(** [if (filters.x && filters.x.length > 0) conditions.push(...)]. *)
Definition push_if_given (x : option (list string)) (c : Condition)
    (conditions : list Condition) : list Condition :=
  if given x then (conditions ++ [c])%list else conditions.

(** The [conditions] array after the four tests. *)
Definition conditions (filters : Filters) : list Condition :=
  push_if_given (pricingModels filters)
    ("pricing_model IN UNNEST(@pricingModels)",
     fun r => in_unnest (Calc.pricing_model r) (pricingModels filters))
  (push_if_given (regions filters)
    ("region IN UNNEST(@regions)",
     fun r => in_unnest (Calc.region r) (regions filters))
  (push_if_given (resourceIds filters)
    ("resource_id IN UNNEST(@resourceIds)",
     fun r => in_unnest (Calc.resource_id r) (resourceIds filters))
  (push_if_given (projectIds filters)
    ("project_id IN UNNEST(@projectIds)",
     fun r => in_unnest (Calc.project_id r) (projectIds filters))
  []))).

(** [parts.join(" AND ")]. *)
Fixpoint join_and (parts : list string) : string :=
  match parts with
  | [] => ""
  | [part] => part
  | part :: rest => part ++ " AND " ++ join_and rest
  end.

(** [conditions.length > 0 ? `WHERE ${conditions.join(" AND ")}` : ""]. *)
Definition whereClause (filters : Filters) : string :=
  match conditions filters with
  | [] => ""
  | cs => "WHERE " ++ join_and (List.map fst cs)
  end.

(** [ORDER BY project_id, resource_id]. *)
Definition order_leb (a b : Calc.ResourceSpecification) : bool :=
  match String.compare (Calc.project_id a) (Calc.project_id b) with
  | Lt => true
  | Eq => String.leb (Calc.resource_id a) (Calc.resource_id b)
  | Gt => false
  end.

Fixpoint insert_ordered (r : Calc.ResourceSpecification)
    (sorted : list Calc.ResourceSpecification) : list Calc.ResourceSpecification :=
  match sorted with
  | [] => [r]
  | x :: rest => if order_leb r x then r :: x :: rest else x :: insert_ordered r rest
  end.

Definition order_by (rows : list Calc.ResourceSpecification)
    : list Calc.ResourceSpecification :=
  fold_right insert_ordered [] rows.

(** The table [gcp_resource_specifications] and whether the service
    rejects the query. *)
Record ResourceStore := {
  rows : list Calc.ResourceSpecification;
  query_rejects : bool;
}.

(** [SELECT * FROM ... ${whereClause} ORDER BY project_id, resource_id]. *)
Definition fetchResourceSpecifications (store : ResourceStore) (filters : Filters)
    : Result (list Calc.ResourceSpecification) :=
  if query_rejects store then Throw "query failed"
  else
    Ok (order_by
          (List.filter
             (fun r => forallb (fun c : Condition => snd c r) (conditions filters))
             (rows store))).

End Intake.

(* ===================================================================== *)
(** * Further notions and sample data                                      *)
(* ===================================================================== *)

Module MoreNotions.

(** The queries [fetchPricingForResource] issues for a resource that has
    a machine type, in the order it issues them. *)
Definition issued_queries (resource : Calc.ResourceSpecification) : list Calc.Query :=
  match Calc.machine_type resource with
  | Some machineType =>
      [ Calc.ComputeQuery machineType (Str.split_head "-" machineType)
          (Calc.region resource) (Calc.getUsageType (Calc.pricing_model resource));
        Calc.StorageQuery (Calc.disk_type resource) (Calc.region resource) ]
      ++ (if Calc.has_gpu resource
          then [ Calc.GpuQuery (Calc.gpu_type resource) (Calc.region resource) ]
          else [])
  | None => []
  end.

(** The pricing made of fallbacks only. *)
Definition fallback_pricing (resource : Calc.ResourceSpecification) : Calc.Pricing :=
  {| Calc.compute_price_per_hour := Calc.estimateComputePricing resource;
     Calc.memory_price_per_gb_hour := 0;
     Calc.storage_price_per_gb_month :=
       Calc.getDefaultStoragePricing (Some (Calc.disk_type resource));
     Calc.network_price_per_gb := 0;
     Calc.gpu_price_per_hour := 0 |}.

(** The resource with other additional disks. *)
Definition with_additional_disks (disks : list Disk.t)
    (r : Calc.ResourceSpecification) : Calc.ResourceSpecification :=
  {| Calc.project_id := Calc.project_id r;
     Calc.resource_id := Calc.resource_id r;
     Calc.instance_name := Calc.instance_name r;
     Calc.machine_type := Calc.machine_type r;
     Calc.vcpu_count := Calc.vcpu_count r;
     Calc.memory_gb := Calc.memory_gb r;
     Calc.disk_type := Calc.disk_type r;
     Calc.disk_size_gb := Calc.disk_size_gb r;
     Calc.additional_disks := disks;
     Calc.region := Calc.region r;
     Calc.usage_duration_hours := Calc.usage_duration_hours r;
     Calc.usage_pattern := Calc.usage_pattern r;
     Calc.pricing_model := Calc.pricing_model r;
     Calc.gpu_type := Calc.gpu_type r;
     Calc.gpu_count := Calc.gpu_count r;
     Calc.external_ip := Calc.external_ip r;
     Calc.cost_center := Calc.cost_center r;
     Calc.environment := Calc.environment r;
     Calc.team := Calc.team r |}.

(** The prices of the fallback table for disks. *)
Definition table_prices : list float := [0.17; 0.1; 0.04]%float.

(** The per-resource step of a run. *)
Definition line_item (w : Calc.World) (requestedBy : option string)
    (resource : Calc.ResourceSpecification) : Calc.Item.t :=
  Calc.calculateResourceBoQ (Calc.db w) (Calc.now w) resource (Calc.uuid w) requestedBy.

(** What a filter array admits: every value when it is absent or
    empty, its elements otherwise. *)
Definition admits (filter : option (list string)) (value : string) : Prop :=
  match filter with
  | Some (x :: rest) => In value (x :: rest)
  | _ => True
  end.

(** The specifications a set of filters selects. *)
Definition selected (filters : Intake.Filters) (r : Calc.ResourceSpecification) : Prop :=
  admits (Intake.projectIds filters) (Calc.project_id r)
  /\ admits (Intake.resourceIds filters) (Calc.resource_id r)
  /\ admits (Intake.regions filters) (Calc.region r)
  /\ admits (Intake.pricingModels filters) (Calc.pricing_model r).

(** The same as tests: what the WHERE clause is meant to keep. *)
Definition admitsb (filter : option (list string)) (value : string) : bool :=
  match filter with
  | Some (x :: rest) => bool_decide (value ∈ x :: rest)
  | _ => true
  end.

Definition selects (filters : Intake.Filters) (r : Calc.ResourceSpecification) : bool :=
  admitsb (Intake.projectIds filters) (Calc.project_id r)
  && admitsb (Intake.resourceIds filters) (Calc.resource_id r)
  && admitsb (Intake.regions filters) (Calc.region r)
  && admitsb (Intake.pricingModels filters) (Calc.pricing_model r).

(** Not after, by project id and then by resource id. *)
Definition project_then_resource (a b : Calc.ResourceSpecification) : Prop :=
  String.ltb (Calc.project_id a) (Calc.project_id b) = true
  \/ (Calc.project_id a = Calc.project_id b
      /\ String.leb (Calc.resource_id a) (Calc.resource_id b) = true).

(** The loop of a starred expression in [Regex.run]: at most [fuel]
    further rounds of [a], then the continuation. *)
Definition star_loop {R : Type} (a : Regex.t)
    (k : string -> Regex.captures -> option R)
    : nat -> string -> Regex.captures -> option R :=
  fix loop (fuel : nat) (s : string) (c : Regex.captures) {struct fuel} : option R :=
    match fuel with
    | O => k s c
    | S fuel' =>
        match Regex.run a s c (fun s' c' =>
                 if (String.length s' <? String.length s)%nat
                 then loop fuel' s' c' else None) with
        | Some x => Some x
        | None => k s c
        end
    end.

(** What a stored tier carries of a tier of the price list: its unit
    price as the number [nanos / 1e9 + units], its currency (USD when
    none is given), and its start amount: 0 when the amount is absent,
    a zero or NaN, and the integer part of an amount that is written
    without exponent. *)
Definition tier_carries (rate : Billing.TierRate) (tier : Catalog.tier) : Prop :=
  exists price,
    Billing.unitPrice rate = Some price
    /\ Catalog.tier_price_per_unit tier
       = (num (Billing.or_zero (Billing.nanos price)) / 1000000000
          + num (Billing.or_zero (Billing.units price)))%float
    /\ Catalog.tier_currency_code tier = Billing.or_usd (Billing.currencyCode price)
    /\ match Billing.startUsageAmount rate with
       | None => Catalog.start_usage_amount tier = 0%float
       | Some x =>
           (truthy x = false -> Catalog.start_usage_amount tier = 0%float)
           /\ (truthy x = true -> positional x = true ->
               Catalog.start_usage_amount tier = Math_trunc x)
       end.

(** The tiers of the first pricing info of a SKU. *)
Definition listed_tiers (sku : Billing.Sku) : list Billing.TierRate :=
  match Billing.pricingInfo sku with
  | Some (pricing :: _) =>
      match Billing.pricingExpression pricing with
      | Some expression => default [] (Billing.tieredRates expression)
      | None => []
      end
  | _ => []
  end.

(** The store a refresh leaves to the calculator when the table was
    empty before and every statement is accepted: the new generation. *)
Definition refreshed_store (w : Updater.World) : Calc.Store :=
  {| Calc.catalog := Notions.new_generation w;
     Calc.rejects := fun _ => false |}.

(** The table after step 1 and after step 3 of a refresh. *)
Definition marked (w : Updater.World) (table : Updater.Table) : Updater.Table :=
  fst (Updater.markExistingPricingInactive w (Updater.day_of (Updater.now w)) table).

Definition cleaned (w : Updater.World) (table : Updater.Table) : Updater.Table :=
  fst (Updater.cleanupOldPricingData w table).

(** No active entry is dated before the day [today]. *)
Definition no_stale_active (today : Z) (table : list Catalog.entry) : Prop :=
  Forall (fun e => Catalog.is_active e = true -> today <= Catalog.effective_date e) table.

(** The store the calculator reads when the catalog table is [table]. *)
Definition store_of (table : list Catalog.entry) : Calc.Store :=
  {| Calc.catalog := table; Calc.rejects := fun _ => false |}.


End MoreNotions.

Module MoreSample.

(** A resource whose pricing model is none of the supported ones. *)
Definition unknown_model : Calc.ResourceSpecification :=
  Sample.resource (Some "n1-standard-2") 2 7.5 730 "continuous" "Spot" None None.

(** A store whose storage query is rejected while the compute query
    finds a catalog price. *)
Definition storage_outage : Calc.Store :=
  {| Calc.catalog := [Sample.regional_type_entry];
     Calc.rejects := fun q => match q with Calc.StorageQuery _ _ => true | _ => false end |}.

(** The reference resource under another project, name, region and
    pricing model. *)
Definition located (project resource region model : string) : Calc.ResourceSpecification :=
  {| Calc.project_id := project;
     Calc.resource_id := resource;
     Calc.instance_name := None;
     Calc.machine_type := Some "n1-standard-2";
     Calc.vcpu_count := 2;
     Calc.memory_gb := 7.5;
     Calc.disk_type := "pd-standard";
     Calc.disk_size_gb := 100;
     Calc.additional_disks := [];
     Calc.region := region;
     Calc.usage_duration_hours := 730;
     Calc.usage_pattern := Some "continuous";
     Calc.pricing_model := model;
     Calc.gpu_type := None;
     Calc.gpu_count := None;
     Calc.external_ip := false;
     Calc.cost_center := None;
     Calc.environment := None;
     Calc.team := None |}.

(** A specification table of five rows, out of order, one of them
    twice. *)
Definition specifications : Intake.ResourceStore :=
  {| Intake.rows :=
       [ located "project-b" "vm-1" "us-central1" "on-demand";
         located "project-a" "vm-2" "europe-west1" "spot";
         located "project-a" "vm-1" "us-central1" "spot";
         located "project-c" "vm-1" "us-central1" "on-demand";
         located "project-a" "vm-1" "us-central1" "spot" ];
     Intake.query_rejects := false |}.

(** Two projects, no resource ids given, an empty array of regions,
    one pricing model. *)
Definition two_projects_spot : Intake.Filters :=
  {| Intake.projectIds := Some ["project-a"; "project-b"];
     Intake.resourceIds := None;
     Intake.regions := Some [];
     Intake.pricingModels := Some ["spot"] |}.

(** An active catalog row dated ten days before the sample refreshes. *)
Definition old_entry : Catalog.entry :=
  {| Catalog.sku_id := "OLD";
     Catalog.sku_name := "OLD";
     Catalog.service_name := "Compute Engine";
     Catalog.service_id := "6F81-5844-456A";
     Catalog.resource_family := "Compute";
     Catalog.resource_group := "N1Standard";
     Catalog.usage_type := "OnDemand";
     Catalog.region := Some "us-central1";
     Catalog.currency_code := "USD";
     Catalog.pricing_unit := "h";
     Catalog.price_per_unit := 0.1;
     Catalog.tiered_rates := None;
     Catalog.machine_family := Some "n1";
     Catalog.machine_type := Some "n1-standard-2";
     Catalog.vcpu_count := None;
     Catalog.memory_gb := None;
     Catalog.disk_type := None;
     Catalog.gpu_type := None;
     Catalog.commitment_term := None;
     Catalog.commitment_type := None;
     Catalog.discount_percent := 0;
     Catalog.network_tier := None;
     Catalog.effective_date := 19990;
     Catalog.last_updated := 1727136000000;
     Catalog.pricing_source := "cloud-billing-api";
     Catalog.is_active := true;
     Catalog.validation_status := "valid";
     Catalog.description := "OLD";
     Catalog.category := "compute";
     Catalog.tags := [] |}.

(** A refresh in which every statement is accepted. *)
Definition refresh_accepted : Updater.World :=
  {| Updater.listed := Ok [Sample.n1_core; Sample.priced_1_14];
     Updater.update_rejects := false;
     Updater.insert_rejects := fun _ => false;
     Updater.delete_rejects := false;
     Updater.report_rejects := false;
     Updater.now := 1728000000000;
     Updater.zone_shift := 0 |}.

(** A refresh during an outage of the billing API. *)
Definition refresh_during_outage : Updater.World :=
  {| Updater.listed := Throw "UNAVAILABLE";
     Updater.update_rejects := false;
     Updater.insert_rejects := fun _ => false;
     Updater.delete_rejects := false;
     Updater.report_rejects := false;
     Updater.now := 1728000000000;
     Updater.zone_shift := 0 |}.

(** Two active storage rows for pd-standard: one valid in every region
    and one for us-central1. *)
Definition storage_store : Calc.Store :=
  {| Calc.catalog :=
       [ Sample.catalog_entry "PD-STANDARD" "storage" None None None
           (Some "pd-standard") None 0.05;
         Sample.catalog_entry "PD-STANDARD-USC1" "storage" None None (Some "us-central1")
           (Some "pd-standard") None 0.044 ];
     Calc.rejects := fun _ => false |}.

(** A SKU priced zero, a SKU whose second tier has no unit price, and
    a SKU without service regions. *)
Definition free_instance : Billing.Sku := Sample.sku "Free Tier Instance Core" 0 0.

Definition second_tier_unpriced : Billing.Sku :=
  {| Billing.skuId := "0000-BBBB-2222";
     Billing.description := "N1 Predefined Instance Core running in Americas";
     Billing.serviceRegions := Some ["us-central1"];
     Billing.pricingInfo :=
       Some [ {| Billing.pricingExpression :=
                   Some {| Billing.usageUnit := "h";
                           Billing.tieredRates :=
                             Some [ {| Billing.startUsageAmount := Some 0%float;
                                       Billing.unitPrice :=
                                         Some {| Billing.units := Some 0;
                                                 Billing.nanos := Some 47500000;
                                                 Billing.currencyCode := Some "USD" |} |};
                                    {| Billing.startUsageAmount := Some 100.5%float;
                                       Billing.unitPrice := None |} ]
                        |} |} ] |}.

Definition without_regions : Billing.Sku :=
  {| Billing.skuId := "0000-CCCC-3333";
     Billing.description := "Storage PD Capacity disk";
     Billing.serviceRegions := None;
     Billing.pricingInfo := Billing.pricingInfo Sample.n1_core |}.

(** What the fetcher meets: the billing API lists a priced and a free
    SKU, and the store accepts every insert. *)
Definition fetch_world : Fetcher.World :=
  {| Fetcher.listed := Ok [Sample.n1_core; free_instance];
     Fetcher.insert_rejects := fun _ => false;
     Fetcher.now := 1728000000000 |}.

Definition fetch_request (region save : option string) : Fetcher.Query.t :=
  {| Fetcher.Query.resourceType := Some "compute";
     Fetcher.Query.region := region;
     Fetcher.Query.machineType := None;
     Fetcher.Query.save := save |}.

(** A catalog that prices n1-standard-2 in us-central1 only, and the T4
    GPU everywhere; and the reference resource's machine in another
    region. *)
Definition regional_store : Calc.Store :=
  {| Calc.catalog := [Sample.regional_type_entry; Sample.gpu_entry];
     Calc.rejects := fun _ => false |}.

Definition in_europe : Calc.ResourceSpecification :=
  located "project-a" "vm-9" "europe-west1" "on-demand".

Definition in_europe_other_project : Calc.ResourceSpecification :=
  located "project-c" "vm-1" "europe-west1" "on-demand".

(** A SKU of three priced tiers. *)
Definition three_tiers : Billing.Sku :=
  {| Billing.skuId := "0000-DDDD-4444";
     Billing.description := "N1 Predefined Instance Core running in Americas";
     Billing.serviceRegions := Some ["us-central1"];
     Billing.pricingInfo :=
       Some [ {| Billing.pricingExpression :=
                   Some {| Billing.usageUnit := "h";
                           Billing.tieredRates :=
                             Some [ {| Billing.startUsageAmount := Some 0%float;
                                       Billing.unitPrice :=
                                         Some {| Billing.units := Some 0;
                                                 Billing.nanos := Some 47500000;
                                                 Billing.currencyCode := Some "USD" |} |};
                                    {| Billing.startUsageAmount := Some 100.5%float;
                                       Billing.unitPrice :=
                                         Some {| Billing.units := Some 0;
                                                 Billing.nanos := Some 40000000;
                                                 Billing.currencyCode := None |} |};
                                    {| Billing.startUsageAmount := Some 1000000%float;
                                       Billing.unitPrice :=
                                         Some {| Billing.units := Some 1;
                                                 Billing.nanos := Some 30000000;
                                                 Billing.currencyCode := Some "EUR" |} |} ]
                        |} |} ] |}.

(** The accepted refresh on a host where daylight saving time ended
    within the last 90 days: the local calendar's "90 days ago" is an
    hour earlier. *)
Definition refresh_after_clock_change : Updater.World :=
  {| Updater.listed := Ok [Sample.n1_core; Sample.priced_1_14];
     Updater.update_rejects := false;
     Updater.insert_rejects := fun _ => false;
     Updater.delete_rejects := false;
     Updater.report_rejects := false;
     Updater.now := 1728000000000;
     Updater.zone_shift := -3600000 |}.

(** An inactive row dated 91 days before the sample refreshes. *)
Definition row_of_91_days_ago : Catalog.entry :=
  Updater.deactivate 1720000000000
    {| Catalog.sku_id := "OLDER";
       Catalog.sku_name := "OLDER";
       Catalog.service_name := "Compute Engine";
       Catalog.service_id := "6F81-5844-456A";
       Catalog.resource_family := "Compute";
       Catalog.resource_group := "N1Standard";
       Catalog.usage_type := "OnDemand";
       Catalog.region := Some "us-central1";
       Catalog.currency_code := "USD";
       Catalog.pricing_unit := "h";
       Catalog.price_per_unit := 0.09;
       Catalog.tiered_rates := None;
       Catalog.machine_family := Some "n1";
       Catalog.machine_type := Some "n1-standard-2";
       Catalog.vcpu_count := None;
       Catalog.memory_gb := None;
       Catalog.disk_type := None;
       Catalog.gpu_type := None;
       Catalog.commitment_term := None;
       Catalog.commitment_type := None;
       Catalog.discount_percent := 0;
       Catalog.network_tier := None;
       Catalog.effective_date := 19909;
       Catalog.last_updated := 1720000000000;
       Catalog.pricing_source := "cloud-billing-api";
       Catalog.is_active := true;
       Catalog.validation_status := "valid";
       Catalog.description := "OLDER";
       Catalog.category := "compute";
       Catalog.tags := [] |}.

End MoreSample.

(* ===================================================================== *)
(** * Facts about binary64 numbers                                         *)
(* ===================================================================== *)

Module NumFacts.

(** Comparing against [+0] only looks at the class and the sign. *)
Lemma zero_ltb (x : float) :
  (0 <? x)%float = match Prim2SF x with
                   | S754_infinity false | S754_finite false _ _ => true
                   | _ => false
                   end.
Proof.
  rewrite FloatAxioms.ltb_spec. change (Prim2SF 0) with (S754_zero false).
  destruct (Prim2SF x) as [[]|[]| |[] m e]; reflexivity.
Qed.

Lemma ltb_zero (x : float) :
  (x <? 0)%float = match Prim2SF x with
                   | S754_infinity true | S754_finite true _ _ => true
                   | _ => false
                   end.
Proof.
  rewrite FloatAxioms.ltb_spec. change (Prim2SF 0) with (S754_zero false).
  destruct (Prim2SF x) as [[]|[]| |[] m e]; reflexivity.
Qed.

Lemma zero_leb (x : float) :
  (0 <=? x)%float = match Prim2SF x with
                    | S754_zero _ | S754_infinity false | S754_finite false _ _ => true
                    | _ => false
                    end.
Proof.
  rewrite FloatAxioms.leb_spec. change (Prim2SF 0) with (S754_zero false).
  destruct (Prim2SF x) as [[]|[]| |[] m e]; reflexivity.
Qed.

(** [Math.max(0, x)] is never below zero: it is NaN, or at least [0]. *)
Lemma Math_max_zero_not_negative (x : float) :
  (Math_max 0 x <? 0)%float = false.
Proof.
  unfold Math_max. change (is_nan 0) with false. simpl orb.
  destruct (is_nan x) eqn:Hnan; [reflexivity|].
  destruct (0 <? x)%float eqn:Hpos.
  - rewrite zero_ltb in Hpos. rewrite ltb_zero.
    destruct (Prim2SF x) as [[]|[]| |[] m e]; congruence.
  - destruct (x <? 0)%float; reflexivity.
Qed.

Lemma Math_max_zero_nan_or_nonneg (x : float) :
  is_nan (Math_max 0 x) = true \/ (0 <=? Math_max 0 x)%float = true.
Proof.
  unfold Math_max. change (is_nan 0) with false. simpl orb.
  destruct (is_nan x) eqn:Hnan; [left; reflexivity|]. right.
  destruct (0 <? x)%float eqn:Hpos.
  - rewrite zero_ltb in Hpos. rewrite zero_leb.
    destruct (Prim2SF x) as [[]|[]| |[] m e]; congruence.
  - destruct (x <? 0)%float; reflexivity.
Qed.

Lemma is_nan_class (x : float) :
  is_nan x = match Prim2SF x with S754_nan => true | _ => false end.
Proof.
  unfold is_nan. rewrite FloatAxioms.eqb_spec. unfold SFeqb.
  destruct (Prim2SF x) as [[]|[]| |[] m e]; try reflexivity; simpl;
    rewrite Z.compare_refl, Pos.compare_cont_refl; reflexivity.
Qed.

Lemma eqb_zero (x : float) :
  (x =? 0)%float = match Prim2SF x with S754_zero _ => true | _ => false end.
Proof.
  rewrite FloatAxioms.eqb_spec. change (Prim2SF 0) with (S754_zero false).
  destruct (Prim2SF x) as [[]|[]| |[] m e]; reflexivity.
Qed.

(** The four cases of [Math.max(0, x)]: [x] itself when [x] is above
    zero, [0] when it is below zero or a zero, NaN when it is NaN. *)
Lemma Math_max_zero_above (x : float) : (0 <? x)%float = true -> Math_max 0 x = x.
Proof.
  intros Hpos. unfold Math_max. change (is_nan 0) with false. simpl orb.
  rewrite is_nan_class, Hpos. rewrite zero_ltb in Hpos.
  destruct (Prim2SF x) as [[]|[]| |[] m e]; try discriminate; reflexivity.
Qed.

Lemma Math_max_zero_below (x : float) : (x <? 0)%float = true -> Math_max 0 x = 0%float.
Proof.
  intros Hneg. unfold Math_max. change (is_nan 0) with false. simpl orb.
  rewrite is_nan_class, zero_ltb, Hneg. rewrite ltb_zero in Hneg.
  destruct (Prim2SF x) as [[]|[]| |[] m e]; try discriminate; reflexivity.
Qed.

Lemma Math_max_zero_zero (x : float) : (x =? 0)%float = true -> Math_max 0 x = 0%float.
Proof.
  intros Hzero. unfold Math_max. change (is_nan 0) with false. simpl orb.
  rewrite is_nan_class, zero_ltb, ltb_zero. rewrite eqb_zero in Hzero.
  destruct (Prim2SF x) as [[]|[]| |[] m e]; try discriminate; reflexivity.
Qed.

Lemma Math_max_zero_nan (x : float) : is_nan x = true -> Math_max 0 x = nan.
Proof.
  intros Hnan. unfold Math_max. rewrite Hnan, orb_true_r. reflexivity.
Qed.

(** A number that is truthy and written without exponent is finite. *)
Lemma truthy_positional_finite (x : float) :
  truthy x = true -> positional x = true ->
  exists s m e, Prim2SF x = S754_finite s m e.
Proof.
  unfold truthy, positional, is_zero. change zero with 0%float.
  rewrite is_nan_class, eqb_zero, FloatAxioms.leb_spec, FloatAxioms.ltb_spec,
    FloatAxioms.abs_spec.
  destruct (Prim2SF x) as [[]|[]| |s m e]; try discriminate; eauto.
Qed.

End NumFacts.

(* ===================================================================== *)
(** * The BoQ calculator: totals, costs and discounts                      *)
(* ===================================================================== *)

Module CalcTheory.
Import Calc Notions.

(** C3.  For every costs record and every discounts record, of any
    magnitude, [calculateTotals] returns
    [total_cost = Math.max(0, subtotal - total_discount)], where the
    subtotal is the sum of the five cost components and the total
    discount the sum of the three discount amounts.  The value is
    pinned case by case: with [d = subtotal - total_discount], the total
    cost is [d] itself when [d] is above zero, [0] when [d] is below
    zero (a discount exceeding the subtotal) or is a zero, and NaN when
    [d] is NaN.  The total cost is never negative: it is not below zero,
    and it is NaN or at least 0.  The same holds of the total cost of
    every line item. *)
Theorem total_cost_floor_at_zero (costs : Costs) (discounts : Discounts)
    (store : Store) (clock : Z) (resource : ResourceSpecification)
    (boqId : string) (requestedBy : option string) :
  let totals := calculateTotals costs discounts in
  let item := calculateResourceBoQ store clock resource boqId requestedBy in
  let d := (subtotal totals - total_discount totals)%float in
  let d_item := (Item.subtotal_usd item - Item.total_discount_usd item)%float in
  subtotal totals
    = (compute costs + memory costs + storage costs + network costs + gpu costs)%float
  /\ total_discount totals
    = (sud_amount discounts + cud_amount discounts + spot_amount discounts)%float
  /\ total_cost totals = Math_max 0 (subtotal totals - total_discount totals)
  /\ (total_cost totals <? 0)%float = false
  /\ (is_nan (total_cost totals) = true \/ (0 <=? total_cost totals)%float = true)
  /\ Item.total_cost_usd item
     = Math_max 0 (Item.subtotal_usd item - Item.total_discount_usd item)
  /\ (Item.total_cost_usd item <? 0)%float = false
  /\ ((0 <? d)%float = true -> total_cost totals = d)
  /\ ((d <? 0)%float = true -> total_cost totals = 0%float)
  /\ ((d =? 0)%float = true -> total_cost totals = 0%float)
  /\ (is_nan d = true -> is_nan (total_cost totals) = true)
  /\ ((0 <? d_item)%float = true -> Item.total_cost_usd item = d_item)
  /\ ((d_item <? 0)%float = true -> Item.total_cost_usd item = 0%float)
  /\ ((d_item =? 0)%float = true -> Item.total_cost_usd item = 0%float).
Proof.
  cbv zeta.
  change (total_cost (calculateTotals costs discounts))
    with (Math_max 0 (subtotal (calculateTotals costs discounts)
                      - total_discount (calculateTotals costs discounts))).
  change (Item.total_cost_usd (calculateResourceBoQ store clock resource boqId requestedBy))
    with (Math_max 0
            (Item.subtotal_usd (calculateResourceBoQ store clock resource boqId requestedBy)
             - Item.total_discount_usd
                 (calculateResourceBoQ store clock resource boqId requestedBy))).
  do 3 (split; [reflexivity|]).
  split; [apply NumFacts.Math_max_zero_not_negative|].
  split; [apply NumFacts.Math_max_zero_nan_or_nonneg|].
  split; [reflexivity|].
  split; [apply NumFacts.Math_max_zero_not_negative|].
  split; [apply NumFacts.Math_max_zero_above|].
  split; [apply NumFacts.Math_max_zero_below|].
  split; [apply NumFacts.Math_max_zero_zero|].
  split; [intros Hnan; now rewrite (NumFacts.Math_max_zero_nan _ Hnan)|].
  split; [apply NumFacts.Math_max_zero_above|].
  split; [apply NumFacts.Math_max_zero_below|apply NumFacts.Math_max_zero_zero].
Qed.

(** A discount larger than the subtotal gives a total cost of 0. *)
Example total_cost_when_discount_exceeds_subtotal :
  total_cost (calculateTotals
    {| compute := 10; memory := 0; storage := 1; network := 0; gpu := 0 |}
    {| sud_percent := 0; cud_percent := 0; spot_percent := 60;
       sud_amount := 0; cud_amount := 0; spot_amount := 25 |}) = 0%float.
Proof. vm_compute. reflexivity. Qed.

(** The loop keeps what was accumulated and appends the line items of
    the resources whose calculation did not throw. *)
Lemma for_each_resource_processed calculate batch acc :
  for_each_resource calculate batch acc = (acc ++ processed calculate batch)%list.
Proof.
  revert acc. induction batch as [|resource rest IH]; intros acc; simpl.
  - now rewrite app_nil_r.
  - unfold processed in *. simpl. destruct (calculate resource) as [item|e]; simpl.
    + rewrite IH. now rewrite <- app_assoc.
    + apply IH.
Qed.

Lemma processed_total (f : ResourceSpecification -> Item.t) batch :
  processed (fun resource => Ok (f resource)) batch = List.map f batch.
Proof.
  unfold processed. induction batch as [|x l IH]; [reflexivity|].
  cbn. now f_equal.
Qed.

Lemma results_of_calculateBoQ (w : World) requestedBy :
  results_of (calculateBoQ w requestedBy) = [] \/
  exists batch,
    results_of (calculateBoQ w requestedBy)
    = List.map (fun resource =>
                  calculateResourceBoQ (db w) (now w) resource (uuid w) requestedBy) batch.
Proof.
  unfold calculateBoQ, handler.
  destruct (fetched w) as [[|r batch]|e]; simpl mbind; cbv iota; auto.
  rewrite for_each_resource_processed, processed_total. simpl.
  unfold saveBoQResults. destruct (save_rejects w); simpl; auto.
  right. exists (r :: batch). reflexivity.
Qed.

(** The resolver never sets a separate memory price. *)
Lemma memory_price_is_never_set (store : Store) (resource : ResourceSpecification) :
  memory_price_per_gb_hour (fetchPricingForResource store resource) = 0%float.
Proof.
  unfold fetchPricingForResource, try_catch, try_block, catch_block,
    mbind, Eff_bind, mret, Eff_ret, eval, modify, bigquery_query, split_receiver.
  destruct (machine_type resource) as [mt|]; [|reflexivity].
  repeat (match goal with
          | |- context [rejects store ?q] => destruct (rejects store q)
          | |- context [has_gpu resource] => destruct (has_gpu resource)
          | |- context [match run_query ?q ?l with _ => _ end] => destruct (run_query q l)
          end; cbn);
    reflexivity.
Qed.

(** C10.  For every resource specification and every pricing record,
    [calculateBaseCosts] returns a memory cost of exactly 0: memory is
    never costed as a component of its own (the resolver leaves the
    memory price at 0; memory enters only through the compute price or
    the vCPU-and-memory estimate).  So the line item
    [calculateResourceBoQ] builds has [memory_cost_usd = 0], and so has
    every line item in the results of a [calculateBoQ] run. *)
Theorem memory_cost_is_zero
    (resource : ResourceSpecification) (pricing : Pricing)
    (store : Store) (clock : Z) (boqId : string) (requestedBy : option string)
    (w : World) :
  memory (calculateBaseCosts resource pricing) = 0%float
  /\ memory_price_per_gb_hour (fetchPricingForResource store resource) = 0%float
  /\ Item.memory_cost_usd (calculateResourceBoQ store clock resource boqId requestedBy)
     = 0%float
  /\ Forall (fun item => Item.memory_cost_usd item = 0%float)
            (results_of (calculateBoQ w requestedBy)).
Proof.
  split; [reflexivity|]. split; [apply memory_price_is_never_set|].
  split; [reflexivity|].
  destruct (results_of_calculateBoQ w requestedBy) as [E|[batch E]]; rewrite E.
  - constructor.
  - apply List.Forall_forall. intros item Hin. apply List.in_map_iff in Hin.
    destruct Hin as [r [<- _]]. reflexivity.
Qed.

(* ------------------------------------------------------------------- *)
(** ** Sustained-use discount                                            *)

(** On integer hours the integer expression is what binary64 arithmetic
    computes (checked for every duration up to 30000 hours, more than
    three years). *)
Lemma sustained_use_percent_binary64_agrees :
  forallb (fun h => (sustained_use_percent_binary64 (num h) =? num (sustained_use_percent h))%float)
          (integers_from 0 (Z.to_nat 30001)) = true.
Proof. vm_compute. reflexivity. Qed.

Lemma sustained_use_percent_mono (h1 h2 : Z) :
  h1 <= h2 -> sustained_use_percent h1 <= sustained_use_percent h2.
Proof.
  intros H. unfold sustained_use_percent.
  assert ((h1 - 183) / 73 <= (h2 - 183) / 73) by (apply Z.div_le_mono; lia).
  lia.
Qed.

Lemma sustained_use_percent_nonneg (h : Z) :
  183 <= h -> 0 <= sustained_use_percent h.
Proof.
  intros H. unfold sustained_use_percent.
  assert (0 <= (h - 183) / 73) by (apply Z.div_pos; lia).
  lia.
Qed.

Lemma sustained_use_percent_cap (h : Z) :
  183 + 73 * 6 <= h -> sustained_use_percent h = 30.
Proof.
  intros H. unfold sustained_use_percent.
  assert (6 <= (h - 183) / 73) by (apply Z.div_le_lower_bound; lia).
  lia.
Qed.

Lemma sustained_use_percent_zero_iff (h : Z) :
  183 < h -> (sustained_use_percent h <> 0 <-> 256 <= h).
Proof.
  intros H. unfold sustained_use_percent.
  split; intros H1.
  - destruct (Z_lt_le_dec h 256) as [Hlt|Hle]; [|assumption].
    exfalso. apply H1. rewrite Z.div_small by lia. reflexivity.
  - assert (1 <= (h - 183) / 73) by (apply Z.div_le_lower_bound; lia).
    lia.
Qed.

(** What the default branch of the switch returns. *)
Lemma sud_percent_default_branch (resource : ResourceSpecification) (costs : Costs) :
  String.eqb (pricing_model resource) "spot" = false ->
  String.eqb (pricing_model resource) "preemptible" = false ->
  String.eqb (pricing_model resource) "cud-1-year" = false ->
  String.eqb (pricing_model resource) "cud-3-year" = false ->
  let d := calculateDiscounts resource costs in
  sud_percent d
    = (if ((183 <? usage_duration_hours resource)
           && bool_decide (usage_pattern resource = Some "continuous"))%bool
       then sustained_use_percent (usage_duration_hours resource) else 0)
  /\ cud_percent d = 0 /\ cud_amount d = 0%float
  /\ spot_percent d = 0 /\ spot_amount d = 0%float
  /\ (((183 <? usage_duration_hours resource)
       && bool_decide (usage_pattern resource = Some "continuous"))%bool = false ->
      sud_amount d = 0%float).
Proof.
  intros H1 H2 H3 H4. unfold calculateDiscounts. rewrite H1, H2, H3, H4. simpl orb.
  cbv iota.
  destruct ((183 <? usage_duration_hours resource)
            && bool_decide (usage_pattern resource = Some "continuous"))%bool;
    cbn; repeat split; congruence.
Qed.

Lemma sud_percent_on_demand (resource : ResourceSpecification) (costs : Costs) :
  pricing_model resource = "on-demand" ->
  usage_pattern resource = Some "continuous" ->
  sud_percent (calculateDiscounts resource costs)
    = if 183 <? usage_duration_hours resource
      then sustained_use_percent (usage_duration_hours resource) else 0.
Proof.
  intros Hm Hp.
  destruct (sud_percent_default_branch resource costs) as [E _];
    try (rewrite Hm; reflexivity).
  rewrite E, Hp. rewrite bool_decide_eq_true_2 by reflexivity.
  now rewrite andb_true_r.
Qed.

(** C2.  For every resource with pricing model on-demand and usage
    pattern "continuous", the sustained-use percent [calculateDiscounts]
    returns is [min(30, floor((usage_duration_hours - 183) / 73) * 5)]
    when [usage_duration_hours > 183] and 0 otherwise; it does not
    decrease when the hours grow, and it is the cap 30 for every
    duration of at least [183 + 73 * 6] hours. *)
Theorem sustained_use_percent_law (resource : ResourceSpecification) (costs : Costs)
    (Hmodel : pricing_model resource = "on-demand")
    (Hpattern : usage_pattern resource = Some "continuous") :
  let hours := usage_duration_hours resource in
  let percent := sud_percent (calculateDiscounts resource costs) in
  percent = (if 183 <? hours then Z.min 30 ((hours - 183) / 73 * 5) else 0)
  /\ (forall (resource' : ResourceSpecification) (costs' : Costs),
        pricing_model resource' = "on-demand" ->
        usage_pattern resource' = Some "continuous" ->
        hours <= usage_duration_hours resource' ->
        percent <= sud_percent (calculateDiscounts resource' costs'))
  /\ (183 + 73 * 6 <= hours -> percent = 30).
Proof.
  cbv zeta. rewrite (sud_percent_on_demand _ _ Hmodel Hpattern).
  split; [reflexivity|]. split.
  - intros r' c' Hm' Hp' Hle. rewrite (sud_percent_on_demand _ _ Hm' Hp').
    destruct (Z.ltb_spec 183 (usage_duration_hours resource));
      destruct (Z.ltb_spec 183 (usage_duration_hours r')); try lia.
    + now apply sustained_use_percent_mono.
    + apply sustained_use_percent_nonneg. lia.
  - intros Hcap. destruct (Z.ltb_spec 183 (usage_duration_hours resource)); [|lia].
    now apply sustained_use_percent_cap.
Qed.

Lemma sustained_use_percent_law_witness :
  pricing_model Sample.reference = "on-demand"
  /\ usage_pattern Sample.reference = Some "continuous"
  /\ sud_percent (calculateDiscounts Sample.reference Sample.costs) = 30
  /\ sud_percent (calculateDiscounts Sample.short_on_demand Sample.costs)
     <= sud_percent (calculateDiscounts Sample.reference Sample.costs).
Proof.
  split; [reflexivity|]. split; [reflexivity|].
  pose proof (sustained_use_percent_law Sample.reference Sample.costs
                eq_refl eq_refl) as [_ [_ Hcap]].
  pose proof (sustained_use_percent_law Sample.short_on_demand Sample.costs
                eq_refl eq_refl) as [_ [Hmono _]].
  split.
  - apply Hcap. vm_compute. discriminate.
  - apply (Hmono Sample.reference Sample.costs eq_refl eq_refl).
    vm_compute. discriminate.
Defined.

(* ------------------------------------------------------------------- *)
(** ** One discount family per pricing model                             *)

Lemma nonzero_families_one (b : bool) (p1 p2 : Z) (a1 a2 : float) :
  p1 = 0 -> a1 = 0%float -> p2 = 0 -> a2 = 0%float ->
  (length (List.filter (fun b : bool => b)
     [b; family_nonzero p1 a1; family_nonzero p2 a2]) <= 1)%nat.
Proof. intros -> -> -> ->. destruct b; cbn; lia. Qed.

(** C1, as the code has it.  For every resource with a supported
    pricing model, [calculateDiscounts] leaves the two families the
    pricing model does not select at zero, percentage and amount, so at
    most one family is non-zero: spot and preemptible give a spot
    percentage of 60, cud-1-year a committed-use percentage of 25,
    cud-3-year one of 37, and on-demand leaves only the sustained-use
    family, whose percentage is non-zero exactly when the usage pattern
    is "continuous" and the duration is at least 256 hours; for
    on-demand with at most 183 hours all three percentages and amounts
    are zero. *)
Theorem discount_family_by_pricing_model
    (resource : ResourceSpecification) (costs : Costs)
    (Hsupported : In (pricing_model resource) supported_pricing_models) :
  let d := calculateDiscounts resource costs in
  let model := pricing_model resource in
  let hours := usage_duration_hours resource in
  (nonzero_families d <= 1)%nat
  /\ (model = "spot" \/ model = "preemptible" ->
      spot_percent d = 60
      /\ sud_percent d = 0 /\ sud_amount d = 0%float
      /\ cud_percent d = 0 /\ cud_amount d = 0%float)
  /\ (model = "cud-1-year" ->
      cud_percent d = 25
      /\ sud_percent d = 0 /\ sud_amount d = 0%float
      /\ spot_percent d = 0 /\ spot_amount d = 0%float)
  /\ (model = "cud-3-year" ->
      cud_percent d = 37
      /\ sud_percent d = 0 /\ sud_amount d = 0%float
      /\ spot_percent d = 0 /\ spot_amount d = 0%float)
  /\ (model = "on-demand" ->
      cud_percent d = 0 /\ cud_amount d = 0%float
      /\ spot_percent d = 0 /\ spot_amount d = 0%float
      /\ (sud_percent d <> 0 <->
          usage_pattern resource = Some "continuous" /\ 256 <= hours))
  /\ (model = "on-demand" -> hours <= 183 ->
      sud_percent d = 0 /\ cud_percent d = 0 /\ spot_percent d = 0
      /\ sud_amount d = 0%float /\ cud_amount d = 0%float /\ spot_amount d = 0%float).
Proof.
  cbv zeta. unfold nonzero_families.
  assert (Hdefault := sud_percent_default_branch resource costs).
  simpl in Hsupported.
  destruct Hsupported as [H|[H|[H|[H|[H|[]]]]]]; symmetry in H.
  - (* on-demand *)
    destruct Hdefault as (Es & Ec & Eca & Ep & Epa & Esa); try (rewrite H; reflexivity).
    split; [now apply nonzero_families_one|].
    split; [rewrite H; intros [?|?]; discriminate|].
    split; [rewrite H; discriminate|].
    split; [rewrite H; discriminate|].
    split.
    + intros _. repeat (split; [assumption|]). rewrite Es. split.
      * intros Hne.
        destruct (Z.ltb_spec 183 (usage_duration_hours resource)); [|contradiction].
        destruct (bool_decide (usage_pattern resource = Some "continuous")) eqn:Hp;
          [|contradiction].
        apply bool_decide_eq_true_1 in Hp. split; [assumption|].
        now apply sustained_use_percent_zero_iff.
      * intros [Hp Hh]. rewrite (bool_decide_eq_true_2 _ Hp).
        destruct (Z.ltb_spec 183 (usage_duration_hours resource)); [|lia].
        apply sustained_use_percent_zero_iff; assumption.
    + intros _ Hle.
      assert (Hcond : (183 <? usage_duration_hours resource) = false)
        by (apply Z.ltb_ge; exact Hle).
      rewrite Es, Hcond. repeat (split; [reflexivity || assumption|]).
      split; [apply Esa; now rewrite Hcond|]. split; assumption.
  - (* cud-1-year *)
    unfold calculateDiscounts. rewrite H. cbn.
    split; [lia|]. repeat split; try reflexivity; intros; intuition discriminate.
  - (* cud-3-year *)
    unfold calculateDiscounts. rewrite H. cbn.
    split; [lia|]. repeat split; try reflexivity; intros; intuition discriminate.
  - (* spot *)
    unfold calculateDiscounts. rewrite H. cbn.
    split; [lia|].
    repeat split; try reflexivity; intros; intuition discriminate.
  - (* preemptible *)
    unfold calculateDiscounts. rewrite H. cbn.
    split; [lia|].
    repeat split; try reflexivity; intros; intuition discriminate.
Qed.

Lemma discount_family_by_pricing_model_witness :
  In (pricing_model Sample.spot) supported_pricing_models
  /\ (nonzero_families (calculateDiscounts Sample.spot Sample.costs) <= 1)%nat
  /\ spot_percent (calculateDiscounts Sample.spot Sample.costs) = 60.
Proof.
  assert (Hin : In (pricing_model Sample.spot) supported_pricing_models)
    by (simpl; tauto).
  split; [exact Hin|].
  pose proof (discount_family_by_pricing_model Sample.spot Sample.costs Hin)
    as (Hcount & Hspot & _).
  split; [exact Hcount|].
  apply Hspot. left. reflexivity.
Defined.

(** C1 as stated fails: an on-demand resource that runs continuously
    for 200 hours (more than 183) has a supported pricing model and no
    non-zero discount family at all, and so has the reference resource
    under the usage pattern "intermittent". *)
Lemma exactly_one_family_fails :
  In (Calc.pricing_model Sample.short_on_demand) supported_pricing_models
  /\ nonzero_families (calculateDiscounts Sample.short_on_demand Sample.costs) = 0%nat
  /\ nonzero_families (calculateDiscounts Sample.short_on_demand Sample.costs) <> 1%nat
  /\ nonzero_families
       (calculateDiscounts
          (Sample.resource (Some "n1-standard-2") 2 7.5 730 "intermittent" "on-demand"
                           None None)
          Sample.costs) = 0%nat.
Proof.
  split; [simpl; tauto|]. split; [vm_compute; reflexivity|].
  split; [vm_compute; discriminate|]. vm_compute. reflexivity.
Qed.

End CalcTheory.

(* ===================================================================== *)
(** * The price resolver                                                   *)
(* ===================================================================== *)

Module ResolverTheory.
Import Calc Notions.

Lemma filter_none {A} (f : A -> bool) (l : list A) :
  (forall x, In x l -> f x = false) -> List.filter f l = [].
Proof.
  induction l as [|x l IH]; intros H; simpl; [reflexivity|].
  rewrite (H x) by (left; reflexivity). apply IH. intros y Hy. apply H. now right.
Qed.

Lemma run_query_none (q : Query) (rows : list Catalog.entry) :
  (forall e, In e rows -> where_clause q e = false) -> run_query q rows = [].
Proof. intros H. unfold run_query. now rewrite filter_none. Qed.

Lemma least_by_in key best rows :
  In (Catalog.least_by key best rows) (best :: rows).
Proof.
  revert best. induction rows as [|e rest IH]; intros best; simpl; [now left|].
  destruct (IH (if Catalog.key_lt (key e) (key best) then e else best)) as [H|H].
  - destruct (Catalog.key_lt (key e) (key best)); rewrite <- H; auto.
  - auto.
Qed.

(** A query that finds rows returns one row of the table that satisfies
    its WHERE clause. *)
Lemma run_query_some (q : Query) (rows : list Catalog.entry) :
  (exists e, In e rows /\ where_clause q e = true) ->
  exists row, run_query q rows = [row] /\ In row rows /\ where_clause q row = true.
Proof.
  intros [e [Hin Hw]]. unfold run_query.
  assert (Hf : In e (List.filter (where_clause q) rows))
    by (apply List.filter_In; auto).
  destruct (List.filter (where_clause q) rows) as [|x l] eqn:E; [destruct Hf|].
  simpl. eexists. split; [reflexivity|].
  pose proof (least_by_in (order_key q) x l) as Hl. rewrite <- E in Hl.
  apply List.filter_In in Hl. exact Hl.
Qed.

Ltac run_blocks :=
  unfold fetchPricingForResource, try_catch, try_block, catch_block,
    mbind, Eff_bind, mret, Eff_ret, eval, modify, bigquery_query, split_receiver.

(** With no GPU and no matching row, the pricing is the fallback
    pricing, whether or not the store answers. *)
Lemma pricing_when_nothing_matches (store : Store) (resource : ResourceSpecification) :
  (forall e, In e (catalog store) -> compute_matches resource e = false) ->
  (forall e, In e (catalog store) -> storage_matches resource e = false) ->
  has_gpu resource = false ->
  fetchPricingForResource store resource
  = {| compute_price_per_hour := estimateComputePricing resource;
       memory_price_per_gb_hour := 0;
       storage_price_per_gb_month := getDefaultStoragePricing (Some (disk_type resource));
       network_price_per_gb := 0;
       gpu_price_per_hour := 0 |}.
Proof.
  intros Hc Hs Hg. unfold compute_matches, storage_matches in *. run_blocks.
  rewrite Hg.
  destruct (machine_type resource) as [mt|]; [|reflexivity].
  rewrite (run_query_none _ _ Hc), (run_query_none _ _ Hs).
  repeat (match goal with |- context [rejects store ?q] => destruct (rejects store q) end);
    reflexivity.
Qed.

(** When no row matches the compute query, the compute price is the
    estimate, whatever else happens. *)
Lemma compute_price_when_no_match (store : Store) (resource : ResourceSpecification) :
  (forall e, In e (catalog store) -> compute_matches resource e = false) ->
  compute_price_per_hour (fetchPricingForResource store resource)
  = estimateComputePricing resource.
Proof.
  intros Hc. unfold compute_matches in *. run_blocks.
  destruct (machine_type resource) as [mt|]; [|reflexivity].
  rewrite (run_query_none _ _ Hc).
  repeat (match goal with
          | |- context [rejects store ?q] => destruct (rejects store q)
          | |- context [has_gpu resource] => destruct (has_gpu resource)
          | |- context [match run_query ?q ?l with _ => _ end] => destruct (run_query q l)
          end; cbn);
    reflexivity.
Qed.

Lemma storage_price_when_no_match (store : Store) (resource : ResourceSpecification) :
  (forall e, In e (catalog store) -> storage_matches resource e = false) ->
  storage_price_per_gb_month (fetchPricingForResource store resource)
  = getDefaultStoragePricing (Some (disk_type resource)).
Proof.
  intros Hs. unfold storage_matches in *. run_blocks.
  destruct (machine_type resource) as [mt|]; [|reflexivity].
  rewrite (run_query_none _ _ Hs).
  repeat (match goal with
          | |- context [rejects store ?q] => destruct (rejects store q)
          | |- context [has_gpu resource] => destruct (has_gpu resource)
          | |- context [match run_query ?q ?l with _ => _ end] => destruct (run_query q l)
          end; cbn);
    reflexivity.
Qed.

Lemma gpu_price_when_no_match (store : Store) (resource : ResourceSpecification) :
  (forall e, In e (catalog store) -> gpu_matches resource e = false) ->
  gpu_price_per_hour (fetchPricingForResource store resource) = 0%float.
Proof.
  intros Hg. unfold gpu_matches in *. run_blocks.
  destruct (machine_type resource) as [mt|]; [|reflexivity].
  rewrite (run_query_none _ _ Hg).
  repeat (match goal with
          | |- context [rejects store ?q] => destruct (rejects store q)
          | |- context [has_gpu resource] => destruct (has_gpu resource)
          | |- context [match run_query ?q ?l with _ => _ end] => destruct (run_query q l)
          end; cbn);
    reflexivity.
Qed.

Lemma gpu_price_when_match (store : Store) (resource : ResourceSpecification) :
  has_gpu resource = true ->
  (forall q, rejects store q = false) ->
  machine_type resource <> None ->
  (exists e, In e (catalog store) /\ gpu_matches resource e = true) ->
  exists row, In row (catalog store) /\ gpu_matches resource row = true
              /\ gpu_price_per_hour (fetchPricingForResource store resource)
                 = Catalog.price_per_unit row.
Proof.
  intros Hgpu Hrej Hmt Hex. unfold gpu_matches in *.
  destruct (run_query_some _ _ Hex) as [row (Hq & Hin & Hw)].
  exists row. split; [assumption|]. split; [assumption|].
  run_blocks. destruct (machine_type resource) as [mt|]; [|contradiction].
  rewrite !Hrej, Hgpu, Hq.
  repeat (match goal with
          | |- context [match run_query ?q ?l with _ => _ end] => destruct (run_query q l)
          end; cbn);
    reflexivity.
Qed.

(** The tie-break of the compute query: the exact machine type comes
    before the family match, the exact region before a row without one. *)
Example compute_query_prefers_exact_matches :
  compute_price_per_hour (fetchPricingForResource Sample.compute_store Sample.reference)
  = 0.1%float
  /\ List.map Catalog.sku_id
       (run_query (ComputeQuery "n1-standard-2" "n1" "europe-west1" "OnDemand")
                  (catalog Sample.compute_store))
     = ["N1-STANDARD-2"].
Proof. split; vm_compute; reflexivity. Qed.

(** C5.  When no catalog entry matches a resource's compute component,
    the resolved compute price per hour is
    [vcpu_count * 0.0475 + memory_gb * 0.0063], whether or not the store
    answers and whatever else the catalog holds.  For the reference
    resource (n1-standard-2, 2 vCPU, 7.5 GB, 730 hours, continuous,
    on-demand, 100 GB pd-standard) with no catalog match, the compute
    cost is [(2*0.0475 + 7.5*0.0063)*730] (between 103.8 and 103.9), the
    sustained-use percent is 30 and the total cost is below the
    subtotal. *)
Theorem compute_price_falls_back_to_estimate
    (store : Store) (resource : ResourceSpecification)
    (clock : Z) (boqId : string) (requestedBy : option string)
    (Hnone : forall e, In e (catalog store) -> compute_matches resource e = false) :
  compute_price_per_hour (fetchPricingForResource store resource)
    = (num (vcpu_count resource) * 0.0475 + memory_gb resource * 0.0063)%float
  /\ ((forall e, In e (catalog store) ->
         compute_matches Sample.reference e = false
         /\ storage_matches Sample.reference e = false) ->
      let item := calculateResourceBoQ store clock Sample.reference boqId requestedBy in
      Item.compute_cost_usd item = ((2 * 0.0475 + 7.5 * 0.0063) * 730)%float
      /\ (103.8 <=? Item.compute_cost_usd item)%float = true
      /\ (Item.compute_cost_usd item <? 103.9)%float = true
      /\ Item.sustained_use_discount_percent item = 30
      /\ (Item.total_cost_usd item <? Item.subtotal_usd item)%float = true).
Proof.
  split; [now apply compute_price_when_no_match|].
  intros Href.
  unfold calculateResourceBoQ. cbn [Item.compute_cost_usd Item.total_cost_usd
    Item.subtotal_usd Item.sustained_use_discount_percent].
  rewrite pricing_when_nothing_matches;
    [|intros e He; apply (Href e He)|intros e He; apply (Href e He)|reflexivity].
  repeat split; vm_compute; reflexivity.
Qed.

Lemma compute_price_falls_back_to_estimate_witness :
  catalog MoreSample.regional_store = [Sample.regional_type_entry; Sample.gpu_entry]
  /\ compute_price_per_hour
       (fetchPricingForResource MoreSample.regional_store Sample.reference) = 0.1%float
  /\ compute_price_per_hour
       (fetchPricingForResource MoreSample.regional_store MoreSample.in_europe)
     = (num 2 * 0.0475 + 7.5 * 0.0063)%float
  /\ Item.sustained_use_discount_percent
       (calculateResourceBoQ Sample.gpu_store 0 Sample.reference "boq-1" None) = 30
  /\ (Item.total_cost_usd
        (calculateResourceBoQ Sample.gpu_store 0 Sample.reference "boq-1" None)
      <? Item.subtotal_usd
           (calculateResourceBoQ Sample.gpu_store 0 Sample.reference "boq-1" None))%float
     = true.
Proof.
  split; [reflexivity|]. split; [vm_compute; reflexivity|].
  assert (H1 : forall e, In e (catalog MoreSample.regional_store) ->
                 compute_matches MoreSample.in_europe e = false).
  { intros e [<-|[<-|[]]]; vm_compute; reflexivity. }
  assert (H2 : forall e, In e (catalog Sample.gpu_store) ->
                 compute_matches Sample.reference e = false).
  { intros e [<-|[]]; vm_compute; reflexivity. }
  assert (H3 : forall e, In e (catalog Sample.gpu_store) ->
                 compute_matches Sample.reference e = false
                 /\ storage_matches Sample.reference e = false).
  { intros e [<-|[]]; split; vm_compute; reflexivity. }
  split.
  - exact (proj1 (compute_price_falls_back_to_estimate
                    MoreSample.regional_store MoreSample.in_europe 0 "boq-1" None H1)).
  - pose proof (proj2 (compute_price_falls_back_to_estimate
                         Sample.gpu_store Sample.reference 0 "boq-1" None H2) H3)
      as (_ & _ & _ & Hsud & Hless).
    split; [exact Hsud|exact Hless].
Defined.

(** C6, as the code has it.  For every resource with [gpu_count > 0]: a
    matching active catalog entry of category gpu is used when one
    exists and the store answers the queries; when none matches, the GPU
    unit price stays 0, for the resolver has no fallback price for GPUs.
    Only storage (and compute) fall back: without a matching storage
    entry the storage price comes from the fixed per-disk-type table. *)
Theorem gpu_price_resolution (store : Store) (resource : ResourceSpecification)
    (Hgpu : has_gpu resource = true) :
  ((forall e, In e (catalog store) -> gpu_matches resource e = false) ->
   gpu_price_per_hour (fetchPricingForResource store resource) = 0%float)
  /\ ((forall q, rejects store q = false) ->
      machine_type resource <> None ->
      (exists e, In e (catalog store) /\ gpu_matches resource e = true) ->
      exists row, In row (catalog store) /\ gpu_matches resource row = true
                  /\ gpu_price_per_hour (fetchPricingForResource store resource)
                     = Catalog.price_per_unit row)
  /\ ((forall e, In e (catalog store) -> storage_matches resource e = false) ->
      storage_price_per_gb_month (fetchPricingForResource store resource)
      = getDefaultStoragePricing (Some (disk_type resource))).
Proof.
  split; [apply gpu_price_when_no_match|].
  split; [now apply gpu_price_when_match|].
  apply storage_price_when_no_match.
Qed.

Lemma gpu_price_resolution_witness :
  has_gpu Sample.with_gpu = true
  /\ (exists row, In row (catalog Sample.gpu_store)
                  /\ gpu_matches Sample.with_gpu row = true
                  /\ gpu_price_per_hour (fetchPricingForResource Sample.gpu_store Sample.with_gpu)
                     = Catalog.price_per_unit row)
  /\ storage_price_per_gb_month (fetchPricingForResource Sample.gpu_store Sample.with_gpu)
     = 0.04%float.
Proof.
  split; [reflexivity|].
  pose proof (gpu_price_resolution Sample.gpu_store Sample.with_gpu eq_refl)
    as (_ & Hmatch & Hstorage).
  split.
  - apply Hmatch.
    + intros q. reflexivity.
    + discriminate.
    + exists Sample.gpu_entry. split; [left; reflexivity|reflexivity].
  - apply Hstorage. intros e [<-|[]]. reflexivity.
Defined.

(** C6 as stated fails: a resource with one GPU and no matching catalog
    entry gets the GPU unit price 0 (and a GPU cost of 0), while its
    storage price falls back to the table. *)
Lemma gpu_has_no_fallback_price :
  has_gpu Sample.with_gpu = true
  /\ gpu_price_per_hour (fetchPricingForResource Sample.empty_store Sample.with_gpu)
     = 0%float
  /\ Item.gpu_cost_usd
       (calculateResourceBoQ Sample.empty_store 0 Sample.with_gpu "boq-1" None) = 0%float
  /\ storage_price_per_gb_month
       (fetchPricingForResource Sample.empty_store Sample.with_gpu) = 0.04%float.
Proof. repeat split; vm_compute; reflexivity. Qed.

End ResolverTheory.

(* ===================================================================== *)
(** * The calculation run                                                  *)
(* ===================================================================== *)

Module RunTheory.
Import Calc Notions.

Lemma handler_completes calculate (w : World) (batch : list ResourceSpecification) :
  fetched w = Ok batch -> batch <> [] -> save_rejects w = false ->
  handler calculate w
  = Status200 (uuid w) (length (processed calculate batch))
              (calculateSummary (processed calculate batch))
              (processed calculate batch) (now w).
Proof.
  intros Hfetch Hbatch Hsave. unfold handler. rewrite Hfetch. simpl mbind.
  destruct batch as [|r rest]; [contradiction|].
  rewrite CalcTheory.for_each_resource_processed, app_nil_l.
  generalize (processed calculate (r :: rest)). intros items.
  unfold saveBoQResults. rewrite Hsave.
  destruct items; reflexivity.
Qed.

Lemma processed_two calculate (r1 r2 : ResourceSpecification) :
  is_ok (calculate r1) = negb (is_ok (calculate r2)) ->
  length (processed calculate [r1; r2]) = 1%nat.
Proof.
  unfold processed. cbn.
  destruct (calculate r1), (calculate r2); cbn; intros H; congruence.
Qed.

(** C4, as the code has it.  In a run over a batch (the specification
    fetch and the result insert succeeding), a resource whose
    calculation throws is skipped and the remaining resources are still
    processed: the run answers with success true, its results are the
    line items of the resources whose calculation did not throw,
    [resources_processed] is their number and the summary is computed
    over them only; for a batch of two where exactly one calculation
    throws, [resources_processed] is 1.  The per-resource step as
    deployed never throws - a specification without [machine_type] is
    priced with the fallback estimate - so it processes every resource
    of the batch. *)
Theorem partial_failure_tolerance
    (calculate : ResourceSpecification -> Result Item.t)
    (w : World) (batch : list ResourceSpecification) (requestedBy : option string)
    (Hfetch : fetched w = Ok batch) (Hbatch : batch <> [])
    (Hsave : save_rejects w = false) :
  let response := handler calculate w in
  success response = true
  /\ results_of response = processed calculate batch
  /\ resources_processed response = Some (length (processed calculate batch))
  /\ summary_of response = calculateSummary (processed calculate batch)
  /\ (forall r1 r2, batch = [r1; r2] ->
        is_ok (calculate r1) = negb (is_ok (calculate r2)) ->
        resources_processed response = Some 1%nat)
  /\ success (calculateBoQ w requestedBy) = true
  /\ resources_processed (calculateBoQ w requestedBy) = Some (length batch).
Proof.
  cbv zeta. rewrite (handler_completes calculate w batch Hfetch Hbatch Hsave).
  do 4 (split; [reflexivity|]). split.
  - intros r1 r2 -> Hone. cbn [resources_processed]. now rewrite processed_two.
  - unfold calculateBoQ. rewrite (handler_completes _ w batch Hfetch Hbatch Hsave).
    rewrite CalcTheory.processed_total, length_map. split; reflexivity.
Qed.

Lemma partial_failure_tolerance_witness :
  fetched Sample.world = Ok [Sample.reference; Sample.no_machine_type]
  /\ save_rejects Sample.world = false
  /\ is_ok (Sample.strict_calculate Sample.reference) = true
  /\ is_ok (Sample.strict_calculate Sample.no_machine_type) = false
  /\ success (handler Sample.strict_calculate Sample.world) = true
  /\ resources_processed (handler Sample.strict_calculate Sample.world) = Some 1%nat.
Proof.
  do 4 (split; [reflexivity|]).
  pose proof (partial_failure_tolerance Sample.strict_calculate Sample.world
                [Sample.reference; Sample.no_machine_type] None eq_refl
                ltac:(discriminate) eq_refl)
    as (Hsuccess & _ & _ & _ & Hone & _).
  split; [exact Hsuccess|].
  apply (Hone Sample.reference Sample.no_machine_type); reflexivity.
Defined.

(** C4 as stated fails: in the batch of the reference resource and the
    resource without [machine_type], the calculation of the second one
    does not throw; it is priced with the fallback estimate, and the run
    succeeds and processes both.  Were the results table to reject the
    insert, the whole run would fail instead; in neither case is one
    resource skipped. *)
Lemma missing_machine_type_is_processed :
  success (calculateBoQ Sample.world None) = true
  /\ resources_processed (calculateBoQ Sample.world None) = Some 2%nat
  /\ resources_processed (calculateBoQ Sample.world None) <> Some 1%nat
  /\ List.map Item.machine_type (results_of (calculateBoQ Sample.world None))
     = [Some "n1-standard-2"; None]
  /\ List.map Item.compute_price_per_hour (results_of (calculateBoQ Sample.world None))
     = [estimateComputePricing Sample.reference;
        estimateComputePricing Sample.no_machine_type]
  /\ success (calculateBoQ Sample.world_insert_rejected None) = false
  /\ resources_processed (calculateBoQ Sample.world_insert_rejected None) = None.
Proof.
  split; [vm_compute; reflexivity|]. split; [vm_compute; reflexivity|].
  split; [vm_compute; discriminate|]. repeat split; vm_compute; reflexivity.
Qed.

End RunTheory.

(* ===================================================================== *)
(** * The catalog normalizer                                               *)
(* ===================================================================== *)

Module NormalizerTheory.
Import Billing Notions.

(** What a kept entry of the updater carries as its price. *)
Lemma updater_price (clock : Z) (sku : Sku) (serviceName serviceId : string)
    (entry : Catalog.entry) :
  Updater.extractPricingInfo clock sku serviceName serviceId = Some entry ->
  exists price,
    first_unit_price sku = Some price
    /\ Catalog.price_per_unit entry = Updater.decimal_price price
    /\ (Catalog.price_per_unit entry =? 0)%float = false.
Proof.
  unfold Updater.extractPricingInfo, Updater.extract, first_unit_price.
  destruct (pricingInfo sku) as [[|pricing rest]|]; try discriminate.
  destruct (pricingExpression pricing) as [expression|]; [|discriminate]. simpl.
  destruct (tieredRates expression) as [[|baseRate rates]|]; try discriminate.
  generalize (Updater.map_tiers (baseRate :: rates)). intros tiers.
  destruct (unitPrice baseRate) as [price|]; [|discriminate]. simpl.
  destruct (Updater.decimal_price price =? 0)%float eqn:Hzero; [discriminate|].
  destruct tiers as [tiers|]; simpl; [|discriminate].
  intros [= <-]. exists price. simpl. auto.
Qed.

(** C7, as the code has it.  For every raw price-list entry the
    updater's normalizer keeps, the headline [price_per_unit] is the
    binary64 number [nanos / 1e9 + units] computed from the first tier's
    fixed-point unit price (absent parts counting as 0), each of the two
    operations rounded to binary64, and it is not zero.  Normalizing an
    entry with unit price {units: 0, nanos: 47500000} yields the number
    written 0.0475. *)
Theorem price_per_unit_from_fixed_point
    (clock : Z) (sku : Sku) (serviceName serviceId : string) (entry : Catalog.entry)
    (Hkept : Updater.extractPricingInfo clock sku serviceName serviceId = Some entry) :
  (exists price,
     first_unit_price sku = Some price
     /\ Catalog.price_per_unit entry
        = (num (or_zero (nanos price)) / 1000000000 + num (or_zero (units price)))%float
     /\ (Catalog.price_per_unit entry =? 0)%float = false)
  /\ Catalog.price_per_unit <$>
       Updater.extractPricingInfo clock Sample.n1_core serviceName serviceId
     = Some 0.0475%float.
Proof.
  split; [|vm_compute; reflexivity].
  destruct (updater_price _ _ _ _ _ Hkept) as (price & Hfirst & Hprice & Hnz).
  exists price. repeat split; assumption.
Qed.

Lemma price_per_unit_from_fixed_point_witness :
  (exists entry,
     Updater.extractPricingInfo 0 Sample.priced_1_14 "Compute Engine" "6F81-5844-456A"
     = Some entry)
  /\ Catalog.price_per_unit <$>
       Updater.extractPricingInfo 0 Sample.n1_core "Compute Engine" "6F81-5844-456A"
     = Some 0.0475%float.
Proof.
  split.
  - eexists. vm_compute. reflexivity.
  - destruct (Updater.extractPricingInfo 0 Sample.priced_1_14
                "Compute Engine" "6F81-5844-456A") as [entry|] eqn:Hkept.
    + exact (proj2 (price_per_unit_from_fixed_point 0 Sample.priced_1_14
                      "Compute Engine" "6F81-5844-456A" entry Hkept)).
    + vm_compute in Hkept. discriminate.
Defined.

(** C7 as stated fails: the conversion is not exact.  In the updater
    the price {units: 1, nanos: 140000000}, that is 1.14, comes out as
    1.1400000000000001, which is not even the binary64 number closest
    to 1.14; and the number obtained for {units: 0, nanos: 47500000} is
    not the rational 475/10000.  In the fetcher the same two prices do
    not come out as numbers at all: the units are appended as text to
    the rendering of [nanos / 1e9], which is 0.14 followed by "1" and
    0.0475 followed by "0". *)
Lemma price_conversion_is_not_exact :
  Catalog.price_per_unit <$>
    Updater.extractPricingInfo 0 Sample.priced_1_14 "Compute Engine" "6F81-5844-456A"
  = Some 1.1400000000000001%float
  /\ (1.1400000000000001 =? 1.14)%float = false
  /\ is_exactly 1.1400000000000001 114 100 = false
  /\ is_exactly 0.0475 475 10000 = false
  /\ Fetcher.Row.price_per_unit <$> Fetcher.extractPricingInfo 0 Sample.priced_1_14
     = Some (Fetcher.Row.Text 0.14 1)
  /\ Fetcher.Row.price_per_unit <$> Fetcher.extractPricingInfo 0 Sample.n1_core
     = Some (Fetcher.Row.Text 0.0475 0).
Proof. repeat split; vm_compute; reflexivity. Qed.

End NormalizerTheory.

(* ===================================================================== *)
(** * The description parser                                               *)
(* ===================================================================== *)

Module ParserTheory.
Import Updater Notions.

Lemma family_block_keeps desc : keeps_disk_and_category (family_block desc).
Proof.
  intros info. unfold family_block.
  destruct (Regex.search family_re desc) as [[whole groups]|]; split; reflexivity.
Qed.

Lemma machine_block_keeps desc : keeps_disk_and_category (machine_block desc).
Proof.
  intros info. unfold machine_block.
  destruct (Regex.search machine_re desc) as [[whole groups]|]; split; reflexivity.
Qed.

Lemma vcpu_block_keeps desc : keeps_disk_and_category (vcpu_block desc).
Proof.
  intros info. unfold vcpu_block.
  destruct (Regex.search vcpu_re desc) as [[whole groups]|]; split; reflexivity.
Qed.

Lemma memory_block_keeps desc : keeps_disk_and_category (memory_block desc).
Proof.
  intros info. unfold memory_block.
  destruct (Regex.search memory_re desc) as [[whole groups]|]; split; reflexivity.
Qed.

Lemma usage_block_keeps desc : keeps_disk_and_category (usage_block desc).
Proof.
  intros info. unfold usage_block.
  destruct (_ || _)%bool; split; reflexivity.
Qed.

Lemma commitment_block_keeps desc : keeps_disk_and_category (commitment_block desc).
Proof.
  intros info. unfold commitment_block.
  destruct (Str.includes desc "1 year" || Str.includes desc "1-year")%bool;
    [split; reflexivity|].
  destruct (Str.includes desc "3 year" || Str.includes desc "3-year")%bool;
    split; reflexivity.
Qed.

Lemma scope_block_keeps desc : keeps_disk_and_category (scope_block desc).
Proof.
  intros info. unfold scope_block.
  destruct (Str.includes desc "regional"); [split; reflexivity|].
  destruct (Str.includes desc "global"); split; reflexivity.
Qed.

(** The disk block writes both fields when its rule finds a disk type,
    and neither otherwise. *)
Lemma disk_block_effect desc info :
  diskType (disk_block desc info)
    = match disk_rule desc with Some t => Some t | None => diskType info end
  /\ category (disk_block desc info)
    = match disk_rule desc with Some _ => "storage" | None => category info end.
Proof.
  unfold disk_block, disk_rule.
  destruct (Str.includes desc "ssd"); [split; reflexivity|].
  destruct (Str.includes desc "balanced"); [split; reflexivity|].
  destruct (Str.includes desc "standard"); [|split; reflexivity].
  destruct (Str.includes desc "disk" || Str.includes desc "storage")%bool;
    split; reflexivity.
Qed.

Lemma gpu_block_effect desc info :
  diskType (gpu_block desc info) = diskType info
  /\ category (gpu_block desc info)
     = if gpu_keyword desc then "gpu" else category info.
Proof.
  unfold gpu_block, gpu_keyword.
  destruct (_ || _)%bool; [|split; reflexivity].
  destruct (Regex.search gpu_re desc) as [[whole groups]|]; split; reflexivity.
Qed.

Lemma network_block_effect desc info :
  diskType (network_block desc info) = diskType info
  /\ category (network_block desc info)
     = if network_keyword desc then "network" else category info.
Proof.
  unfold network_block, network_keyword.
  destruct (Str.includes desc "premium"); [split; reflexivity|].
  destruct (Str.includes desc "standard"); [|split; reflexivity].
  destruct (Str.includes desc "network" || Str.includes desc "egress"
            || Str.includes desc "ip")%bool; split; reflexivity.
Qed.

Lemma after_disk_block_fields (description : string) :
  diskType (after_disk_block description) = disk_rule (Str.toLowerCase description)
  /\ category (after_disk_block description)
     = match disk_rule (Str.toLowerCase description) with
       | Some _ => "storage"
       | None => "compute"
       end.
Proof.
  unfold after_disk_block, statements. cbn [fold_left].
  set (desc := Str.toLowerCase description).
  destruct (disk_block_effect desc
              (memory_block desc (vcpu_block desc (machine_block desc
                 (family_block desc initial_info))))) as [Hd Hc].
  rewrite Hd, Hc.
  rewrite (proj1 (memory_block_keeps desc _)), (proj2 (memory_block_keeps desc _)).
  rewrite (proj1 (vcpu_block_keeps desc _)), (proj2 (vcpu_block_keeps desc _)).
  rewrite (proj1 (machine_block_keeps desc _)), (proj2 (machine_block_keeps desc _)).
  rewrite (proj1 (family_block_keeps desc _)), (proj2 (family_block_keeps desc _)).
  cbn [diskType category initial_info].
  destruct (disk_rule desc); split; reflexivity.
Qed.

(** C8, as the code has it.  For every description the updater's parser
    sets the disk type by this rule on the lower-cased text: "ssd"
    gives pd-ssd; otherwise "balanced" gives pd-balanced; otherwise
    "standard" gives pd-standard only when "disk" or "storage" occurs
    too; otherwise no disk type.  Right after this rule the category is
    storage when a disk type was set and compute otherwise.  The later
    rules may write the category again: the final category is network
    when the network-tier rule fires ("premium", or "standard" with
    "network", "egress" or "ip"), else gpu when "gpu", "nvidia" or
    "tesla" occurs, else storage when a disk type was set, else
    compute. *)
Theorem disk_type_classification (description : string) :
  let desc := Str.toLowerCase description in
  let info := extractMachineInfo description in
  diskType info = disk_rule desc
  /\ disk_rule desc
     = (if Str.includes desc "ssd" then Some "pd-ssd"
        else if Str.includes desc "balanced" then Some "pd-balanced"
        else if (Str.includes desc "standard"
                 && (Str.includes desc "disk" || Str.includes desc "storage"))%bool
        then Some "pd-standard"
        else None)
  /\ category (after_disk_block description)
     = match disk_rule desc with Some _ => "storage" | None => "compute" end
  /\ category info
     = (if network_keyword desc then "network"
        else if gpu_keyword desc then "gpu"
        else match disk_rule desc with Some _ => "storage" | None => "compute" end).
Proof.
  cbv zeta.
  destruct (after_disk_block_fields description) as [Hd Hc].
  split; [|split; [reflexivity|split; [exact Hc|]]].
  - unfold extractMachineInfo, statements. cbn [fold_left].
    rewrite (proj1 (scope_block_keeps _ _)), (proj1 (network_block_effect _ _)),
      (proj1 (commitment_block_keeps _ _)), (proj1 (usage_block_keeps _ _)),
      (proj1 (gpu_block_effect _ _)).
    exact Hd.
  - unfold extractMachineInfo, statements. cbn [fold_left].
    rewrite (proj2 (scope_block_keeps _ _)), (proj2 (network_block_effect _ _)),
      (proj2 (commitment_block_keeps _ _)), (proj2 (usage_block_keeps _ _)),
      (proj2 (gpu_block_effect _ _)).
    change (category (disk_block _ _)) with (category (after_disk_block description)).
    rewrite Hc. reflexivity.
Qed.

(** The parser on a description that exercises the regular expressions. *)
Example parse_full_description :
  let info :=
    extractMachineInfo "N1-Standard-4 with 4 vCPU and 3.75 GB, Spot, regional" in
  machineFamily info = Some "n1"
  /\ resourceGroup info = "N1Standard"
  /\ machineType info = Some "n1-standard-4"
  /\ vcpuCount info = Some 4
  /\ memoryGb info = Some 3.75%float
  /\ usageType info = "Preemptible"
  /\ tags info = ["family:n1"; "usage:preemptible"; "scope:regional"].
Proof. repeat split; vm_compute; reflexivity. Qed.

Example parseFloat_examples :
  Parse.parseFloat "7.5" = 7.5%float
  /\ Parse.parseFloat "0.1" = 0.1%float
  /\ Parse.parseFloat "16" = 16%float
  /\ Parse.parseFloat "9007199254740993" = 9007199254740992%float.
Proof. repeat split; vm_compute; reflexivity. Qed.

(** The description of the specification's example has neither keyword
    and stays in category compute. *)
Example n2_core_is_compute :
  let info := extractMachineInfo "N2 Instance Core running in Americas" in
  diskType info = None /\ category info = "compute".
Proof. split; vm_compute; reflexivity. Qed.

(** C8 as stated fails.  In the updater's parser the later rules write
    the category again: a description with "ssd" and a GPU keyword ends
    in category gpu, not storage, and a description with "standard" and
    no disk or storage word does not keep category compute when the
    network rule fires.  The fetcher's older parser does not follow the
    rule at all: it tests "standard" before "balanced" and without the
    disk or storage word, so an N1 Standard core comes out as pd-standard
    storage. *)
Lemma disk_type_claim_fails :
  (let info := extractMachineInfo "Nvidia Tesla T4 GPU with Local SSD" in
   diskType info = Some "pd-ssd" /\ category info = "gpu")
  /\ (let info := extractMachineInfo "Network Internet Egress Standard Tier" in
      diskType info = None /\ category info = "network")
  /\ (let info :=
        Fetcher.extractMachineInfo "N1 Standard Instance Core running in Americas" in
      Fetcher.diskType info = Some "pd-standard" /\ Fetcher.category info = "storage")
  /\ (let info := extractMachineInfo "N1 Standard Instance Core running in Americas" in
      diskType info = None /\ category info = "compute").
Proof. repeat split; vm_compute; reflexivity. Qed.

End ParserTheory.

(* ===================================================================== *)
(** * The catalog lifecycle                                                *)
(* ===================================================================== *)

Module LifecycleTheory.
Import Updater Notions.

(** A catch block that rethrows changes nothing. *)
Lemma try_catch_rethrow {S A} (m : Eff S A) (s : S) :
  try_catch m (fun error => eval (Throw error)) s = m s.
Proof. unfold try_catch, eval. destruct (m s) as [s' [a|e]]; reflexivity. Qed.

(** Step 1 never throws; when the store rejects the update, the table
    is left as it is. *)
Lemma mark_never_throws (w : World) (effectiveDate : Z) (table : Table) :
  exists table',
    markExistingPricingInactive w effectiveDate table = (table', Ok tt)
    /\ (update_rejects w = true -> table' = table).
Proof.
  unfold markExistingPricingInactive, try_catch, update_job.
  destruct (update_rejects w); eexists; split; try reflexivity; discriminate.
Qed.

(** Step 3 never throws; when the store rejects the delete, the table
    is left as it is. *)
Lemma cleanup_never_throws (w : World) (table : Table) :
  exists table',
    cleanupOldPricingData w table = (table', Ok tt)
    /\ (delete_rejects w = true -> table' = table).
Proof.
  unfold cleanupOldPricingData, try_catch, delete_job.
  destruct (delete_rejects w); eexists; split; try reflexivity; discriminate.
Qed.

Lemma report_never_throws (w : World) (effectiveDate : Z) (n : nat) (table : Table) :
  exists report, generateUpdateReport w effectiveDate n table = (table, Ok report).
Proof.
  unfold generateUpdateReport, try_catch, report_query, mbind, Eff_bind, mret, Eff_ret.
  destruct (report_rejects w); eexists; reflexivity.
Qed.

(** When every batch is accepted, the loop appends all the entries. *)
Lemma insert_batches_accepted (w : World) (fuel k : nat)
    (remaining : list Catalog.entry) (table : Table) :
  (length remaining <= fuel)%nat ->
  (forall j, (j * 1000 < length remaining)%nat -> insert_rejects w (k + j) = false) ->
  insert_batches w fuel 1000 k remaining table = ((table ++ remaining)%list, Ok tt).
Proof.
  revert k remaining table.
  induction fuel as [|fuel IH]; intros k remaining table Hfuel Hok.
  - destruct remaining; [|simpl in Hfuel; lia].
    simpl. now rewrite app_nil_r.
  - destruct remaining as [|e rest]; [simpl; now rewrite app_nil_r|].
    set (l := e :: rest) in *.
    change (insert_batches w (S fuel) 1000 k l table)
      with (mbind (fun _ => insert_batches w fuel 1000 (S k) (drop 1000 l))
                  (table_insert w k (take 1000 l)) table).
    unfold mbind, Eff_bind, table_insert.
    assert (H0 : insert_rejects w k = false).
    { rewrite <- (Nat.add_0_r k). apply Hok. subst l. simpl. lia. }
    rewrite H0. rewrite IH.
    + now rewrite <- app_assoc, take_drop.
    + rewrite length_drop. subst l. simpl in *. lia.
    + intros j Hj. rewrite length_drop in Hj.
      replace (S k + j)%nat with (k + S j)%nat by lia. apply Hok. lia.
Qed.

(** When a batch that is reached in the loop is rejected, the loop
    throws. *)
Lemma insert_batches_rejected (w : World) (fuel k j : nat)
    (remaining : list Catalog.entry) (table : Table) :
  (length remaining <= fuel)%nat ->
  (j * 1000 < length remaining)%nat ->
  insert_rejects w (k + j) = true ->
  exists message, snd (insert_batches w fuel 1000 k remaining table) = Throw message.
Proof.
  revert k j remaining table.
  induction fuel as [|fuel IH]; intros k j remaining table Hfuel Hj Hrej.
  - lia.
  - destruct remaining as [|e rest]; [simpl in Hj; lia|].
    set (l := e :: rest) in *.
    change (insert_batches w (S fuel) 1000 k l table)
      with (mbind (fun _ => insert_batches w fuel 1000 (S k) (drop 1000 l))
                  (table_insert w k (take 1000 l)) table).
    unfold mbind, Eff_bind, table_insert.
    destruct (insert_rejects w k) eqn:Hk; [eexists; reflexivity|].
    destruct j as [|j]; [rewrite Nat.add_0_r in Hrej; congruence|].
    apply (IH (S k) j).
    + rewrite length_drop. subst l. simpl in *. lia.
    + rewrite length_drop. lia.
    + replace (S k + j)%nat with (k + S j)%nat by lia. exact Hrej.
Qed.

(** The refresh completes whenever the batches of step 2 are accepted,
    whatever happens in steps 1 and 3. *)
Lemma refresh_completes (w : World) (table : Table) :
  (forall k, (k * 1000 < length (new_generation w))%nat -> insert_rejects w k = false) ->
  exists final outcome,
    updatePricingCatalog w table = (final, Ok outcome)
    /\ success outcome = true
    /\ records_updated outcome = length (new_generation w)
    /\ (update_rejects w = true -> delete_rejects w = true ->
        final = (table ++ new_generation w)%list).
Proof.
  intros Hok. unfold updatePricingCatalog. rewrite try_catch_rethrow.
  fold (new_generation w). rewrite app_nil_l.
  unfold mbind at 1 2 3 4, Eff_bind.
  destruct (mark_never_throws w (day_of (now w)) table) as (t1 & -> & Hmark).
  assert (Hins : (match new_generation w with
                  | [] => mret tt
                  | _ :: _ => insertPricingData w (new_generation w)
                  end) t1 = ((t1 ++ new_generation w)%list, Ok tt)).
  { destruct (new_generation w) as [|e rest] eqn:Hgen.
    - unfold mret, Eff_ret. now rewrite app_nil_r.
    - unfold insertPricingData. rewrite try_catch_rethrow.
      apply insert_batches_accepted; [lia|]. intros j Hj. apply Hok. exact Hj. }
  rewrite Hins.
  destruct (cleanup_never_throws w (t1 ++ new_generation w)%list) as (t3 & -> & Hclean).
  destruct (report_never_throws w (day_of (now w)) (length (new_generation w)) t3)
    as (report & ->).
  eexists. eexists. split; [reflexivity|]. repeat split.
  intros Hu Hd. rewrite (Hclean Hd), (Hmark Hu). reflexivity.
Qed.

(** The refresh throws as soon as a batch of step 2 is rejected. *)
Lemma refresh_aborts (w : World) (table : Table) (k : nat) :
  (k * 1000 < length (new_generation w))%nat -> insert_rejects w k = true ->
  exists message, snd (updatePricingCatalog w table) = Throw message.
Proof.
  intros Hk Hrej. unfold updatePricingCatalog. rewrite try_catch_rethrow.
  fold (new_generation w). rewrite app_nil_l.
  unfold mbind at 1 2 3 4, Eff_bind.
  destruct (mark_never_throws w (day_of (now w)) table) as (t1 & -> & _).
  destruct (new_generation w) as [|e rest] eqn:Hgen; [simpl in Hk; lia|].
  unfold insertPricingData. rewrite try_catch_rethrow.
  destruct (insert_batches_rejected w (length (e :: rest)) 0 k (e :: rest) t1)
    as [message Hthrow]; [lia|exact Hk|exact Hrej|].
  destruct (insert_batches w (length (e :: rest)) 1000 0 (e :: rest) t1) as [t2 r].
  simpl in Hthrow. subst r. exists message. reflexivity.
Qed.

(** C9.  In a catalog refresh run, a failure in step 1 (marking the
    active entries of earlier generations inactive) and a failure in
    step 3 (purging inactive entries older than the 90-day retention
    window) are caught: neither step ever throws, and whenever the
    batches of step 2 are accepted the run completes with success true;
    with steps 1 and 3 both failing the table ends as the old table
    followed by the new generation.  A failure in step 2 (inserting the
    new generation), in any batch the run reaches, propagates: the run
    throws. *)
Theorem refresh_failure_policy (w : World) (table : Table) :
  snd (markExistingPricingInactive w (day_of (now w)) table) = Ok tt
  /\ snd (cleanupOldPricingData w table) = Ok tt
  /\ ((forall k, (k * 1000 < length (new_generation w))%nat -> insert_rejects w k = false) ->
      exists final outcome,
        updatePricingCatalog w table = (final, Ok outcome)
        /\ success outcome = true
        /\ records_updated outcome = length (new_generation w)
        /\ (update_rejects w = true -> delete_rejects w = true ->
            final = (table ++ new_generation w)%list))
  /\ (forall k, (k * 1000 < length (new_generation w))%nat ->
        insert_rejects w k = true ->
        exists message, snd (updatePricingCatalog w table) = Throw message).
Proof.
  split.
  { destruct (mark_never_throws w (day_of (now w)) table) as (t & -> & _). reflexivity. }
  split.
  { destruct (cleanup_never_throws w table) as (t & -> & _). reflexivity. }
  split; [apply refresh_completes|]. intros k. apply refresh_aborts.
Qed.

Lemma refresh_failure_policy_witness :
  update_rejects Sample.refresh_with_steps_1_and_3_failing = true
  /\ delete_rejects Sample.refresh_with_steps_1_and_3_failing = true
  /\ (exists final outcome,
        updatePricingCatalog Sample.refresh_with_steps_1_and_3_failing [Sample.gpu_entry]
        = (final, Ok outcome)
        /\ success outcome = true
        /\ records_updated outcome = 2%nat
        /\ final = ([Sample.gpu_entry]
                    ++ new_generation Sample.refresh_with_steps_1_and_3_failing)%list)
  /\ insert_rejects Sample.refresh_with_step_2_failing 0 = true
  /\ (exists message,
        snd (updatePricingCatalog Sample.refresh_with_step_2_failing [Sample.gpu_entry])
        = Throw message).
Proof.
  split; [reflexivity|]. split; [reflexivity|]. split.
  - destruct (proj1 (proj2 (proj2 (refresh_failure_policy
                       Sample.refresh_with_steps_1_and_3_failing [Sample.gpu_entry]))))
      as (final & outcome & Hrun & Hsuccess & Hcount & Htable).
    + intros k _. reflexivity.
    + exists final, outcome. split; [exact Hrun|]. split; [exact Hsuccess|].
      split; [rewrite Hcount; vm_compute; reflexivity|].
      apply Htable; reflexivity.
  - split; [reflexivity|].
    apply (proj2 (proj2 (proj2 (refresh_failure_policy
                    Sample.refresh_with_step_2_failing [Sample.gpu_entry]))) 0%nat).
    + vm_compute. lia.
    + reflexivity.
Defined.

End LifecycleTheory.

(* ===================================================================== *)
(** * The summary of a run                                                 *)
(* ===================================================================== *)

Module SummaryTheory.
Import Calc Notions.
#[local] Set Warnings "-clear-no-such-hyp".

Lemma accumulate_dom (m : gmap string float) (key : string) (amount : float) :
  dom (accumulate m key amount) = ({[ key ]} ∪ dom m : gset string).
Proof. unfold accumulate. apply dom_insert_L. Qed.

Lemma accumulate_all_dom (key : Item.t -> string) (results : list Item.t)
    (m : gmap string float) :
  dom (fold_left (fun m r => accumulate m (key r) (Item.total_cost_usd r)) results m)
  = (dom m ∪ list_to_set (key <$> results) : gset string).
Proof.
  revert m. induction results as [|r rest IH]; intros m; simpl.
  - set_solver.
  - rewrite IH, accumulate_dom. set_solver.
Qed.

(** X1.  For line items whose project ids and regions are not names
    that every JavaScript object inherits: [calculateSummary] returns
    the empty object exactly for an empty list of line items; otherwise
    [total_resources] is the number of line items, and the keys of
    [cost_by_project] and [cost_by_region] are exactly the project ids
    and the regions that occur among the line items. *)
Theorem summary_groups (results : list Item.t)
    (Hplain : Forall (fun r => plain_key (Item.project_id r) /\ plain_key (Item.region r))
                     results) :
  match calculateSummary results with
  | None => results = []
  | Some s =>
      results <> []
      /\ total_resources s = length results
      /\ dom (cost_by_project s) = (list_to_set (Item.project_id <$> results) : gset string)
      /\ dom (cost_by_region s) = (list_to_set (Item.region <$> results) : gset string)
  end.
Proof.
  destruct results as [|r rest]; [reflexivity|].
  cbn [calculateSummary total_resources cost_by_project cost_by_region].
  split; [discriminate|]. split; [reflexivity|].
  rewrite !accumulate_all_dom, dom_empty_L. split; set_solver.
Qed.

Lemma summary_groups_witness :
  exists s,
    calculateSummary
      [ MoreNotions.line_item Sample.world None Sample.reference;
        MoreNotions.line_item Sample.world None MoreSample.in_europe ] = Some s
    /\ total_resources s = 2%nat
    /\ dom (cost_by_project s) = ({[ "project-a" ]} : gset string)
    /\ dom (cost_by_region s) = ({[ "us-central1"; "europe-west1" ]} : gset string).
Proof.
  pose proof (summary_groups
                [ MoreNotions.line_item Sample.world None Sample.reference;
                  MoreNotions.line_item Sample.world None MoreSample.in_europe ]) as H.
  destruct (calculateSummary _) as [s|] eqn:Hs; [|discriminate].
  exists s. split; [reflexivity|].
  destruct H as (_ & Hcount & Hprojects & Hregions).
  { repeat constructor; unfold plain_key; cbn; intuition discriminate. }
  split; [exact Hcount|]. rewrite Hprojects, Hregions. split; set_solver.
Defined.

End SummaryTheory.

(* ===================================================================== *)
(** * The calculation run, case by case                                    *)
(* ===================================================================== *)

Module RunExtras.
Import Calc Notions MoreNotions.

(** [Math.max(0, x)] is never the negative zero, so adding it to [0]
    gives it back. *)
Lemma zero_plus_Math_max (x : float) :
  (0 + Math_max 0 x)%float = Math_max 0 x.
Proof.
  apply Prim2SF_inj. rewrite FloatAxioms.add_spec.
  change (Prim2SF 0) with (S754_zero false).
  unfold Math_max. change (is_nan 0) with false. simpl orb.
  destruct (is_nan x); [reflexivity|].
  destruct (0 <? x)%float eqn:Hpos.
  - rewrite NumFacts.zero_ltb in Hpos.
    destruct (Prim2SF x) as [[]|[]| |[] m e]; try discriminate; reflexivity.
  - destruct (x <? 0)%float; reflexivity.
Qed.

Lemma lookup_other_keys (key : Item.t -> string) (results : list Item.t)
    (m : gmap string float) (k : string) :
  ~ In k (List.map key results) ->
  fold_left (fun m r => accumulate m (key r) (Item.total_cost_usd r)) results m !! k
  = m !! k.
Proof.
  revert m. induction results as [|r rest IH]; intros m Hk; simpl; [reflexivity|].
  rewrite IH by (intros H; apply Hk; now right).
  unfold accumulate. apply lookup_insert_ne. intros E. apply Hk. left. exact E.
Qed.

Lemma lookup_single_key (key : Item.t -> string) (before after : list Item.t)
    (r : Item.t) :
  ~ In (key r) (List.map key before) -> ~ In (key r) (List.map key after) ->
  fold_left (fun m r => accumulate m (key r) (Item.total_cost_usd r))
            (before ++ r :: after) ∅ !! key r
  = Some (0 + Item.total_cost_usd r)%float.
Proof.
  intros Hb Ha. rewrite fold_left_app. simpl fold_left.
  rewrite lookup_other_keys by exact Ha.
  set (m := fold_left _ before ∅).
  assert (Hm : m !! key r = None).
  { subst m. rewrite lookup_other_keys by exact Hb. apply lookup_empty. }
  unfold accumulate. rewrite lookup_insert_eq, Hm. reflexivity.
Qed.

(** X2.  In the summary of a run, a project that occurs on exactly one
    line item is listed with exactly that line item's total cost,
    whatever the regions are; and a region that occurs on exactly one
    line item is listed with exactly that line item's total cost,
    whatever the projects are.  The project id (the region) is taken
    not to be a name that every JavaScript object inherits. *)
Theorem summary_of_single_item
    (store : Store) (clock : Z) (boqId : string) (requestedBy : option string)
    (resource : ResourceSpecification) (before after : list Item.t) :
  let item := calculateResourceBoQ store clock resource boqId requestedBy in
  exists s,
    calculateSummary (before ++ item :: after) = Some s
    /\ (plain_key (project_id resource) ->
        ~ In (project_id resource) (List.map Item.project_id before) ->
        ~ In (project_id resource) (List.map Item.project_id after) ->
        cost_by_project s !! project_id resource = Some (Item.total_cost_usd item))
    /\ (plain_key (region resource) ->
        ~ In (region resource) (List.map Item.region before) ->
        ~ In (region resource) (List.map Item.region after) ->
        cost_by_region s !! region resource = Some (Item.total_cost_usd item)).
Proof.
  intros item.
  assert (Hzero : (0 + Item.total_cost_usd item)%float = Item.total_cost_usd item)
    by apply zero_plus_Math_max.
  destruct (before ++ item :: after)%list as [|x l] eqn:E;
    [destruct before; discriminate|].
  eexists. split; [reflexivity|].
  cbn [cost_by_project cost_by_region]. rewrite <- E.
  change (project_id resource) with (Item.project_id item).
  change (region resource) with (Item.region item).
  split; intros _ Hbefore Hafter.
  - rewrite (lookup_single_key Item.project_id) by assumption. now rewrite Hzero.
  - rewrite (lookup_single_key Item.region) by assumption. now rewrite Hzero.
Qed.

(** A project on one line item whose region two line items share. *)
Lemma summary_of_single_item_witness :
  exists s,
    calculateSummary
      [ line_item Sample.world None (MoreSample.located "project-b" "vm-1" "us-central1" "spot");
        line_item Sample.world None Sample.reference;
        line_item Sample.world None MoreSample.in_europe_other_project ] = Some s
    /\ cost_by_project s !! "project-a"
       = Some (Item.total_cost_usd (line_item Sample.world None Sample.reference))
    /\ cost_by_region s !! "europe-west1"
       = Some (Item.total_cost_usd
                 (line_item Sample.world None MoreSample.in_europe_other_project)).
Proof.
  destruct (summary_of_single_item Sample.empty_store 1728000000000 "boq-1" None
              Sample.reference
              [ line_item Sample.world None
                  (MoreSample.located "project-b" "vm-1" "us-central1" "spot") ]
              [ line_item Sample.world None MoreSample.in_europe_other_project ])
    as (s & Hs & Hproject & _).
  destruct (summary_of_single_item Sample.empty_store 1728000000000 "boq-1" None
              MoreSample.in_europe_other_project
              [ line_item Sample.world None
                  (MoreSample.located "project-b" "vm-1" "us-central1" "spot");
                line_item Sample.world None Sample.reference ]
              [])
    as (s' & Hs' & _ & Hregion).
  exists s. split; [exact Hs|]. split.
  - apply Hproject; unfold plain_key; cbn; intuition discriminate.
  - change (calculateSummary
              [ line_item Sample.world None
                  (MoreSample.located "project-b" "vm-1" "us-central1" "spot");
                line_item Sample.world None Sample.reference;
                line_item Sample.world None MoreSample.in_europe_other_project ]
            = Some s') in Hs'.
    change (calculateSummary
              [ line_item Sample.world None
                  (MoreSample.located "project-b" "vm-1" "us-central1" "spot");
                line_item Sample.world None Sample.reference;
                line_item Sample.world None MoreSample.in_europe_other_project ]
            = Some s) in Hs.
    rewrite Hs in Hs'. injection Hs' as <-.
    apply Hregion; unfold plain_key; cbn; intuition discriminate.
Defined.

Lemma handler_by_cases (calculate : ResourceSpecification -> Result Item.t)
    (w : World) (batch : list ResourceSpecification) :
  fetched w = Ok batch -> batch <> [] ->
  handler calculate w
  = match processed calculate batch with
    | [] => Status200 (uuid w) 0 None [] (now w)
    | items =>
        if save_rejects w then Status500 "insert failed" (now w)
        else Status200 (uuid w) (length items) (calculateSummary items) items (now w)
    end.
Proof.
  intros Hfetch Hbatch. unfold handler. rewrite Hfetch. simpl mbind.
  destruct batch as [|r rest]; [contradiction|].
  rewrite CalcTheory.for_each_resource_processed, app_nil_l.
  generalize (processed calculate (r :: rest)). intros items.
  unfold saveBoQResults.
  destruct items; [reflexivity|]. destruct (save_rejects w); reflexivity.
Qed.

(** X3.  What a run answers, case by case: 500 with the error when the
    specification fetch throws; 404 when it returns no specification;
    500 when the result insert is rejected; otherwise 200 with one line
    item per fetched specification, in the order fetched, each carrying
    the run's id, and with the summary of these line items. *)
Theorem calculateBoQ_outcomes (w : World) (requestedBy : option string) :
  match fetched w with
  | Throw message => calculateBoQ w requestedBy = Status500 message (now w)
  | Ok [] =>
      calculateBoQ w requestedBy
      = Status404 "No resource specifications found matching the criteria"
  | Ok batch =>
      let items := List.map (line_item w requestedBy) batch in
      (if save_rejects w
       then exists message, calculateBoQ w requestedBy = Status500 message (now w)
       else calculateBoQ w requestedBy
            = Status200 (uuid w) (length batch) (calculateSummary items) items (now w))
      /\ List.map Item.resource_id items = List.map resource_id batch
      /\ Forall (fun item => Item.boq_id item = uuid w
                             /\ Item.requested_by item = requestedBy) items
  end.
Proof.
  destruct (fetched w) as [[|r batch]|message] eqn:Hfetch.
  - unfold calculateBoQ, handler. now rewrite Hfetch.
  - cbv zeta. split; [|split].
    + unfold calculateBoQ.
      rewrite (handler_by_cases _ w (r :: batch) Hfetch) by discriminate.
      rewrite CalcTheory.processed_total. fold (line_item w requestedBy).
      cbn [List.map]. destruct (save_rejects w); [eexists; reflexivity|].
      cbn [length]. now rewrite length_map.
    + rewrite List.map_map. reflexivity.
    + apply List.Forall_forall. intros item Hin. apply List.in_map_iff in Hin.
      destruct Hin as (x & <- & _). split; reflexivity.
  - unfold calculateBoQ, handler. now rewrite Hfetch.
Qed.

(** X4.  When the calculation of every resource of a batch throws, the
    run still answers 200 with success true, no line item and the empty
    summary, and the results table is not written: the answer is the
    same whether or not the table would reject an insert. *)
Theorem run_with_every_resource_failing
    (calculate : ResourceSpecification -> Result Item.t)
    (w : World) (batch : list ResourceSpecification)
    (Hfetch : fetched w = Ok batch) (Hbatch : batch <> [])
    (Hthrow : forall resource, In resource batch -> is_ok (calculate resource) = false) :
  handler calculate w = Status200 (uuid w) 0 None [] (now w).
Proof.
  assert (Hnone : processed calculate batch = []).
  { clear Hfetch Hbatch. unfold processed.
    induction batch as [|r rest IH]; [reflexivity|]. cbn.
    pose proof (Hthrow r (or_introl eq_refl)) as Hr.
    destruct (calculate r); [discriminate|]. cbn.
    apply IH. intros x Hx. apply Hthrow. now right. }
  rewrite (handler_by_cases calculate w batch Hfetch Hbatch), Hnone. reflexivity.
Qed.

Lemma run_with_every_resource_failing_witness :
  handler (fun _ => Throw "boom") Sample.world_insert_rejected
  = Status200 "boq-1" 0 None [] 1728000000000.
Proof.
  apply (run_with_every_resource_failing (fun _ => Throw "boom")
           Sample.world_insert_rejected [Sample.reference; Sample.no_machine_type]).
  - reflexivity.
  - discriminate.
  - intros resource _. reflexivity.
Defined.

End RunExtras.

(* ===================================================================== *)
(** * Discounts and additional disks                                       *)
(* ===================================================================== *)

Module DiscountExtras.
Import Calc Notions MoreNotions.

(** X5.  The usage type the resolver asks the catalog for and the
    discount family [calculateDiscounts] applies always go together:
    Preemptible with the spot percentage 60, Committed with a
    committed-use percentage of 25 or 37, OnDemand with neither. *)
Theorem usage_type_matches_discount_family
    (resource : ResourceSpecification) (costs : Costs) :
  let d := calculateDiscounts resource costs in
  let usageType := getUsageType (pricing_model resource) in
  (usageType = "Preemptible" <-> spot_percent d = 60)
  /\ (usageType = "Committed" <-> (cud_percent d = 25 \/ cud_percent d = 37))
  /\ (usageType = "OnDemand" <-> (spot_percent d = 0 /\ cud_percent d = 0)).
Proof.
  cbv zeta. unfold getUsageType, calculateDiscounts.
  destruct (String.eqb (pricing_model resource) "spot");
    [cbn; intuition (discriminate || lia)|].
  destruct (String.eqb (pricing_model resource) "preemptible");
    [cbn; intuition (discriminate || lia)|].
  destruct (String.eqb (pricing_model resource) "cud-1-year");
    [cbn; intuition (discriminate || lia)|].
  destruct (String.eqb (pricing_model resource) "cud-3-year");
    [cbn; intuition (discriminate || lia)|].
  simpl orb. cbv iota.
  destruct ((183 <? usage_duration_hours resource)
            && bool_decide (usage_pattern resource = Some "continuous"))%bool;
    cbn; intuition (discriminate || lia).
Qed.

(** X6.  A pricing model that is none of the supported ones is priced
    like on-demand: the catalog is asked for OnDemand prices and the
    discounts are those of an on-demand resource with the same hours and
    usage pattern.  The comparison is exact, so "Spot" is not "spot". *)
Theorem unknown_pricing_model_is_on_demand
    (resource reference : ResourceSpecification) (costs : Costs)
    (Hunknown : ~ In (pricing_model resource) supported_pricing_models)
    (Hreference : pricing_model reference = "on-demand")
    (Hhours : usage_duration_hours reference = usage_duration_hours resource)
    (Hpattern : usage_pattern reference = usage_pattern resource) :
  getUsageType (pricing_model resource) = "OnDemand"
  /\ calculateDiscounts resource costs = calculateDiscounts reference costs.
Proof.
  assert (Hne : forall m, In m supported_pricing_models ->
                  String.eqb (pricing_model resource) m = false).
  { intros m Hm. apply String.eqb_neq. intros E. apply Hunknown. now rewrite E. }
  unfold getUsageType, calculateDiscounts.
  rewrite !Hne by (simpl; tauto). rewrite Hreference, Hhours, Hpattern.
  split; reflexivity.
Qed.

Lemma unknown_pricing_model_is_on_demand_witness :
  ~ In (pricing_model MoreSample.unknown_model) supported_pricing_models
  /\ spot_percent (calculateDiscounts MoreSample.unknown_model Sample.costs) = 0
  /\ sud_percent (calculateDiscounts MoreSample.unknown_model Sample.costs) = 30.
Proof.
  assert (H : ~ In (pricing_model MoreSample.unknown_model) supported_pricing_models).
  { simpl. intros [E|[E|[E|[E|[E|[]]]]]]; discriminate. }
  split; [exact H|].
  destruct (unknown_pricing_model_is_on_demand MoreSample.unknown_model Sample.reference
              Sample.costs H eq_refl eq_refl eq_refl) as [_ ->].
  split; reflexivity.
Defined.

(** The fallback table, entry by entry. *)
Lemma default_storage_price_cases (diskType : option string) :
  (diskType = Some "pd-ssd" -> getDefaultStoragePricing diskType = 0.17%float)
  /\ (diskType = Some "pd-balanced" -> getDefaultStoragePricing diskType = 0.1%float)
  /\ (diskType <> Some "pd-ssd" -> diskType <> Some "pd-balanced" ->
      getDefaultStoragePricing diskType = 0.04%float).
Proof.
  split; [intros ->; reflexivity|]. split; [intros ->; reflexivity|].
  intros H1 H2. unfold getDefaultStoragePricing.
  destruct diskType as [t|]; [|reflexivity].
  repeat (match goal with
          | |- context [match ?x with _ => _ end] => destruct x; try reflexivity
          end; try congruence).
Qed.

(** X7.  Additional disks are reported one by one, in order, with their
    type and size; the price of each is the price of the fallback table
    for its disk type (0.17 for pd-ssd, 0.1 for pd-balanced, 0.04 for
    any other type or none), whatever the catalog holds, and its cost
    is [price * size_gb * (usage_duration_hours / 730)].  These costs
    are not part of the line item's subtotal, discount or total, which
    are the same with and without additional disks. *)
Theorem additional_disks_are_reported_only
    (store : Store) (clock : Z) (boqId : string) (requestedBy : option string)
    (resource : ResourceSpecification) (disks : list Disk.t) :
  let item := calculateResourceBoQ store clock (with_additional_disks disks resource)
                                   boqId requestedBy in
  let bare := calculateResourceBoQ store clock (with_additional_disks [] resource)
                                   boqId requestedBy in
  List.map DiskCost.disk_type (Item.additional_storage_costs item)
    = List.map Disk.disk_type disks
  /\ List.map DiskCost.size_gb (Item.additional_storage_costs item)
     = List.map Disk.size_gb disks
  /\ Forall (fun c => In (DiskCost.price_per_gb_month c) table_prices)
            (Item.additional_storage_costs item)
  /\ Item.additional_storage_costs bare = []
  /\ Item.subtotal_usd item = Item.subtotal_usd bare
  /\ Item.total_discount_usd item = Item.total_discount_usd bare
  /\ Item.total_cost_usd item = Item.total_cost_usd bare
  /\ Forall2
       (fun disk c =>
          DiskCost.price_per_gb_month c = getDefaultStoragePricing (Disk.disk_type disk)
          /\ (Disk.disk_type disk = Some "pd-ssd" ->
              DiskCost.price_per_gb_month c = 0.17%float)
          /\ (Disk.disk_type disk = Some "pd-balanced" ->
              DiskCost.price_per_gb_month c = 0.1%float)
          /\ (Disk.disk_type disk <> Some "pd-ssd" ->
              Disk.disk_type disk <> Some "pd-balanced" ->
              DiskCost.price_per_gb_month c = 0.04%float)
          /\ DiskCost.cost_usd c
             = (DiskCost.price_per_gb_month c * num (Disk.size_gb disk)
                * (num (usage_duration_hours resource) / 730))%float)
       disks (Item.additional_storage_costs item).
Proof.
  cbv zeta. unfold calculateResourceBoQ.
  cbn [Item.additional_storage_costs Item.subtotal_usd Item.total_discount_usd
         Item.total_cost_usd].
  unfold calculateAdditionalStorageCosts.
  cbn [additional_disks usage_duration_hours with_additional_disks].
  rewrite !List.map_map. cbn [DiskCost.disk_type DiskCost.size_gb].
  split; [reflexivity|]. split; [reflexivity|]. split.
  - apply List.Forall_forall. intros c Hc. apply List.in_map_iff in Hc.
    destruct Hc as (disk & <- & _). cbn [DiskCost.price_per_gb_month].
    destruct (default_storage_price_cases (Disk.disk_type disk)) as (Hssd & Hbalanced & Hother).
    unfold table_prices.
    destruct (decide (Disk.disk_type disk = Some "pd-ssd")) as [E1|N1];
      [rewrite (Hssd E1); simpl; tauto|].
    destruct (decide (Disk.disk_type disk = Some "pd-balanced")) as [E2|N2];
      [rewrite (Hbalanced E2); simpl; tauto|].
    rewrite (Hother N1 N2). simpl. tauto.
  - do 4 (split; [reflexivity|]).
    induction disks as [|disk rest IH]; simpl; constructor; [|exact IH].
    destruct (default_storage_price_cases (Disk.disk_type disk)) as (Hssd & Hbalanced & Hother).
    cbn [DiskCost.price_per_gb_month DiskCost.cost_usd].
    split; [reflexivity|]. split; [exact Hssd|]. split; [exact Hbalanced|].
    split; [exact Hother|reflexivity].
Qed.

(** Two additional disks on a resource of 365 hours: half a month. *)
Example additional_disk_costs :
  List.map (fun c => (DiskCost.price_per_gb_month c, DiskCost.cost_usd c))
    (Item.additional_storage_costs
       (calculateResourceBoQ Sample.compute_store 0
          (with_additional_disks
             [ {| Disk.disk_type := Some "pd-ssd"; Disk.size_gb := 100;
                  Disk.description := None |};
               {| Disk.disk_type := Some "pd-extreme"; Disk.size_gb := 50;
                  Disk.description := None |} ]
             (Sample.resource (Some "n1-standard-2") 2 7.5 365 "continuous" "on-demand"
                              None None))
          "boq-1" None))
  = [ (0.17, 8.5); (0.04, 1) ]%float.
Proof. vm_compute. reflexivity. Qed.

End DiscountExtras.

(* ===================================================================== *)
(** * The price resolver: outages and the choice of the row                *)
(* ===================================================================== *)

Module ResolverExtras.
Import Calc Notions MoreNotions.

(** X8.  When the store rejects any one of the queries the resolver
    issues for a resource, the whole pricing is the fallback pricing:
    the estimate for compute, the table price for storage and 0 for the
    GPU, also for the components whose query had already found a catalog
    price. *)
Theorem outage_discards_catalog_prices
    (store : Store) (resource : ResourceSpecification) (q : Query)
    (Hissued : In q (issued_queries resource))
    (Hrejected : rejects store q = true) :
  fetchPricingForResource store resource = fallback_pricing resource.
Proof.
  unfold issued_queries in Hissued. unfold fallback_pricing.
  ResolverTheory.run_blocks.
  destruct (machine_type resource) as [mt|]; [|destruct Hissued].
  destruct Hissued as [<-|[<-|Hgpu]].
  - rewrite Hrejected. reflexivity.
  - destruct (rejects store (ComputeQuery _ _ _ _)); [reflexivity|].
    rewrite Hrejected. reflexivity.
  - destruct (has_gpu resource); [|destruct Hgpu].
    destruct Hgpu as [<-|[]].
    destruct (rejects store (ComputeQuery _ _ _ _)); [reflexivity|].
    destruct (rejects store (StorageQuery _ _)); [reflexivity|].
    rewrite Hrejected. reflexivity.
Qed.

Lemma outage_discards_catalog_prices_witness :
  compute_price_per_hour
    (fetchPricingForResource Sample.compute_store Sample.reference) = 0.1%float
  /\ fetchPricingForResource MoreSample.storage_outage Sample.reference
     = fallback_pricing Sample.reference
  /\ compute_price_per_hour
       (fetchPricingForResource MoreSample.storage_outage Sample.reference)
     = estimateComputePricing Sample.reference.
Proof.
  split; [vm_compute; reflexivity|].
  assert (H := outage_discards_catalog_prices MoreSample.storage_outage Sample.reference
                 (StorageQuery "pd-standard" "us-central1")
                 ltac:(simpl; tauto) eq_refl).
  split; [exact H|]. rewrite H. reflexivity.
Defined.

(** The order of the ORDER BY keys, as a proposition. *)
Lemma key_lt_false (a b : Z * Z) :
  Catalog.key_lt a b = false <-> (fst b < fst a \/ (fst b = fst a /\ snd b <= snd a)).
Proof.
  unfold Catalog.key_lt.
  destruct (Z.ltb_spec (fst a) (fst b)); destruct (Z.eqb_spec (fst a) (fst b));
    destruct (Z.ltb_spec (snd a) (snd b)); simpl; split; intros; try discriminate;
    try reflexivity; lia.
Qed.

(** [LIMIT 1] after [ORDER BY] returns a row no other row precedes. *)
Lemma least_by_minimal key best rows x :
  In x (best :: rows) ->
  Catalog.key_lt (key x) (key (Catalog.least_by key best rows)) = false.
Proof.
  revert best x. induction rows as [|e rest IH]; intros best x Hx.
  - destruct Hx as [<-|[]]. simpl. apply key_lt_false. lia.
  - simpl. set (b := if Catalog.key_lt (key e) (key best) then e else best).
    assert (Hb : Catalog.key_lt (key b) (key (Catalog.least_by key b rest)) = false)
      by (apply IH; now left).
    destruct Hx as [<-|[<-|Hx]].
    + (* the old best *)
      subst b. destruct (Catalog.key_lt (key e) (key best)) eqn:Hlt.
      * assert (Hlt' : Catalog.key_lt (key e) (key best) <> false) by congruence.
        rewrite key_lt_false in Hlt', Hb |- *.
        destruct (key e), (key best),
          (key (Catalog.least_by key e rest)); simpl in *; lia.
      * exact Hb.
    + (* the new row *)
      subst b. destruct (Catalog.key_lt (key e) (key best)) eqn:Hlt.
      * exact Hb.
      * rewrite key_lt_false in Hlt, Hb |- *.
        destruct (key e), (key best),
          (key (Catalog.least_by key best rest)); simpl in *; lia.
    + apply IH. now right.
Qed.

Lemma run_query_minimal (q : Query) (rows : list Catalog.entry) (row e : Catalog.entry) :
  In row (run_query q rows) -> In e rows -> where_clause q e = true ->
  Catalog.key_lt (order_key q e) (order_key q row) = false.
Proof.
  unfold run_query. intros Hrow He Hw.
  assert (Hf : In e (List.filter (where_clause q) rows)) by (apply List.filter_In; auto).
  destruct (List.filter (where_clause q) rows) as [|x l]; [destruct Hf|].
  simpl in Hrow. destruct Hrow as [<-|[]]. now apply least_by_minimal.
Qed.

(** What the compute price is when the store answers every query. *)
Lemma compute_price_when_store_answers
    (store : Store) (resource : ResourceSpecification) (machineType : string) :
  (forall q, rejects store q = false) ->
  machine_type resource = Some machineType ->
  compute_price_per_hour (fetchPricingForResource store resource)
  = match run_query (ComputeQuery machineType (Str.split_head "-" machineType)
                       (region resource) (getUsageType (pricing_model resource)))
                    (catalog store) with
    | row :: _ => Catalog.price_per_unit row
    | [] => estimateComputePricing resource
    end.
Proof.
  intros Hrej Hmt. ResolverTheory.run_blocks. rewrite Hmt, !Hrej.
  repeat (match goal with
          | |- context [has_gpu resource] => destruct (has_gpu resource)
          | |- context [match run_query ?q ?l with _ => _ end] => destruct (run_query q l)
          end; cbn);
    reflexivity.
Qed.

(** X9.  When the store answers and a catalog row matches the compute
    query, the compute price is the price of a row of the catalog that
    matches and is active, never of an inactive one; if some matching
    row has exactly the resource's machine type, so has the chosen row
    (a family match is not preferred to it), and if some matching row
    with the exact machine type is in exactly the resource's region, so
    is the chosen row. *)
Theorem compute_price_from_best_active_row
    (store : Store) (resource : ResourceSpecification) (machineType : string)
    (Hanswers : forall q, rejects store q = false)
    (Htype : machine_type resource = Some machineType)
    (Hmatch : exists e, In e (catalog store) /\ compute_matches resource e = true) :
  exists row,
    In row (catalog store)
    /\ compute_matches resource row = true
    /\ Catalog.is_active row = true
    /\ compute_price_per_hour (fetchPricingForResource store resource)
       = Catalog.price_per_unit row
    /\ (forall e, In e (catalog store) -> compute_matches resource e = true ->
          Catalog.machine_type e = Some machineType ->
          Catalog.machine_type row = Some machineType)
    /\ (forall e, In e (catalog store) -> compute_matches resource e = true ->
          Catalog.machine_type e = Some machineType ->
          Catalog.region e = Some (region resource) ->
          Catalog.region row = Some (region resource)).
Proof.
  rewrite (compute_price_when_store_answers store resource machineType Hanswers Htype).
  unfold compute_matches in *. rewrite Htype in *.
  set (q := ComputeQuery machineType (Str.split_head "-" machineType)
              (region resource) (getUsageType (pricing_model resource))) in *.
  destruct (ResolverTheory.run_query_some q (catalog store) Hmatch)
    as (row & Hq & Hin & Hw).
  rewrite Hq. exists row. split; [exact Hin|]. split; [exact Hw|].
  assert (Hactive : Catalog.is_active row = true).
  { subst q. simpl in Hw. now apply andb_prop in Hw as [_ Hw]. }
  split; [exact Hactive|]. split; [reflexivity|].
  assert (Hmin : forall e, In e (catalog store) -> where_clause q e = true ->
                   Catalog.key_lt (order_key q e) (order_key q row) = false).
  { intros e He Hwe. apply (run_query_minimal q (catalog store)); auto.
    rewrite Hq. now left. }
  assert (Heq : forall c v, Catalog.sql_eq c v = true <-> c = Some v).
  { intros [c|] v; simpl; [rewrite String.eqb_eq|]; split; congruence. }
  split.
  - intros e He Hwe Het. specialize (Hmin e He Hwe). apply key_lt_false in Hmin.
    subst q. simpl in Hmin. apply Heq.
    rewrite (proj2 (Heq _ _) Het) in Hmin.
    destruct (Catalog.sql_eq (Catalog.machine_type row) machineType); [reflexivity|].
    simpl in Hmin. lia.
  - intros e He Hwe Het Her. specialize (Hmin e He Hwe). apply key_lt_false in Hmin.
    subst q. simpl in Hmin. apply Heq.
    rewrite (proj2 (Heq _ _) Het), (proj2 (Heq _ _) Her) in Hmin.
    destruct (Catalog.sql_eq (Catalog.machine_type row) machineType);
      destruct (Catalog.sql_eq (Catalog.region row) (region resource));
      simpl in Hmin; try reflexivity; lia.
Qed.

Lemma compute_price_from_best_active_row_witness :
  exists row,
    In row (catalog Sample.compute_store)
    /\ Catalog.is_active row = true
    /\ compute_price_per_hour (fetchPricingForResource Sample.compute_store Sample.reference)
       = Catalog.price_per_unit row
    /\ Catalog.machine_type row = Some "n1-standard-2"
    /\ Catalog.region row = Some "us-central1".
Proof.
  destruct (compute_price_from_best_active_row Sample.compute_store Sample.reference
              "n1-standard-2" (fun _ => eq_refl) eq_refl)
    as (row & Hin & Hm & Hactive & Hprice & Htype & Hregion).
  - exists Sample.regional_type_entry. split; [simpl; tauto|reflexivity].
  - exists row. split; [exact Hin|]. split; [exact Hactive|]. split; [exact Hprice|].
    split.
    + apply (Htype Sample.regional_type_entry); [simpl; tauto|reflexivity|reflexivity].
    + apply (Hregion Sample.regional_type_entry);
        [simpl; tauto|reflexivity|reflexivity|reflexivity].
Defined.

End ResolverExtras.

(* ===================================================================== *)
(** * Fetching the resource specifications                                 *)
(* ===================================================================== *)

Module IntakeTheory.
Import Intake MoreNotions.

Lemma in_unnest_admits (filter : option (list string)) (value : string) :
  given filter = true -> (in_unnest value filter = true <-> admits filter value).
Proof.
  destruct filter as [[|x rest]|]; try discriminate. intros _.
  unfold in_unnest, admits, default. rewrite existsb_exists. split.
  - intros (y & Hy & Heq). apply String.eqb_eq in Heq. now subst.
  - intros Hin. exists value. split; [exact Hin|apply String.eqb_refl].
Qed.

Lemma not_given_admits (filter : option (list string)) (value : string) :
  given filter = false -> admits filter value.
Proof. destruct filter as [[|x rest]|]; try discriminate; intros _; exact I. Qed.

(** The conjunction of the pushed conditions selects exactly the rows
    the filters admit. *)
Lemma conditions_select (filters : Filters) (r : Calc.ResourceSpecification) :
  forallb (fun c : Condition => snd c r) (conditions filters) = true <-> selected filters r.
Proof.
  unfold conditions, push_if_given, selected.
  destruct (given (projectIds filters)) eqn:H1;
    destruct (given (resourceIds filters)) eqn:H2;
    destruct (given (regions filters)) eqn:H3;
    destruct (given (pricingModels filters)) eqn:H4;
    cbn [app forallb snd];
    rewrite ?andb_true_iff, ?in_unnest_admits by assumption;
    pose proof (not_given_admits (projectIds filters) (Calc.project_id r));
    pose proof (not_given_admits (resourceIds filters) (Calc.resource_id r));
    pose proof (not_given_admits (regions filters) (Calc.region r));
    pose proof (not_given_admits (pricingModels filters) (Calc.pricing_model r));
    tauto.
Qed.

Lemma insert_ordered_permutation r sorted :
  Permutation (insert_ordered r sorted) (r :: sorted).
Proof.
  induction sorted as [|x rest IH]; simpl; [reflexivity|].
  destruct (order_leb r x); [reflexivity|].
  rewrite IH. apply perm_swap.
Qed.

Lemma order_by_permutation rows : Permutation (order_by rows) rows.
Proof.
  induction rows as [|r rest IH]; simpl; [reflexivity|].
  rewrite insert_ordered_permutation. now constructor.
Qed.

Lemma order_leb_true a b : order_leb a b = true -> project_then_resource a b.
Proof.
  unfold order_leb, project_then_resource, String.ltb.
  destruct (String.compare (Calc.project_id a) (Calc.project_id b)) eqn:Hc; intros H.
  - right. split; [now apply String.compare_eq_iff|exact H].
  - left. reflexivity.
  - discriminate.
Qed.

Lemma order_leb_false a b : order_leb a b = false -> project_then_resource b a.
Proof.
  unfold order_leb, project_then_resource, String.ltb.
  rewrite (String.compare_antisym (Calc.project_id b) (Calc.project_id a)).
  destruct (String.compare (Calc.project_id a) (Calc.project_id b)) eqn:Hc; intros H; simpl.
  - right. split; [symmetry; now apply String.compare_eq_iff|].
    destruct (String.leb_total (Calc.resource_id a) (Calc.resource_id b)); congruence.
  - discriminate.
  - left. reflexivity.
Qed.

Lemma insert_ordered_sorted r sorted :
  Sorted project_then_resource sorted ->
  Sorted project_then_resource (insert_ordered r sorted).
Proof.
  induction 1 as [|x rest Hsorted IH Hhd]; simpl.
  - repeat constructor.
  - destruct (order_leb r x) eqn:Hrx.
    + constructor; [now constructor|]. constructor. now apply order_leb_true.
    + constructor; [exact IH|].
      destruct rest as [|y rest']; simpl.
      * constructor. now apply order_leb_false.
      * destruct (order_leb r y); constructor.
        -- now apply order_leb_false.
        -- now inversion Hhd.
Qed.

Lemma order_by_sorted rows : Sorted project_then_resource (order_by rows).
Proof.
  induction rows as [|r rest IH]; simpl; [constructor|].
  now apply insert_ordered_sorted.
Qed.

Lemma filter_sublist {A} (keep : A -> bool) (l : list A) : sublist (List.filter keep l) l.
Proof.
  induction l as [|x l IH]; simpl; [constructor|].
  destruct (keep x); now constructor.
Qed.

Lemma admitsb_admits (filter : option (list string)) (value : string) :
  admitsb filter value = true <-> admits filter value.
Proof.
  destruct filter as [[|x rest]|]; unfold admitsb, admits; try tauto.
  rewrite bool_decide_eq_true. apply list_elem_of_In.
Qed.

Lemma selects_selected (filters : Filters) (r : Calc.ResourceSpecification) :
  selects filters r = true <-> selected filters r.
Proof.
  unfold selects, selected. rewrite !andb_true_iff, !admitsb_admits. tauto.
Qed.

Lemma filter_ext_in {A} (f g : A -> bool) (l : list A) :
  (forall x, f x = g x) -> List.filter f l = List.filter g l.
Proof.
  intros H. induction l as [|x l IH]; simpl; [reflexivity|]. now rewrite H, IH.
Qed.

(** X10.  When the store answers, the specifications fetched are the
    rows of the table that every given filter admits, where an absent
    and an empty filter array admit everything: the result is a
    rearrangement of exactly the selected rows of the table, each as
    often as the table has it (no selected row is lost or repeated), and
    it is ordered by project id and then by resource id. *)
Theorem fetch_selects_and_orders
    (store : ResourceStore) (filters : Filters)
    (Hanswers : query_rejects store = false) :
  exists result,
    fetchResourceSpecifications store filters = Ok result
    /\ Permutation result (List.filter (selects filters) (rows store))
    /\ length result = length (List.filter (selects filters) (rows store))
    /\ (forall r, selects filters r = true <-> selected filters r)
    /\ (forall r, In r result <-> In r (rows store) /\ selected filters r)
    /\ Sorted project_then_resource result.
Proof.
  unfold fetchResourceSpecifications. rewrite Hanswers.
  set (keep := fun r => forallb (fun c : Condition => snd c r) (conditions filters)).
  assert (Hsame : List.filter keep (rows store)
                  = List.filter (selects filters) (rows store)).
  { apply filter_ext_in. intros r. unfold keep.
    apply eq_true_iff_eq. rewrite conditions_select. symmetry. apply selects_selected. }
  exists (order_by (List.filter keep (rows store))).
  split; [reflexivity|]. rewrite <- Hsame.
  split; [apply order_by_permutation|].
  split; [apply Permutation_length, order_by_permutation|].
  split; [apply selects_selected|].
  split.
  - intros r. transitivity (In r (List.filter keep (rows store))).
    + split; apply Permutation_in; [|symmetry]; apply order_by_permutation.
    + rewrite List.filter_In. unfold keep. now rewrite conditions_select.
  - apply order_by_sorted.
Qed.

Lemma fetch_selects_and_orders_witness :
  exists result,
    fetchResourceSpecifications MoreSample.specifications MoreSample.two_projects_spot
    = Ok result
    /\ List.map (fun r => (Calc.project_id r, Calc.resource_id r)) result
       = [("project-a", "vm-1"); ("project-a", "vm-1"); ("project-a", "vm-2")]
    /\ Sorted project_then_resource result.
Proof.
  destruct (fetch_selects_and_orders MoreSample.specifications MoreSample.two_projects_spot
              eq_refl)
    as (result & Hfetch & _ & _ & _ & _ & Hsorted).
  exists result. split; [exact Hfetch|]. split; [|exact Hsorted].
  vm_compute in Hfetch. injection Hfetch as <-. reflexivity.
Defined.

End IntakeTheory.

(* ===================================================================== *)
(** * What a regular expression can match                                  *)
(* ===================================================================== *)

Module RegexTheory.
Import Regex.

Lemma append_nil (s : string) : ("" ++ s = s)%string.
Proof. reflexivity. Qed.

Lemma append_cons (a : ascii) (p s : string) :
  (String a p ++ s = String a (p ++ s))%string.
Proof. reflexivity. Qed.

Lemma append_assoc (a b c : string) : ((a ++ b) ++ c = a ++ (b ++ c))%string.
Proof.
  induction a as [|x a IH]; [reflexivity|].
  rewrite !append_cons. now rewrite IH.
Qed.

Lemma drop_prefix_append (p s rest : string) :
  drop_prefix p s = Some rest -> s = (p ++ rest)%string.
Proof.
  revert s. induction p as [|a p IH]; intros [|b s]; simpl;
    rewrite ?append_nil; try congruence.
  destruct (Ascii.eqb a b) eqn:Hab; [|discriminate].
  apply Ascii.eqb_eq in Hab. subst b. intros H.
  rewrite append_cons. now rewrite <- (IH s H).
Qed.

Lemma drop_prefix_starts_with (p s rest : string) :
  drop_prefix p s = Some rest -> Str.starts_with p s = true.
Proof.
  revert s. induction p as [|a p IH]; intros [|b s]; simpl; try congruence.
  destruct (Ascii.eqb a b); [apply IH|discriminate].
Qed.

(** A text that has [q] at the start of one of its suffixes includes
    [q]. *)
Lemma includes_suffix (p s q : string) :
  Str.starts_with q s = true -> Str.includes (p ++ s) q = true.
Proof.
  intros H. induction p as [|a p IH].
  - rewrite append_nil. destruct s; simpl; rewrite H; reflexivity.
  - rewrite append_cons. cbn [Str.includes]. rewrite IH. apply orb_true_r.
Qed.

Lemma run_star {R : Type} (a : t) (s : string) (c : captures)
    (k : string -> captures -> option R) :
  run (Star a) s c k = MoreNotions.star_loop a k (S (String.length s)) s c.
Proof. reflexivity. Qed.

Lemma star_loop_O {R : Type} (a : t) (k : string -> captures -> option R) s c :
  MoreNotions.star_loop a k O s c = k s c.
Proof. reflexivity. Qed.

Lemma star_loop_S {R : Type} (a : t) (k : string -> captures -> option R) fuel s c :
  MoreNotions.star_loop a k (S fuel) s c
  = match run a s c (fun s' c' =>
             if (String.length s' <? String.length s)%nat
             then MoreNotions.star_loop a k fuel s' c' else None) with
    | Some x => Some x
    | None => k s c
    end.
Proof. reflexivity. Qed.

(** The matcher calls its continuation on a suffix of the input only. *)
Lemma run_reaches {R : Type} (r : t) :
  forall (s : string) (c : captures) (k : string -> captures -> option R) (x : R),
    run r s c k = Some x ->
    exists p s' c', s = (p ++ s')%string /\ k s' c' = Some x.
Proof.
  induction r as [q|cls|a IHa b IHb|a IHa b IHb|a IHa|i a IHa]; intros s c k x;
    [cbn [run]..|rewrite run_star|cbn [run]].
  - destruct (drop_prefix q s) as [rest|] eqn:Hq; [|discriminate].
    intros H. exists q, rest, c. split; [now apply drop_prefix_append|exact H].
  - destruct s as [|ch rest]; [discriminate|]. destruct (cls ch); [|discriminate].
    intros H. exists (String ch ""), rest, c. split; [reflexivity|exact H].
  - intros H. apply IHa in H as (p1 & s1 & c1 & -> & H).
    apply IHb in H as (p2 & s2 & c2 & -> & H).
    exists (p1 ++ p2)%string, s2, c2. split; [now rewrite append_assoc|exact H].
  - destruct (run a s c k) as [y|] eqn:Ha.
    + intros [= ->]. now apply IHa in Ha.
    + apply IHb.
  - generalize (S (String.length s)). intros fuel. revert s c.
    induction fuel as [|fuel IHf]; intros s c H;
      [rewrite star_loop_O in H|rewrite star_loop_S in H].
    + exists "", s, c. split; [reflexivity|exact H].
    + match type of H with
      | match ?m with _ => _ end = _ => destruct m as [y|] eqn:Ha
      end.
      * injection H as ->. apply IHa in Ha as (p1 & s1 & c1 & -> & Ha).
        destruct (String.length s1 <? String.length (p1 ++ s1))%nat; [|discriminate].
        apply IHf in Ha as (p2 & s2 & c2 & -> & Ha).
        exists (p1 ++ p2)%string, s2, c2. split; [now rewrite append_assoc|exact Ha].
      * exists "", s, c. split; [reflexivity|exact H].
  - intros H. apply IHa in H as (p1 & s1 & c1 & -> & H).
    exists p1, s1, ((i, consumed (p1 ++ s1) s1) :: c1). split; [reflexivity|exact H].
Qed.

(** When a second continuation succeeds wherever the first does, so
    does the match. *)
Lemma run_mono {R : Type} (r : t) :
  forall (s : string) (c : captures) (k1 k2 : string -> captures -> option R),
    (forall s' c', k1 s' c' <> None -> k2 s' c' <> None) ->
    run r s c k1 <> None -> run r s c k2 <> None.
Proof.
  induction r as [q|cls|a IHa b IHb|a IHa b IHb|a IHa|i a IHa];
    intros s c k1 k2 Hk; [cbn [run]..|rewrite !run_star|cbn [run]].
  - destruct (drop_prefix q s); [apply Hk|congruence].
  - destruct s as [|ch rest]; [congruence|]. destruct (cls ch); [apply Hk|congruence].
  - apply IHa. intros s' c'. now apply IHb.
  - intros H. destruct (run a s c k1) as [y|] eqn:Ha.
    + assert (H2 : run a s c k2 <> None) by (apply (IHa s c k1 k2 Hk); congruence).
      destruct (run a s c k2); congruence.
    + destruct (run a s c k2); [congruence|]. now apply (IHb s c k1 k2 Hk).
  - generalize (S (String.length s)). intros fuel. revert s c.
    induction fuel as [|fuel IHf]; intros s c;
      [rewrite !star_loop_O; apply Hk|rewrite !star_loop_S].
    intros H.
    match type of H with
    | match run a s c ?K1 with _ => _ end <> None =>
        match goal with
        | |- match run a s c ?K2 with _ => _ end <> None =>
            assert (HK : forall s' c', K1 s' c' <> None -> K2 s' c' <> None)
        end
    end.
    { intros s' c'. cbv beta. destruct (String.length s' <? String.length s)%nat;
        [apply IHf|congruence]. }
    match goal with
    | |- match run a s c ?K2 with _ => _ end <> None =>
        destruct (run a s c K2) as [y|] eqn:Ha2; [congruence|]
    end.
    match type of H with
    | match run a s c ?K1 with _ => _ end <> None =>
        destruct (run a s c K1) as [y|] eqn:Ha1
    end.
    + exfalso. apply (IHa s c _ _ HK); [rewrite Ha1; congruence|exact Ha2].
    + now apply Hk.
  - apply IHa. intros s' c'. apply Hk.
Qed.

(** Both lifted to the leftmost match. *)
Lemma search_needs (r : t) (q : string) :
  (forall s c (k : string -> captures -> option (string * captures)) x,
      run r s c k = Some x -> Str.includes s q = true) ->
  forall s, search r s <> None -> Str.includes s q = true.
Proof.
  intros Hrun s. induction s as [|a s IH]; cbn [search].
  - destruct (run r "" [] _) as [[rest c]|] eqn:Hr; [|congruence].
    intros _. now apply Hrun in Hr.
  - destruct (run r (String a s) [] _) as [[rest c]|] eqn:Hr.
    + intros _. now apply Hrun in Hr.
    + intros H. cbn [Str.includes]. rewrite (IH H). apply orb_true_r.
Qed.

Lemma search_mono (r1 r2 : t) :
  (forall s,
      run r1 s [] (fun rest c => Some (rest, c)) <> None ->
      run r2 s [] (fun rest c => Some (rest, c)) <> None) ->
  forall s, search r1 s <> None -> search r2 s <> None.
Proof.
  intros Hrun s. induction s as [|a s IH]; cbn [search].
  - specialize (Hrun "").
    destruct (run r1 "" [] _) as [[rest c]|]; [|congruence].
    destruct (run r2 "" [] _) as [[rest' c']|]; [congruence|].
    intros _. apply Hrun. congruence.
  - specialize (Hrun (String a s)).
    destruct (run r2 (String a s) [] _) as [[rest' c']|]; [congruence|].
    destruct (run r1 (String a s) [] _) as [[rest c]|].
    + intros _. exfalso. now apply Hrun.
    + exact IH.
Qed.

(** A match of [a] followed by the literal [q] needs [q] in the text,
    also when something follows the literal. *)
Lemma literal_needed (a : t) (q : string) (s : string) :
  search (Seq a (Lit q)) s <> None -> Str.includes s q = true.
Proof.
  apply search_needs. clear s. intros s c k x. cbn [run]. intros H.
  apply run_reaches in H as (p & s' & c' & -> & H).
  destruct (drop_prefix q s') as [rest|] eqn:Hq; [|discriminate].
  apply includes_suffix. now apply drop_prefix_starts_with in Hq.
Qed.

(** Where [a q b] matches, so does [a q]. *)
Lemma shorter_pattern_matches (a b : t) (q : string) (s : string) :
  search (Seq a (Seq (Lit q) b)) s <> None -> search (Seq a (Lit q)) s <> None.
Proof.
  apply search_mono. clear s. intros s. cbn [run].
  apply run_mono. intros s' c'.
  destruct (drop_prefix q s'); congruence.
Qed.

End RegexTheory.

(* ===================================================================== *)
(** * The description parser: usage, commitment and machine names          *)
(* ===================================================================== *)

Module ParserExtras.
Import Notions MoreNotions.

Ltac split_tests :=
  repeat match goal with
         | |- context [match Regex.search ?r ?s with _ => _ end] =>
             destruct (Regex.search r s) as [[? ?]|]
         | |- context [if ?b then _ else _] => destruct b
         end.

Ltac unfold_blocks :=
  unfold Updater.family_block, Updater.machine_block, Updater.vcpu_block,
    Updater.memory_block, Updater.disk_block, Updater.gpu_block, Updater.usage_block,
    Updater.commitment_block, Updater.network_block, Updater.scope_block,
    Fetcher.family_block, Fetcher.machine_block, Fetcher.vcpu_block,
    Fetcher.memory_block, Fetcher.disk_block, Fetcher.gpu_block, Fetcher.usage_block,
    Fetcher.commitment_block.

(** Rewrites [field (block desc info)] to [field info] for the
    outermost block, when the block does not write the field. *)
Ltac kept :=
  match goal with
  | |- context [?field (?block ?desc ?info)] =>
      let H := fresh in
      assert (H : forall i, field (block desc i) = field i)
        by (intros i; unfold_blocks; split_tests; reflexivity);
      rewrite (H info); clear H
  end.

Lemma updater_commitment_effect desc info :
  let one := (Str.includes desc "1 year" || Str.includes desc "1-year")%bool in
  let three := (Str.includes desc "3 year" || Str.includes desc "3-year")%bool in
  Updater.commitmentTerm (Updater.commitment_block desc info)
    = (if one then Some "1-year" else if three then Some "3-year"
       else Updater.commitmentTerm info)
  /\ Updater.usageType (Updater.commitment_block desc info)
    = (if (one || three)%bool then "Committed" else Updater.usageType info)
  /\ Updater.commitmentType (Updater.commitment_block desc info)
    = (if (one || three)%bool then Some "resource" else Updater.commitmentType info)
  /\ Updater.discountPercent (Updater.commitment_block desc info)
    = (if one then 25 else if three then 37 else Updater.discountPercent info).
Proof.
  cbv zeta. unfold Updater.commitment_block.
  destruct (Str.includes desc "1 year" || Str.includes desc "1-year")%bool;
    destruct (Str.includes desc "3 year" || Str.includes desc "3-year")%bool;
    repeat split; reflexivity.
Qed.

Lemma updater_usage_effect desc info :
  Updater.usageType (Updater.usage_block desc info)
  = (if (Str.includes desc "preemptible" || Str.includes desc "spot")%bool
     then "Preemptible" else Updater.usageType info).
Proof. unfold Updater.usage_block. destruct (_ || _)%bool; reflexivity. Qed.

Lemma fetcher_commitment_effect desc info :
  let one := (Str.includes desc "1 year" || Str.includes desc "1-year")%bool in
  let three := (Str.includes desc "3 year" || Str.includes desc "3-year")%bool in
  Fetcher.commitmentTerm (Fetcher.commitment_block desc info)
    = (if one then Some "1-year" else if three then Some "3-year"
       else Fetcher.commitmentTerm info)
  /\ Fetcher.usageType (Fetcher.commitment_block desc info)
    = (if (one || three)%bool then "Committed" else Fetcher.usageType info).
Proof.
  cbv zeta. unfold Fetcher.commitment_block.
  destruct (Str.includes desc "1 year" || Str.includes desc "1-year")%bool;
    destruct (Str.includes desc "3 year" || Str.includes desc "3-year")%bool;
    repeat split; reflexivity.
Qed.

Lemma fetcher_usage_effect desc info :
  Fetcher.usageType (Fetcher.usage_block desc info)
  = (if (Str.includes desc "preemptible" || Str.includes desc "spot")%bool
     then "Preemptible" else Fetcher.usageType info).
Proof. unfold Fetcher.usage_block. destruct (_ || _)%bool; reflexivity. Qed.

(** X11.  For every description, on its lower-cased text: the
    commitment term is 1-year when "1 year" or "1-year" occurs,
    otherwise 3-year when "3 year" or "3-year" occurs, otherwise absent;
    the usage type is Committed when a commitment term was found, also
    for a description that says spot or preemptible, otherwise
    Preemptible when "preemptible" or "spot" occurs, otherwise OnDemand;
    the discount percent is 25, 37 or 0 and the commitment type is
    "resource" exactly with a term.  The fetcher's parser assigns the
    same usage type and commitment term, and the usage type is always
    one that the calculator queries the catalog for. *)
Theorem usage_and_commitment_of_description (description : string) :
  let desc := Str.toLowerCase description in
  let info := Updater.extractMachineInfo description in
  let one := (Str.includes desc "1 year" || Str.includes desc "1-year")%bool in
  let three := (Str.includes desc "3 year" || Str.includes desc "3-year")%bool in
  let spot := (Str.includes desc "preemptible" || Str.includes desc "spot")%bool in
  Updater.commitmentTerm info
    = (if one then Some "1-year" else if three then Some "3-year" else None)
  /\ Updater.usageType info
    = (if (one || three)%bool then "Committed"
       else if spot then "Preemptible" else "OnDemand")
  /\ Updater.discountPercent info = (if one then 25 else if three then 37 else 0)
  /\ Updater.commitmentType info = (if (one || three)%bool then Some "resource" else None)
  /\ Fetcher.usageType (Fetcher.extractMachineInfo description) = Updater.usageType info
  /\ Fetcher.commitmentTerm (Fetcher.extractMachineInfo description)
     = Updater.commitmentTerm info
  /\ (exists model,
        In model supported_pricing_models
        /\ Calc.getUsageType model = Updater.usageType info).
Proof.
  cbv zeta. set (desc := Str.toLowerCase description).
  assert (Hterm : Updater.commitmentTerm (Updater.extractMachineInfo description)
                  = (if (Str.includes desc "1 year" || Str.includes desc "1-year")%bool
                     then Some "1-year"
                     else if (Str.includes desc "3 year" || Str.includes desc "3-year")%bool
                          then Some "3-year" else None)).
  { unfold Updater.extractMachineInfo, Updater.statements. cbn [fold_left]. fold desc.
    do 2 kept. rewrite (proj1 (updater_commitment_effect desc _)).
    do 7 kept. reflexivity. }
  assert (Husage : Updater.usageType (Updater.extractMachineInfo description)
                   = (if ((Str.includes desc "1 year" || Str.includes desc "1-year")
                          || (Str.includes desc "3 year" || Str.includes desc "3-year"))%bool
                      then "Committed"
                      else if (Str.includes desc "preemptible"
                               || Str.includes desc "spot")%bool
                           then "Preemptible" else "OnDemand")).
  { unfold Updater.extractMachineInfo, Updater.statements. cbn [fold_left]. fold desc.
    do 2 kept. rewrite (proj1 (proj2 (updater_commitment_effect desc _))).
    rewrite updater_usage_effect. do 6 kept. reflexivity. }
  split; [exact Hterm|]. split; [exact Husage|]. split; [|split; [|split; [|split]]].
  - unfold Updater.extractMachineInfo, Updater.statements. cbn [fold_left]. fold desc.
    do 2 kept. rewrite (proj2 (proj2 (proj2 (updater_commitment_effect desc _)))).
    do 7 kept. reflexivity.
  - unfold Updater.extractMachineInfo, Updater.statements. cbn [fold_left]. fold desc.
    do 2 kept. rewrite (proj1 (proj2 (proj2 (updater_commitment_effect desc _)))).
    do 7 kept. reflexivity.
  - rewrite Husage.
    unfold Fetcher.extractMachineInfo, Fetcher.statements. cbn [fold_left]. fold desc.
    rewrite (proj2 (fetcher_commitment_effect desc _)).
    rewrite fetcher_usage_effect. do 6 kept. reflexivity.
  - rewrite Hterm.
    unfold Fetcher.extractMachineInfo, Fetcher.statements. cbn [fold_left]. fold desc.
    rewrite (proj1 (fetcher_commitment_effect desc _)).
    do 7 kept. reflexivity.
  - rewrite Husage.
    destruct ((Str.includes desc "1 year" || Str.includes desc "1-year")
              || (Str.includes desc "3 year" || Str.includes desc "3-year"))%bool;
      [exists "cud-1-year"; split; [simpl; tauto|reflexivity]|].
    destruct (Str.includes desc "preemptible" || Str.includes desc "spot")%bool;
      [exists "spot"|exists "on-demand"]; (split; [simpl; tauto|reflexivity]).
Qed.

Lemma updater_family_effect desc info :
  Updater.machineFamily (Updater.family_block desc info)
    = match Regex.search Updater.family_re desc with
      | Some (_, groups) => Some (Regex.group 1 groups)
      | None => Updater.machineFamily info
      end
  /\ Updater.resourceGroup (Updater.family_block desc info)
    = match Regex.search Updater.family_re desc with
      | Some (_, groups) => (Str.toUpperCase (Regex.group 1 groups) ++ "Standard")%string
      | None => Updater.resourceGroup info
      end.
Proof.
  unfold Updater.family_block.
  destruct (Regex.search Updater.family_re desc) as [[whole groups]|]; split; reflexivity.
Qed.

Lemma updater_machine_effect desc info :
  Updater.machineType (Updater.machine_block desc info)
  = match Regex.search Updater.machine_re desc with
    | Some (whole, _) => Some whole
    | None => Updater.machineType info
    end.
Proof.
  unfold Updater.machine_block.
  destruct (Regex.search Updater.machine_re desc) as [[whole groups]|]; reflexivity.
Qed.

(** The three name fields of the updater's parser, by the two regular
    expressions. *)
Lemma updater_names (description : string) :
  let desc := Str.toLowerCase description in
  let info := Updater.extractMachineInfo description in
  Updater.machineType info = fst <$> Regex.search Updater.machine_re desc
  /\ Updater.machineFamily info
     = (fun m => Regex.group 1 (snd m)) <$> Regex.search Updater.family_re desc
  /\ Updater.resourceGroup info
     = match Regex.search Updater.family_re desc with
       | Some (_, groups) => (Str.toUpperCase (Regex.group 1 groups) ++ "Standard")%string
       | None => "Standard"
       end.
Proof.
  cbv zeta. set (desc := Str.toLowerCase description).
  unfold Updater.extractMachineInfo, Updater.statements. cbn [fold_left]. fold desc.
  split; [|split].
  - do 8 kept. rewrite updater_machine_effect. kept.
    destruct (Regex.search Updater.machine_re desc) as [[whole groups]|]; reflexivity.
  - do 9 kept. rewrite (proj1 (updater_family_effect desc _)).
    destruct (Regex.search Updater.family_re desc) as [[whole groups]|]; reflexivity.
  - do 9 kept. rewrite (proj2 (updater_family_effect desc _)).
    destruct (Regex.search Updater.family_re desc) as [[whole groups]|]; reflexivity.
Qed.

(** Where the machine-type expression matches, the family expression
    matches. *)
Lemma family_found_with_machine (desc : string) :
  Regex.search Updater.machine_re desc <> None ->
  Regex.search Updater.family_re desc <> None.
Proof.
  apply RegexTheory.shorter_pattern_matches
    with (b := Regex.Plus (Regex.Class (fun a =>
                 (Regex.lower a || Regex.digit a || Ascii.eqb a "-")%bool))).
Qed.

(** The family expression matches only a text with a hyphen. *)
Lemma family_needs_hyphen (desc : string) :
  Regex.search Updater.family_re desc <> None -> Str.includes desc "-" = true.
Proof.
  apply (RegexTheory.literal_needed (Regex.Group 1 (Regex.one_of Updater.families))).
Qed.

(** X12.  Whenever the updater's parser finds a machine type in a
    description, it also finds a machine family and names the resource
    group after it, and the description contains a hyphen. *)
Theorem machine_type_comes_with_family
    (description machineType : string)
    (Htype : Updater.machineType (Updater.extractMachineInfo description)
             = Some machineType) :
  exists family,
    Updater.machineFamily (Updater.extractMachineInfo description) = Some family
    /\ Updater.resourceGroup (Updater.extractMachineInfo description)
       = (Str.toUpperCase family ++ "Standard")%string
    /\ Str.includes (Str.toLowerCase description) "-" = true.
Proof.
  destruct (updater_names description) as (Ht & Hf & Hg).
  rewrite Ht in Htype. rewrite Hf, Hg.
  assert (Hfamily : Regex.search Updater.family_re (Str.toLowerCase description) <> None).
  { apply family_found_with_machine.
    destruct (Regex.search Updater.machine_re _); [congruence|discriminate]. }
  pose proof (family_needs_hyphen _ Hfamily) as Hdash.
  destruct (Regex.search Updater.family_re _) as [[whole groups]|]; [|congruence].
  exists (Regex.group 1 groups). repeat split. exact Hdash.
Qed.

Lemma machine_type_comes_with_family_witness :
  exists family,
    Updater.machineFamily
      (Updater.extractMachineInfo "N2D-Standard-8 running in Americas") = Some family
    /\ family = "n2d".
Proof.
  destruct (machine_type_comes_with_family "N2D-Standard-8 running in Americas"
              "n2d-standard-8" ltac:(vm_compute; reflexivity))
    as (family & Hfamily & _ & _).
  exists family. split; [exact Hfamily|].
  vm_compute in Hfamily. now injection Hfamily as <-.
Defined.

End ParserExtras.

(* ===================================================================== *)
(** * From the price list to catalog entries                               *)
(* ===================================================================== *)

Module FeedTheory.
Import Billing Notions MoreNotions.

Lemma map_tiers_ok (rates : list TierRate) (tiers : list Catalog.tier) :
  Updater.map_tiers rates = Ok tiers ->
  length tiers = length rates /\ Forall (fun rate => unitPrice rate <> None) rates.
Proof.
  revert tiers. induction rates as [|rate rest IH]; intros tiers; simpl.
  - intros [= <-]. split; [reflexivity|constructor].
  - unfold Updater.tier_of. destruct (unitPrice rate) as [price|] eqn:Hprice; simpl;
      [|discriminate].
    destruct (Updater.map_tiers rest) as [ts|]; simpl; [|discriminate].
    intros [= <-]. destruct (IH ts eq_refl) as [Hlen Hall].
    split; [simpl; now rewrite Hlen|]. constructor; [congruence|exact Hall].
Qed.

Lemma map_tiers_priced (rates : list TierRate) :
  Forall (fun rate => unitPrice rate <> None) rates ->
  exists tiers, Updater.map_tiers rates = Ok tiers.
Proof.
  induction 1 as [|rate rest Hrate Hrest [ts IH]]; simpl; [eexists; reflexivity|].
  unfold Updater.tier_of. destruct (unitPrice rate) as [price|]; [|congruence].
  simpl. rewrite IH. simpl. eexists; reflexivity.
Qed.

(** What a kept entry of the updater carries. *)
Lemma updater_entry (clock : Z) (sku : Sku) (serviceName serviceId : string)
    (entry : Catalog.entry) :
  Updater.extractPricingInfo clock sku serviceName serviceId = Some entry ->
  let info := Updater.extractMachineInfo (description sku) in
  Catalog.sku_id entry = skuId sku
  /\ Catalog.description entry = description sku
  /\ Catalog.service_name entry = serviceName
  /\ Catalog.service_id entry = serviceId
  /\ Catalog.is_active entry = true
  /\ Catalog.effective_date entry = Updater.day_of clock
  /\ Catalog.last_updated entry = clock
  /\ Catalog.machine_type entry = Updater.machineType info
  /\ Catalog.machine_family entry = Updater.machineFamily info
  /\ Catalog.usage_type entry = Updater.usageType info
  /\ Catalog.category entry = Updater.category info
  /\ Catalog.region entry = (serviceRegions sku ≫= head)
  /\ (Catalog.tiered_rates entry = None <-> length (listed_tiers sku) = 1%nat)
  /\ (forall tiers, Catalog.tiered_rates entry = Some tiers ->
        length tiers = length (listed_tiers sku)).
Proof.
  unfold Updater.extractPricingInfo, Updater.extract, listed_tiers.
  destruct (pricingInfo sku) as [[|pricing rest]|]; try discriminate.
  destruct (pricingExpression pricing) as [expression|]; [|discriminate]. simpl.
  destruct (tieredRates expression) as [[|baseRate rates]|]; try discriminate.
  destruct (Updater.map_tiers (baseRate :: rates)) as [tiers|] eqn:Htiers.
  2:{ destruct (unitPrice baseRate) as [price|]; [|discriminate]. simpl.
      destruct (Updater.decimal_price price =? 0)%float; discriminate. }
  destruct (unitPrice baseRate) as [price|]; [|discriminate]. simpl.
  destruct (Updater.decimal_price price =? 0)%float eqn:Hzero; [discriminate|].
  simpl. intros [= <-]. cbn.
  apply map_tiers_ok in Htiers as [Hlen _]. simpl in Hlen.
  do 11 (split; [reflexivity|]).
  split; [destruct (serviceRegions sku) as [[|first others]|]; reflexivity|].
  destruct tiers as [|t1 [|t2 tiers]]; simpl in *; try discriminate.
  - split; [split; [intros _; lia|reflexivity]|discriminate].
  - split; [split; [discriminate|intros; lia]|]. intros ts [= <-]. simpl. lia.
Qed.

Lemma tier_of_carries (rate : TierRate) (tier : Catalog.tier) :
  Updater.tier_of rate = Ok tier -> tier_carries rate tier.
Proof.
  unfold Updater.tier_of, tier_carries.
  destruct (unitPrice rate) as [price|]; simpl; [|discriminate].
  intros [= <-]. exists price. split; [reflexivity|].
  cbn [Catalog.tier_price_per_unit Catalog.tier_currency_code Catalog.start_usage_amount].
  split; [reflexivity|]. split; [reflexivity|].
  unfold Updater.start_or_zero.
  destruct (startUsageAmount rate) as [x|]; [|reflexivity]. split.
  - intros ->. reflexivity.
  - intros Htruthy Hpositional. rewrite Htruthy.
    destruct (NumFacts.truthy_positional_finite x Htruthy Hpositional) as (sg & m & e & E).
    unfold Parse.parseInt_number. now rewrite E.
Qed.

Lemma map_tiers_carry (rates : list TierRate) (tiers : list Catalog.tier) :
  Updater.map_tiers rates = Ok tiers -> Forall2 tier_carries rates tiers.
Proof.
  revert tiers. induction rates as [|rate rest IH]; intros tiers; simpl.
  - intros [= <-]. constructor.
  - destruct (Updater.tier_of rate) as [tier|] eqn:Htier; simpl; [|discriminate].
    destruct (Updater.map_tiers rest) as [ts|]; simpl; [|discriminate].
    intros [= <-]. constructor; [now apply tier_of_carries|now apply IH].
Qed.

(** The tiers a kept entry carries. *)
Lemma kept_tiers (clock : Z) (sku : Sku) (serviceName serviceId : string)
    (entry : Catalog.entry) (tiers : list Catalog.tier) :
  Updater.extractPricingInfo clock sku serviceName serviceId = Some entry ->
  Catalog.tiered_rates entry = Some tiers ->
  Forall2 tier_carries (listed_tiers sku) tiers.
Proof.
  unfold Updater.extractPricingInfo, Updater.extract, listed_tiers.
  destruct (pricingInfo sku) as [[|pricing rest]|]; try discriminate.
  destruct (pricingExpression pricing) as [expression|]; [|discriminate]. simpl.
  destruct (tieredRates expression) as [[|baseRate rates]|]; try discriminate.
  destruct (Updater.map_tiers (baseRate :: rates)) as [ts|] eqn:Htiers.
  2:{ destruct (unitPrice baseRate) as [price|]; [|discriminate]. simpl.
      destruct (Updater.decimal_price price =? 0)%float; discriminate. }
  destruct (unitPrice baseRate) as [price|]; [|discriminate]. simpl.
  destruct (Updater.decimal_price price =? 0)%float eqn:Hzero; [discriminate|].
  simpl. intros [= <-]. cbn [Catalog.tiered_rates].
  destruct (1 <? length ts)%nat; [|discriminate].
  intros [= <-]. now apply map_tiers_carry.
Qed.

(** X13.  The updater keeps a SKU exactly when the first tier of its
    first pricing info has a unit price, this price is not zero, and
    every tier has a unit price: one tier without a unit price drops the
    whole SKU.  A kept entry carries the first of the SKU's service
    regions, and its tiered rates exactly when the SKU has more than one
    tier: then one stored tier per tier of the price list, in order,
    each with the tier's unit price as the number [nanos / 1e9 + units],
    its currency (USD when none is given) and its start amount (0 when
    the amount is absent, a zero or NaN; the integer part of an amount
    that JavaScript writes without exponent). *)
Theorem sku_kept_exactly_when (clock : Z) (sku : Sku) (serviceName serviceId : string) :
  (is_Some (Updater.extractPricingInfo clock sku serviceName serviceId)
   <-> exists price,
         first_unit_price sku = Some price
         /\ (Updater.decimal_price price =? 0)%float = false
         /\ Forall (fun rate => unitPrice rate <> None) (listed_tiers sku))
  /\ (forall entry,
        Updater.extractPricingInfo clock sku serviceName serviceId = Some entry ->
        Catalog.region entry = (serviceRegions sku ≫= head)
        /\ (Catalog.tiered_rates entry = None <-> length (listed_tiers sku) = 1%nat)
        /\ (forall tiers, Catalog.tiered_rates entry = Some tiers ->
              length tiers = length (listed_tiers sku)
              /\ Forall2 tier_carries (listed_tiers sku) tiers)).
Proof.
  split.
  - unfold Updater.extractPricingInfo, Updater.extract, first_unit_price, listed_tiers.
    destruct (pricingInfo sku) as [[|pricing rest]|];
      try (split; [intros [e He]; discriminate|intros (p & Hp & _); discriminate]).
    destruct (pricingExpression pricing) as [expression|]; simpl;
      [|split; [intros [e He]; discriminate|intros (p & Hp & _); discriminate]].
    destruct (tieredRates expression) as [[|baseRate rates]|];
      try (split; [intros [e He]; simpl in He; discriminate
                  |intros (p & Hp & _); simpl in Hp; discriminate]).
    destruct (Updater.map_tiers (baseRate :: rates)) as [tiers|] eqn:Htiers.
    + destruct (unitPrice baseRate) as [price|]; simpl;
        [|split; [intros [e He]; discriminate|intros (p & Hp & _); discriminate]].
      destruct (Updater.decimal_price price =? 0)%float eqn:Hzero; simpl.
      * split; [intros [e He]; discriminate|].
        intros (p & [= <-] & Hp & _). congruence.
      * split; [|intros _; eexists; reflexivity].
        intros _. exists price. split; [reflexivity|]. split; [exact Hzero|].
        now apply map_tiers_ok in Htiers.
    + split.
      * destruct (unitPrice baseRate) as [price|]; simpl; [|intros [e He]; discriminate].
        destruct (Updater.decimal_price price =? 0)%float; intros [e He]; discriminate.
      * intros (p & _ & _ & Hall).
        change (Forall (fun rate => unitPrice rate <> None) (baseRate :: rates)) in Hall.
        apply map_tiers_priced in Hall as [ts Hts]. congruence.
  - intros entry Hkept. pose proof (updater_entry _ _ _ _ _ Hkept) as H. cbv zeta in H.
    destruct H as (_ & _ & _ & _ & _ & _ & _ & _ & _ & _ & _ & Hregion & Hnone & Hlength).
    split; [exact Hregion|]. split; [exact Hnone|].
    intros tiers Htiers. split; [now apply Hlength|].
    now apply (kept_tiers clock sku serviceName serviceId entry).
Qed.

(** A SKU of three tiers: the start amounts 0, 100.5 and one million
    are stored as 0, 100 and 1000000. *)
Example tiers_of_three :
  (Catalog.tiered_rates <$>
     Updater.extractPricingInfo 0 MoreSample.three_tiers "Compute Engine"
       Updater.COMPUTE_ENGINE)
  = Some (Some
      [ {| Catalog.start_usage_amount := 0;
           Catalog.tier_price_per_unit := 0.0475;
           Catalog.tier_currency_code := "USD" |};
        {| Catalog.start_usage_amount := 100;
           Catalog.tier_price_per_unit := 0.04;
           Catalog.tier_currency_code := "USD" |};
        {| Catalog.start_usage_amount := 1000000;
           Catalog.tier_price_per_unit := 1.03;
           Catalog.tier_currency_code := "EUR" |} ]%float).
Proof. vm_compute. reflexivity. Qed.

(** The loop appends, in listing order, the entries of the relevant
    SKUs that are kept. *)
Lemma for_each_sku_entries (clock : Z) (serviceName serviceId : string)
    (skus : list Sku) (pricingData : list Catalog.entry) :
  exists added,
    Updater.for_each_sku clock serviceName serviceId skus pricingData
    = (pricingData ++ added)%list
    /\ sublist (List.map Catalog.sku_id added) (List.map skuId skus)
    /\ (forall entry, In entry added ->
          exists sku, In sku skus /\ Updater.isRelevantSku sku = true
                      /\ Updater.extractPricingInfo clock sku serviceName serviceId
                         = Some entry).
Proof.
  revert pricingData. induction skus as [|sku rest IH]; intros pricingData; simpl.
  - exists []. rewrite app_nil_r. split; [reflexivity|]. split; [constructor|].
    intros entry [].
  - destruct (Updater.isRelevantSku sku) eqn:Hrelevant; simpl.
    + destruct (Updater.extractPricingInfo clock sku serviceName serviceId)
        as [entry|] eqn:Hkept.
      * destruct (IH (pricingData ++ [entry])%list) as (added & -> & Hsub & Hin).
        exists (entry :: added). rewrite <- app_assoc. split; [reflexivity|]. split.
        -- simpl. rewrite (proj1 (updater_entry _ _ _ _ _ Hkept)). now constructor.
        -- intros e [<-|He]; [exists sku; auto|].
           destruct (Hin e He) as (sku' & ? & ? & ?). exists sku'. auto.
      * destruct (IH pricingData) as (added & -> & Hsub & Hin).
        exists added. split; [reflexivity|]. split; [now constructor|].
        intros e He. destruct (Hin e He) as (sku' & ? & ? & ?). exists sku'. auto.
    + destruct (IH pricingData) as (added & -> & Hsub & Hin).
      exists added. split; [reflexivity|]. split; [now constructor|].
      intros e He. destruct (Hin e He) as (sku' & ? & ? & ?). exists sku'. auto.
Qed.

Lemma fetched_entry (w : Updater.World) (serviceId serviceName : string)
    (entry : Catalog.entry) :
  In entry (Updater.fetchServicePricing w serviceId serviceName) ->
  exists skus sku,
    Updater.listed w = Ok skus /\ In sku skus /\ Updater.isRelevantSku sku = true
    /\ Updater.extractPricingInfo (Updater.now w) sku serviceName serviceId = Some entry.
Proof.
  unfold Updater.fetchServicePricing.
  destruct (Updater.listed w) as [skus|]; [|intros []].
  destruct (for_each_sku_entries (Updater.now w) serviceName serviceId skus [])
    as (added & -> & _ & Hin).
  rewrite app_nil_l. intros He. destruct (Hin entry He) as (sku & ? & ? & ?).
  exists skus, sku. auto.
Qed.

(** Every fetched entry is fresh and relevant. *)
Lemma fetched_entries (w : Updater.World) (serviceId serviceName : string) :
  Forall (fun entry =>
        Catalog.is_active entry = true
        /\ Catalog.effective_date entry = Updater.day_of (Updater.now w)
        /\ Catalog.service_id entry = serviceId
        /\ Catalog.service_name entry = serviceName
        /\ (Catalog.price_per_unit entry =? 0)%float = false
        /\ (exists keyword,
              In keyword Updater.relevantKeywords
              /\ Str.includes (Str.toLowerCase (Catalog.description entry)) keyword = true)
        /\ (forall keyword,
              In keyword Updater.excludeKeywords ->
              Str.includes (Str.toLowerCase (Catalog.description entry)) keyword = false))
       (Updater.fetchServicePricing w serviceId serviceName).
Proof.
  apply List.Forall_forall. intros entry Hin.
  apply fetched_entry in Hin as (skus & sku & _ & _ & Hrelevant & Hkept).
  pose proof (updater_entry _ _ _ _ _ Hkept) as H. cbv zeta in H.
  destruct H as (_ & Hdesc & Hname & Hid & Hactive & Hdate & _).
  destruct (NormalizerTheory.updater_price _ _ _ _ _ Hkept) as (_ & _ & _ & Hprice).
  do 4 (split; [assumption|]). split; [exact Hprice|].
  rewrite Hdesc. unfold Updater.isRelevantSku in Hrelevant.
  apply andb_prop in Hrelevant as [Hhas Hnone]. split.
  - apply existsb_exists in Hhas as (keyword & ? & ?). exists keyword. auto.
  - intros keyword Hkeyword.
    destruct (Str.includes (Str.toLowerCase (description sku)) keyword) eqn:Hinc;
      [|reflexivity].
    apply negb_true_iff in Hnone.
    assert (Hex : existsb (fun keyword =>
                    Str.includes (Str.toLowerCase (description sku)) keyword)
                    Updater.excludeKeywords = true)
      by (apply existsb_exists; exists keyword; auto).
    congruence.
Qed.

(** The SKU whose second tier has no unit price is dropped, and so is
    the free one; a description with "Rapid" contains the excluded
    keyword "api". *)
Example dropped_skus :
  Updater.extractPricingInfo 0 MoreSample.second_tier_unpriced "Compute Engine"
    Updater.COMPUTE_ENGINE = None
  /\ Updater.extractPricingInfo 0 MoreSample.free_instance "Compute Engine"
       Updater.COMPUTE_ENGINE = None
  /\ Updater.isRelevantSku (Sample.sku "Rapid Storage disk" 0 1) = false
  /\ Updater.isRelevantSku (Sample.sku "Storage PD disk" 0 1) = true.
Proof. repeat split; vm_compute; reflexivity. Qed.

(** X14.  The generation a refresh fetches: when the billing API fails
    it is empty; otherwise it holds at most one entry per listed SKU, in
    listing order, and every entry is active, dated the day of the run,
    belongs to the service asked for, has a non-zero price, and has a
    description that (case-insensitively) contains a relevant keyword
    and none of the excluded ones. *)
Theorem generation_is_fresh_and_relevant
    (w : Updater.World) (serviceId serviceName : string) :
  let generation := Updater.fetchServicePricing w serviceId serviceName in
  (forall message, Updater.listed w = Throw message -> generation = [])
  /\ (forall skus, Updater.listed w = Ok skus ->
        sublist (List.map Catalog.sku_id generation) (List.map skuId skus))
  /\ Forall (fun entry =>
        Catalog.is_active entry = true
        /\ Catalog.effective_date entry = Updater.day_of (Updater.now w)
        /\ Catalog.service_id entry = serviceId
        /\ Catalog.service_name entry = serviceName
        /\ (Catalog.price_per_unit entry =? 0)%float = false
        /\ (exists keyword,
              In keyword Updater.relevantKeywords
              /\ Str.includes (Str.toLowerCase (Catalog.description entry)) keyword = true)
        /\ (forall keyword,
              In keyword Updater.excludeKeywords ->
              Str.includes (Str.toLowerCase (Catalog.description entry)) keyword = false))
       generation.
Proof.
  cbv zeta. split; [|split].
  - intros message Hlisted. unfold Updater.fetchServicePricing. now rewrite Hlisted.
  - intros skus Hlisted. unfold Updater.fetchServicePricing. rewrite Hlisted.
    destruct (for_each_sku_entries (Updater.now w) serviceName serviceId skus [])
      as (added & -> & Hsub & _).
    exact Hsub.
  - apply fetched_entries.
Qed.

(** X15.  A catalog that a refresh builds from SKUs whose descriptions
    contain no hyphen holds no machine type and no machine family, so no
    entry of it answers the compute query of any resource: every
    resource is priced with the estimate. *)
Theorem hyphenless_price_list_prices_no_machine
    (w : Updater.World) (skus : list Sku) (resource : Calc.ResourceSpecification)
    (Hlisted : Updater.listed w = Ok skus)
    (Hplain : Forall (fun sku =>
                Str.includes (Str.toLowerCase (description sku)) "-" = false) skus) :
  Forall (fun entry =>
            Catalog.machine_type entry = None /\ Catalog.machine_family entry = None)
         (new_generation w)
  /\ Calc.compute_price_per_hour (Calc.fetchPricingForResource (refreshed_store w) resource)
     = Calc.estimateComputePricing resource.
Proof.
  assert (Hnames : forall entry, In entry (new_generation w) ->
            Catalog.machine_type entry = None /\ Catalog.machine_family entry = None).
  { intros entry Hin.
    apply fetched_entry in Hin as (skus' & sku & Hlisted' & Hsku & _ & Hkept).
    rewrite Hlisted in Hlisted'. injection Hlisted' as <-.
    pose proof (updater_entry _ _ _ _ _ Hkept) as H. cbv zeta in H.
    destruct H as (_ & _ & _ & _ & _ & _ & _ & Htype & Hfamily & _).
    rewrite Htype, Hfamily.
    rewrite List.Forall_forall in Hplain. specialize (Hplain sku Hsku).
    destruct (ParserExtras.updater_names (description sku)) as (Ht & Hf & _).
    assert (Hno : Regex.search Updater.family_re (Str.toLowerCase (description sku)) = None).
    { destruct (Regex.search Updater.family_re _) eqn:Hsearch; [|reflexivity].
      assert (Hdash : Str.includes (Str.toLowerCase (description sku)) "-" = true)
        by (apply ParserExtras.family_needs_hyphen; congruence).
      congruence. }
    split.
    - rewrite Ht.
      destruct (Regex.search Updater.machine_re _) eqn:Hmachine; [|reflexivity].
      exfalso. apply (ParserExtras.family_found_with_machine
                        (Str.toLowerCase (description sku))); congruence.
    - rewrite Hf, Hno. reflexivity. }
  split; [now apply List.Forall_forall|].
  apply ResolverTheory.compute_price_when_no_match. intros entry Hin.
  destruct (Hnames entry Hin) as [Htype Hfamily].
  unfold compute_matches. destruct (Calc.machine_type resource); [|reflexivity].
  cbn [Calc.where_clause]. rewrite Htype, Hfamily. cbn [Catalog.sql_eq orb].
  now rewrite andb_false_r.
Qed.

Lemma hyphenless_price_list_prices_no_machine_witness :
  length (new_generation Sample.refresh_with_steps_1_and_3_failing) = 2%nat
  /\ Calc.compute_price_per_hour
       (Calc.fetchPricingForResource
          (refreshed_store Sample.refresh_with_steps_1_and_3_failing) Sample.reference)
     = Calc.estimateComputePricing Sample.reference.
Proof.
  split; [vm_compute; reflexivity|].
  apply (hyphenless_price_list_prices_no_machine
           Sample.refresh_with_steps_1_and_3_failing
           [Sample.n1_core; Sample.priced_1_14] Sample.reference eq_refl).
  repeat constructor.
Defined.

End FeedTheory.

(* ===================================================================== *)
(** * The catalog after a refresh                                          *)
(* ===================================================================== *)

Module RefreshTheory.
Import Updater Notions MoreNotions.

Lemma mark_run (w : World) (table : Table) :
  markExistingPricingInactive w (day_of (now w)) table = (marked w table, Ok tt).
Proof.
  unfold marked.
  destruct (LifecycleTheory.mark_never_throws w (day_of (now w)) table) as (t & -> & _).
  reflexivity.
Qed.

Lemma cleanup_run (w : World) (table : Table) :
  cleanupOldPricingData w table = (cleaned w table, Ok tt).
Proof.
  unfold cleaned.
  destruct (LifecycleTheory.cleanup_never_throws w table) as (t & -> & _).
  reflexivity.
Qed.

Lemma marked_eq (w : World) (table : Table) :
  marked w table
  = if update_rejects w then table
    else List.map (fun e =>
           if (Catalog.is_active e
               && (Catalog.effective_date e <? day_of (now w)))%bool
           then deactivate (now w) e else e) table.
Proof.
  unfold marked, markExistingPricingInactive, try_catch, update_job.
  destruct (update_rejects w); reflexivity.
Qed.

Lemma cleaned_eq (w : World) (table : Table) :
  cleaned w table
  = if delete_rejects w then table
    else List.filter (fun e =>
           negb ((Catalog.effective_date e <? purge_cutoff w)
                 && negb (Catalog.is_active e))) table.
Proof.
  unfold cleaned, cleanupOldPricingData, try_catch, delete_job.
  destruct (delete_rejects w); reflexivity.
Qed.

Lemma marked_app (w : World) (a b : Table) :
  marked w (a ++ b)%list = (marked w a ++ marked w b)%list.
Proof. rewrite !marked_eq. destruct (update_rejects w); [reflexivity|apply List.map_app]. Qed.

Lemma cleaned_app (w : World) (a b : Table) :
  cleaned w (a ++ b)%list = (cleaned w a ++ cleaned w b)%list.
Proof.
  rewrite !cleaned_eq. destruct (delete_rejects w); [reflexivity|apply List.filter_app].
Qed.

(** Step 1 leaves the entries of the day as they are. *)
Lemma marked_today (w : World) (entries : Table) :
  Forall (fun e => Catalog.effective_date e = day_of (now w)) entries ->
  marked w entries = entries.
Proof.
  intros Hall. rewrite marked_eq. destruct (update_rejects w); [reflexivity|].
  induction Hall as [|e rest He Hrest IH]; simpl; [reflexivity|].
  rewrite IH, He, Z.ltb_irrefl, andb_false_r. reflexivity.
Qed.

(** Step 3 leaves active entries as they are. *)
Lemma cleaned_active (w : World) (entries : Table) :
  Forall (fun e => Catalog.is_active e = true) entries -> cleaned w entries = entries.
Proof.
  intros Hall. rewrite cleaned_eq. destruct (delete_rejects w); [reflexivity|].
  induction Hall as [|e rest He Hrest IH]; simpl; [reflexivity|].
  rewrite IH, He, andb_false_r. reflexivity.
Qed.

Lemma cleaned_in (w : World) (table : Table) (e : Catalog.entry) :
  In e (cleaned w table) -> In e table.
Proof.
  rewrite cleaned_eq. destruct (delete_rejects w); [auto|].
  rewrite List.filter_In. tauto.
Qed.



Lemma marked_no_stale (w : World) (table : Table) :
  update_rejects w = false -> no_stale_active (day_of (now w)) (marked w table).
Proof.
  intros Hupdate. rewrite marked_eq, Hupdate. unfold no_stale_active.
  apply List.Forall_forall. intros e Hin. apply List.in_map_iff in Hin as (e0 & <- & _).
  destruct (Catalog.is_active e0) eqn:Hactive; simpl.
  - destruct (Z.ltb_spec (Catalog.effective_date e0) (day_of (now w))); simpl.
    + discriminate.
    + intros _. lia.
  - congruence.
Qed.


(** The entries of a generation are active and dated the day of the
    run. *)
Lemma generation_today (w : World) :
  Forall (fun e => Catalog.effective_date e = day_of (now w)) (new_generation w).
Proof.
  eapply List.Forall_impl;
    [|exact (FeedTheory.fetched_entries w COMPUTE_ENGINE "Compute Engine")].
  cbv beta. tauto.
Qed.

Lemma generation_active (w : World) :
  Forall (fun e => Catalog.is_active e = true) (new_generation w).
Proof.
  eapply List.Forall_impl;
    [|exact (FeedTheory.fetched_entries w COMPUTE_ENGINE "Compute Engine")].
  cbv beta. tauto.
Qed.

(** The table and the outcome of a refresh whose batches are accepted. *)
Lemma refresh_table (w : World) (table : Table) :
  (forall k, (k * 1000 < length (new_generation w))%nat -> insert_rejects w k = false) ->
  exists outcome,
    updatePricingCatalog w table
    = ((cleaned w (marked w table) ++ new_generation w)%list, Ok outcome)
    /\ success outcome = true
    /\ records_updated outcome = length (new_generation w)
    /\ generateUpdateReport w (day_of (now w)) (length (new_generation w))
         (cleaned w (marked w table) ++ new_generation w)%list
       = ((cleaned w (marked w table) ++ new_generation w)%list, Ok (report outcome)).
Proof.
  intros Hok. unfold updatePricingCatalog. rewrite LifecycleTheory.try_catch_rethrow.
  fold (new_generation w). rewrite app_nil_l.
  unfold mbind at 1 2 3 4, Eff_bind.
  rewrite mark_run.
  assert (Hins : (match new_generation w with
                  | [] => mret tt
                  | _ :: _ => insertPricingData w (new_generation w)
                  end) (marked w table)
                 = ((marked w table ++ new_generation w)%list, Ok tt)).
  { destruct (new_generation w) as [|e rest] eqn:Hgen.
    - unfold mret, Eff_ret. now rewrite app_nil_r.
    - unfold insertPricingData. rewrite LifecycleTheory.try_catch_rethrow.
      apply LifecycleTheory.insert_batches_accepted; [lia|]. intros j Hj. apply Hok.
      exact Hj. }
  rewrite Hins, cleanup_run, cleaned_app, (cleaned_active w _ (generation_active w)).
  destruct (LifecycleTheory.report_never_throws w (day_of (now w))
              (length (new_generation w))
              (cleaned w (marked w table) ++ new_generation w)%list) as (r & Hreport).
  rewrite Hreport. unfold mret, Eff_ret.
  eexists. split; [reflexivity|]. repeat split.
Qed.



(** The purge and the time zone: an inactive row dated 91 days before
    the run is purged on a host in UTC and kept on a host whose clock
    went back an hour in between. *)
Example purge_and_time_zone :
  purge_cutoff MoreSample.refresh_accepted = 19910
  /\ purge_cutoff MoreSample.refresh_after_clock_change = 19909
  /\ List.map Catalog.sku_id
       (fst (updatePricingCatalog MoreSample.refresh_accepted
               [MoreSample.row_of_91_days_ago]))
     = ["0000-AAAA-1111"; "0000-AAAA-1111"]
  /\ List.map Catalog.sku_id
       (fst (updatePricingCatalog MoreSample.refresh_after_clock_change
               [MoreSample.row_of_91_days_ago]))
     = ["OLDER"; "0000-AAAA-1111"; "0000-AAAA-1111"].
Proof. repeat split; vm_compute; reflexivity. Qed.

(** X17.  A second refresh on the same day does not replace the
    generation of the first: when the inserts are accepted, the table
    ends with the generation twice, all of it active. *)
Theorem second_refresh_duplicates_generation
    (w : World) (table : Table)
    (Hinsert : forall k, insert_rejects w k = false) :
  exists first_table first_outcome final outcome older,
    updatePricingCatalog w table = (first_table, Ok first_outcome)
    /\ updatePricingCatalog w first_table = (final, Ok outcome)
    /\ final = (older ++ new_generation w ++ new_generation w)%list
    /\ records_updated outcome = length (new_generation w)
    /\ Forall (fun e => Catalog.is_active e = true)
         (new_generation w ++ new_generation w)%list.
Proof.
  destruct (refresh_table w table (fun k _ => Hinsert k)) as (o1 & Hrun1 & _).
  destruct (refresh_table w (cleaned w (marked w table) ++ new_generation w)%list
              (fun k _ => Hinsert k)) as (o2 & Hrun2 & _ & Hcount & _).
  eexists. exists o1. eexists. exists o2.
  exists (cleaned w (marked w (cleaned w (marked w table)))).
  split; [exact Hrun1|]. split; [exact Hrun2|]. split; [|split; [exact Hcount|]].
  - rewrite marked_app, (marked_today w _ (generation_today w)).
    rewrite cleaned_app, (cleaned_active w _ (generation_active w)).
    now rewrite <- app_assoc.
  - apply List.Forall_app. split; apply generation_active.
Qed.

Lemma second_refresh_duplicates_generation_witness :
  exists first_table first_outcome final outcome,
    updatePricingCatalog MoreSample.refresh_accepted [MoreSample.old_entry]
    = (first_table, Ok first_outcome)
    /\ updatePricingCatalog MoreSample.refresh_accepted first_table = (final, Ok outcome)
    /\ List.map Catalog.sku_name final
       = [ "OLD";
           "N1 Predefined Instance Core running in Americas";
           "N2 Instance Core running in Americas";
           "N1 Predefined Instance Core running in Americas";
           "N2 Instance Core running in Americas" ].
Proof.
  destruct (second_refresh_duplicates_generation MoreSample.refresh_accepted
              [MoreSample.old_entry] (fun _ => eq_refl))
    as (first_table & first_outcome & final & outcome & older & Hrun1 & Hrun2 & _).
  exists first_table, first_outcome, final, outcome.
  split; [exact Hrun1|]. split; [exact Hrun2|].
  vm_compute in Hrun1. injection Hrun1 as <- _.
  vm_compute in Hrun2. injection Hrun2 as <- _. reflexivity.
Defined.

(** The batch loop up to the first rejected batch. *)
Lemma insert_batches_partial (w : World) (fuel k j : nat)
    (remaining : list Catalog.entry) (table : Table) :
  (length remaining <= fuel)%nat ->
  (j * 1000 < length remaining)%nat ->
  (forall i, (i < j)%nat -> insert_rejects w (k + i) = false) ->
  insert_rejects w (k + j) = true ->
  insert_batches w fuel 1000 k remaining table
  = ((table ++ take (j * 1000) remaining)%list, Throw "insert failed").
Proof.
  revert k j remaining table.
  induction fuel as [|fuel IH]; intros k j remaining table Hfuel Hj Hbefore Hrej.
  - lia.
  - destruct remaining as [|e rest]; [simpl in Hj; lia|].
    set (l := e :: rest) in *.
    change (insert_batches w (S fuel) 1000 k l table)
      with (mbind (fun _ => insert_batches w fuel 1000 (S k) (drop 1000 l))
                  (table_insert w k (take 1000 l)) table).
    unfold mbind, Eff_bind, table_insert.
    destruct j as [|j].
    + rewrite Nat.add_0_r in Hrej. rewrite Hrej. simpl. now rewrite app_nil_r.
    + assert (H0 : insert_rejects w k = false).
      { rewrite <- (Nat.add_0_r k). apply Hbefore. lia. }
      rewrite H0. rewrite (IH (S k) j).
      * f_equal. rewrite <- app_assoc. f_equal.
        replace (S j * 1000)%nat with (1000 + j * 1000)%nat by lia.
        now rewrite take_take_drop.
      * rewrite length_drop. subst l. simpl in *. lia.
      * rewrite length_drop. lia.
      * intros i Hi. replace (S k + i)%nat with (k + S i)%nat by lia. apply Hbefore. lia.
      * replace (S k + j)%nat with (k + S j)%nat by lia. exact Hrej.
Qed.

(** X18.  When the store rejects batch [k] of the insert after
    accepting the batches before it, the refresh throws and nothing is
    rolled back: the table is left as step 1 made it, followed by the
    first [k * 1000] entries of the new generation; with the
    deactivation accepted, no older active entry is left. *)
Theorem rejected_batch_leaves_partial_generation
    (w : World) (table : Table) (k : nat)
    (Hreached : (k * 1000 < length (new_generation w))%nat)
    (Hbefore : forall i, (i < k)%nat -> insert_rejects w i = false)
    (Hrejected : insert_rejects w k = true) :
  updatePricingCatalog w table
  = ((marked w table ++ take (k * 1000) (new_generation w))%list, Throw "insert failed")
  /\ (update_rejects w = false ->
      no_stale_active (day_of (now w))
        (marked w table ++ take (k * 1000) (new_generation w))).
Proof.
  split.
  - unfold updatePricingCatalog. rewrite LifecycleTheory.try_catch_rethrow.
    fold (new_generation w). rewrite app_nil_l.
    unfold mbind at 1 2 3 4, Eff_bind.
    rewrite mark_run.
    destruct (new_generation w) as [|e rest] eqn:Hgen; [simpl in Hreached; lia|].
    unfold insertPricingData. rewrite LifecycleTheory.try_catch_rethrow.
    rewrite (insert_batches_partial w (length (e :: rest)) 0 k); auto.
  - intros Hupdate. unfold no_stale_active. apply List.Forall_app. split.
    + apply (marked_no_stale w table Hupdate).
    + apply List.Forall_forall. intros e Hin.
      assert (Hgen : In e (new_generation w)).
      { rewrite <- (take_drop (k * 1000) (new_generation w)).
        apply List.in_or_app. now left. }
      pose proof (generation_today w) as Htoday.
      rewrite List.Forall_forall in Htoday. rewrite (Htoday e Hgen). lia.
Qed.

Lemma rejected_batch_leaves_partial_generation_witness :
  updatePricingCatalog Sample.refresh_with_step_2_failing [MoreSample.old_entry]
  = ([deactivate 1728000000000 MoreSample.old_entry], Throw "insert failed").
Proof.
  destruct (rejected_batch_leaves_partial_generation Sample.refresh_with_step_2_failing
              [MoreSample.old_entry] 0
              ltac:(vm_compute; lia) ltac:(intros i Hi; lia) eq_refl) as [Hrun _].
  rewrite Hrun. vm_compute. reflexivity.
Defined.

(** X19.  During an outage of the billing API the refresh still
    reports success, with zero records; when the deactivation is
    accepted it leaves no active entry dated before the day of the run,
    so a catalog whose entries were all dated earlier answers no query,
    and the calculator prices every resource's compute with the
    estimate. *)
Theorem price_list_outage_empties_active_catalog
    (w : World) (table : Table) (message : string)
    (Hlisted : listed w = Throw message)
    (Hupdate : update_rejects w = false) :
  exists final outcome,
    updatePricingCatalog w table = (final, Ok outcome)
    /\ success outcome = true
    /\ records_updated outcome = 0%nat
    /\ no_stale_active (day_of (now w)) final
    /\ (Forall (fun e => Catalog.effective_date e < day_of (now w)) table ->
        Forall (fun e => Catalog.is_active e = false) final
        /\ forall resource,
             Calc.compute_price_per_hour
               (Calc.fetchPricingForResource (store_of final) resource)
             = Calc.estimateComputePricing resource).
Proof.
  assert (Hgen : new_generation w = []).
  { unfold new_generation, fetchServicePricing. now rewrite Hlisted. }
  destruct (refresh_table w table) as (outcome & Hrun & Hsuccess & Hcount & _).
  { rewrite Hgen. simpl. lia. }
  rewrite Hgen, app_nil_r in Hrun. rewrite Hgen in Hcount.
  exists (cleaned w (marked w table)), outcome.
  split; [exact Hrun|]. split; [exact Hsuccess|]. split; [exact Hcount|].
  assert (Hstale : no_stale_active (day_of (now w)) (cleaned w (marked w table))).
  { unfold no_stale_active. apply List.Forall_forall. intros e Hin.
    pose proof (marked_no_stale w table Hupdate) as Hmarked.
    unfold no_stale_active in Hmarked. rewrite List.Forall_forall in Hmarked.
    apply Hmarked. now apply cleaned_in in Hin. }
  split; [exact Hstale|]. intros Hold.
  assert (Hinactive : Forall (fun e => Catalog.is_active e = false)
                        (cleaned w (marked w table))).
  { apply List.Forall_forall. intros e Hin.
    unfold no_stale_active in Hstale. rewrite List.Forall_forall in Hstale.
    specialize (Hstale e Hin).
    apply cleaned_in in Hin. rewrite marked_eq, Hupdate in Hin.
    apply List.in_map_iff in Hin as (e0 & Heq & Hin0).
    rewrite List.Forall_forall in Hold. specialize (Hold e0 Hin0).
    destruct (Catalog.is_active e) eqn:Hactive; [|reflexivity].
    specialize (Hstale eq_refl).
    destruct (Catalog.is_active e0 && (Catalog.effective_date e0 <? day_of (now w)))%bool;
      subst e; simpl in *; [discriminate|lia]. }
  split; [exact Hinactive|]. intros resource.
  apply ResolverTheory.compute_price_when_no_match. intros e Hin.
  rewrite List.Forall_forall in Hinactive. specialize (Hinactive e Hin).
  unfold compute_matches. destruct (Calc.machine_type resource); [|reflexivity].
  cbn [Calc.where_clause]. rewrite Hinactive. apply andb_false_r.
Qed.

Lemma price_list_outage_empties_active_catalog_witness :
  exists final outcome,
    updatePricingCatalog MoreSample.refresh_during_outage [MoreSample.old_entry]
    = (final, Ok outcome)
    /\ success outcome = true
    /\ Calc.compute_price_per_hour
         (Calc.fetchPricingForResource (store_of [MoreSample.old_entry]) Sample.reference)
       = 0.1%float
    /\ Calc.compute_price_per_hour
         (Calc.fetchPricingForResource (store_of final) Sample.reference)
       = Calc.estimateComputePricing Sample.reference.
Proof.
  destruct (price_list_outage_empties_active_catalog MoreSample.refresh_during_outage
              [MoreSample.old_entry] "UNAVAILABLE" eq_refl eq_refl)
    as (final & outcome & Hrun & Hsuccess & _ & _ & Hold).
  exists final, outcome. split; [exact Hrun|]. split; [exact Hsuccess|].
  split; [vm_compute; reflexivity|].
  apply Hold. repeat constructor.
Defined.






End RefreshTheory.

(* ===================================================================== *)
(** * The pricing fetcher                                                  *)
(* ===================================================================== *)

Module FetcherTheory.
Import Billing Fetcher Notions MoreNotions.

(** What the loop of [fetchGCPPricing] appends. *)
Lemma fetcher_loop_entries (clock : Z) (region : option string)
    (skus : list Sku) (pricingData result : list Row.t) :
  for_each_sku clock region skus pricingData = Ok result ->
  exists added,
    result = (pricingData ++ added)%list
    /\ (forall entry, In entry added ->
          exists sku,
            In sku skus /\ wanted sku = true
            /\ extractPricingInfo clock sku = Some entry
            /\ (truthy_string region = true ->
                exists regions,
                  serviceRegions sku = Some regions /\ In (default "" region) regions)).
Proof.
  revert pricingData. induction skus as [|sku rest IH]; intros pricingData; simpl.
  - intros [= <-]. exists []. rewrite app_nil_r. split; [reflexivity|]. intros entry [].
  - destruct (wanted sku) eqn:Hwanted; simpl.
    2:{ intros H. destruct (IH _ H) as (added & -> & Hin). exists added.
        split; [reflexivity|]. intros e He.
        destruct (Hin e He) as (sku' & ? & ? & ? & ?). exists sku'. auto. }
    unfold outside_region.
    destruct (truthy_string region) eqn:Hregion.
    + destruct (serviceRegions sku) as [regions|] eqn:Hregions; simpl; [|discriminate].
      destruct (existsb (String.eqb (default "" region)) regions) eqn:Hinside; simpl.
      * destruct (extractPricingInfo clock sku) as [entry|] eqn:Hkept; intros H.
        -- destruct (IH _ H) as (added & -> & Hin). exists (entry :: added).
           rewrite <- app_assoc. split; [reflexivity|].
           intros e [<-|He].
           ++ exists sku. do 3 (split; [auto|]). intros _. exists regions.
              split; [exact Hregions|].
              apply existsb_exists in Hinside as (x & Hx & Heq).
              apply String.eqb_eq in Heq. now subst.
           ++ destruct (Hin e He) as (sku' & ? & ? & ? & ?). exists sku'. auto.
        -- destruct (IH _ H) as (added & -> & Hin). exists added.
           split; [reflexivity|]. intros e He.
           destruct (Hin e He) as (sku' & ? & ? & ? & ?). exists sku'. auto.
      * intros H. destruct (IH _ H) as (added & -> & Hin). exists added.
        split; [reflexivity|]. intros e He.
        destruct (Hin e He) as (sku' & ? & ? & ? & ?). exists sku'. auto.
    + simpl. destruct (extractPricingInfo clock sku) as [entry|] eqn:Hkept; intros H.
      * destruct (IH _ H) as (added & -> & Hin). exists (entry :: added).
        rewrite <- app_assoc. split; [reflexivity|].
        intros e [<-|He].
        -- exists sku. do 3 (split; [auto|]). discriminate.
        -- destruct (Hin e He) as (sku' & ? & ? & ? & ?). exists sku'. auto.
      * destruct (IH _ H) as (added & -> & Hin). exists added.
        split; [reflexivity|]. intros e He.
        destruct (Hin e He) as (sku' & ? & ? & ? & ?). exists sku'. auto.
Qed.

(** A wanted SKU without service regions stops a fetch that filters by
    region. *)
Lemma fetcher_loop_aborts (clock : Z) (region : option string)
    (skus : list Sku) (sku : Sku) (pricingData : list Row.t) :
  truthy_string region = true -> In sku skus -> wanted sku = true ->
  serviceRegions sku = None ->
  exists message, for_each_sku clock region skus pricingData = Throw message.
Proof.
  intros Hregion Hin Hwanted Hnone. revert pricingData.
  induction skus as [|sku' rest IH]; intros pricingData; [destruct Hin|]. simpl.
  destruct Hin as [->|Hin].
  - rewrite Hwanted. simpl. unfold outside_region. rewrite Hregion, Hnone. simpl.
    eexists; reflexivity.
  - destruct (wanted sku'); simpl; [|now apply IH].
    unfold outside_region. rewrite Hregion.
    destruct (serviceRegions sku') as [regions|]; simpl; [|eexists; reflexivity].
    destruct (negb _); [now apply IH|].
    destruct (extractPricingInfo clock sku'); now apply IH.
Qed.

(** X21.  The fetcher's listing: a failure of the billing API is
    rethrown (the updater returns an empty list instead); the
    [resourceType] and [machineType] arguments have no effect; every
    entry returned comes from a listed SKU whose description contains
    "instance", "disk" or "gpu" and, when a region is asked for, whose
    service regions include it; and one such SKU without service regions
    makes a fetch for a region fail as a whole. *)
Theorem fetcher_listing
    (w : World) (resourceType region machineType : option string) :
  (forall message, listed w = Throw message ->
     fetchGCPPricing w resourceType region machineType = Throw message)
  /\ fetchGCPPricing w resourceType region machineType = fetchGCPPricing w None region None
  /\ (forall skus entries,
        listed w = Ok skus ->
        fetchGCPPricing w resourceType region machineType = Ok entries ->
        Forall (fun entry =>
                  exists sku,
                    In sku skus /\ wanted sku = true
                    /\ extractPricingInfo (now w) sku = Some entry
                    /\ (truthy_string region = true ->
                        exists regions,
                          serviceRegions sku = Some regions
                          /\ In (default "" region) regions))
               entries)
  /\ (forall skus sku,
        listed w = Ok skus -> In sku skus -> wanted sku = true ->
        serviceRegions sku = None -> truthy_string region = true ->
        exists message,
          fetchGCPPricing w resourceType region machineType = Throw message).
Proof.
  unfold fetchGCPPricing. split; [|split; [reflexivity|split]].
  - intros message ->. reflexivity.
  - intros skus entries ->. simpl. intros H.
    apply fetcher_loop_entries in H as (added & -> & Hin).
    rewrite app_nil_l. now apply List.Forall_forall.
  - intros skus sku -> Hin Hwanted Hnone Hregion. simpl.
    now apply (fetcher_loop_aborts _ _ _ sku).
Qed.

(** The batch loop of the fetcher: all batches accepted, and up to the
    first rejected batch. *)
Lemma fetcher_batches_accepted (w : World) (fuel k : nat)
    (remaining : list Row.t) (table : Table) :
  (length remaining <= fuel)%nat ->
  (forall j, (j * 1000 < length remaining)%nat -> insert_rejects w (k + j) = false) ->
  insert_batches w fuel 1000 k remaining table = ((table ++ remaining)%list, Ok tt).
Proof.
  revert k remaining table.
  induction fuel as [|fuel IH]; intros k remaining table Hfuel Hok.
  - destruct remaining; [|simpl in Hfuel; lia].
    simpl. now rewrite app_nil_r.
  - destruct remaining as [|e rest]; [simpl; now rewrite app_nil_r|].
    set (l := e :: rest) in *.
    change (insert_batches w (S fuel) 1000 k l table)
      with (mbind (fun _ => insert_batches w fuel 1000 (S k) (drop 1000 l))
                  (table_insert w k (take 1000 l)) table).
    unfold mbind, Eff_bind, table_insert.
    assert (H0 : insert_rejects w k = false).
    { rewrite <- (Nat.add_0_r k). apply Hok. subst l. simpl. lia. }
    rewrite H0. rewrite IH.
    + now rewrite <- app_assoc, take_drop.
    + rewrite length_drop. subst l. simpl in *. lia.
    + intros j Hj. rewrite length_drop in Hj.
      replace (S k + j)%nat with (k + S j)%nat by lia. apply Hok. lia.
Qed.

Lemma fetcher_batches_partial (w : World) (fuel k j : nat)
    (remaining : list Row.t) (table : Table) :
  (length remaining <= fuel)%nat ->
  (j * 1000 < length remaining)%nat ->
  (forall i, (i < j)%nat -> insert_rejects w (k + i) = false) ->
  insert_rejects w (k + j) = true ->
  insert_batches w fuel 1000 k remaining table
  = ((table ++ take (j * 1000) remaining)%list, Throw "insert failed").
Proof.
  revert k j remaining table.
  induction fuel as [|fuel IH]; intros k j remaining table Hfuel Hj Hbefore Hrej.
  - lia.
  - destruct remaining as [|e rest]; [simpl in Hj; lia|].
    set (l := e :: rest) in *.
    change (insert_batches w (S fuel) 1000 k l table)
      with (mbind (fun _ => insert_batches w fuel 1000 (S k) (drop 1000 l))
                  (table_insert w k (take 1000 l)) table).
    unfold mbind, Eff_bind, table_insert.
    destruct j as [|j].
    + rewrite Nat.add_0_r in Hrej. rewrite Hrej. simpl. now rewrite app_nil_r.
    + assert (H0 : insert_rejects w k = false).
      { rewrite <- (Nat.add_0_r k). apply Hbefore. lia. }
      rewrite H0. rewrite (IH (S k) j).
      * f_equal. rewrite <- app_assoc. f_equal.
        replace (S j * 1000)%nat with (1000 + j * 1000)%nat by lia.
        now rewrite take_take_drop.
      * rewrite length_drop. subst l. simpl in *. lia.
      * rewrite length_drop. lia.
      * intros i Hi. replace (S k + i)%nat with (k + S i)%nat by lia. apply Hbefore. lia.
      * replace (S k + j)%nat with (k + S j)%nat by lia. exact Hrej.
Qed.

(** X22.  The [fetchPricing] handler: when the listing throws, it
    answers 500 with the error message and leaves the table as it is;
    when the listing succeeds and [save] is not exactly "true", it
    answers 200 with the data and leaves the table as it is; with
    [save=true] and every batch accepted it appends the data and answers
    200; and when batch [k] is rejected it answers 500 although the
    batches before it stay in the table. *)
Theorem fetchPricing_outcomes (w : World) (req : Query.t) (table : Table) :
  let fetched :=
    fetchGCPPricing w (Query.resourceType req) (Query.region req) (Query.machineType req) in
  (forall message,
     fetched = Throw message ->
     fetchPricing w req table = (table, Ok (Status500 message (now w))))
  /\ (forall data,
        fetched = Ok data ->
        (Query.save req <> Some "true" ->
         fetchPricing w req table = (table, Ok (Status200 data (now w))))
        /\ (Query.save req = Some "true" ->
            (forall k, (k * 1000 < length data)%nat -> insert_rejects w k = false) ->
            fetchPricing w req table = ((table ++ data)%list, Ok (Status200 data (now w))))
        /\ (forall k,
              Query.save req = Some "true" ->
              (k * 1000 < length data)%nat ->
              (forall i, (i < k)%nat -> insert_rejects w i = false) ->
              insert_rejects w k = true ->
              fetchPricing w req table
              = ((table ++ take (k * 1000) data)%list,
                 Ok (Status500 "insert failed" (now w))))).
Proof.
  cbv zeta. unfold fetchPricing, try_catch, mbind, Eff_bind, eval, mret, Eff_ret.
  split.
  - intros message ->. reflexivity.
  - intros data ->. split; [|split].
    + intros Hsave. rewrite bool_decide_eq_false_2 by exact Hsave. reflexivity.
    + intros Hsave Hok. rewrite bool_decide_eq_true_2 by exact Hsave.
      unfold savePricingToBigQuery. rewrite LifecycleTheory.try_catch_rethrow.
      rewrite fetcher_batches_accepted; [reflexivity|lia|intros j Hj; now apply Hok].
    + intros k Hsave Hk Hbefore Hrej. rewrite bool_decide_eq_true_2 by exact Hsave.
      unfold savePricingToBigQuery. rewrite LifecycleTheory.try_catch_rethrow.
      rewrite (fetcher_batches_partial w (length data) 0 k); auto.
Qed.

(** The fetcher keeps the free SKU the updater drops; [save] must be
    exactly "true" for the table to be written; one wanted SKU without
    service regions fails a fetch for a region, and is only skipped by
    a fetch for no region. *)
Example fetch_examples :
  (exists entries,
     fetchGCPPricing MoreSample.fetch_world None (Some "us-central1") None = Ok entries
     /\ List.map Row.price_per_unit entries = [Row.Text 0.0475 0; Row.Text 0 0])
  /\ fst (fetchPricing MoreSample.fetch_world
            (MoreSample.fetch_request None (Some "TRUE")) []) = []
  /\ length (fst (fetchPricing MoreSample.fetch_world
                    (MoreSample.fetch_request None (Some "true")) [])) = 2%nat
  /\ is_ok (fetchGCPPricing
              {| listed := Ok [Sample.n1_core; MoreSample.without_regions];
                 insert_rejects := fun _ => false; now := 0 |}
              None (Some "us-central1") None) = false
  /\ is_ok (fetchGCPPricing
              {| listed := Ok [Sample.n1_core; MoreSample.without_regions];
                 insert_rejects := fun _ => false; now := 0 |}
              None None None) = true.
Proof.
  split; [eexists; split; vm_compute; reflexivity|].
  repeat split; vm_compute; reflexivity.
Qed.

End FetcherTheory.

(* ===================================================================== *)
(** * The storage price                                                    *)
(* ===================================================================== *)

Module StorageTheory.
Import Calc Notions MoreNotions.

Lemma storage_price_when_store_answers
    (store : Store) (resource : ResourceSpecification) (machineType : string) :
  (forall q, rejects store q = false) ->
  machine_type resource = Some machineType ->
  storage_price_per_gb_month (fetchPricingForResource store resource)
  = match run_query (StorageQuery (disk_type resource) (region resource))
                    (catalog store) with
    | row :: _ => Catalog.price_per_unit row
    | [] => getDefaultStoragePricing (Some (disk_type resource))
    end.
Proof.
  intros Hrej Hmt. ResolverTheory.run_blocks. rewrite Hmt, !Hrej.
  repeat (match goal with
          | |- context [has_gpu resource] => destruct (has_gpu resource)
          | |- context [match run_query ?q ?l with _ => _ end] => destruct (run_query q l)
          end; cbn);
    reflexivity.
Qed.

(** X23.  When the store answers: a resource without machine type gets
    the fallback pricing as a whole, whatever the catalog holds.  For a
    resource with a machine type, the storage price is that of an active
    catalog row of category storage with the resource's disk type, one
    for the resource's region when there is one; when no row matches it
    is the table price by disk type: 0.17 for pd-ssd, 0.1 for
    pd-balanced and 0.04 for every other disk type. *)
Theorem storage_price_resolution
    (store : Store) (resource : ResourceSpecification)
    (Hanswers : forall q, rejects store q = false) :
  (machine_type resource = None ->
   fetchPricingForResource store resource = fallback_pricing resource)
  /\ (machine_type resource <> None ->
      ((forall e, In e (catalog store) -> storage_matches resource e = false) ->
       storage_price_per_gb_month (fetchPricingForResource store resource)
       = (if String.eqb (disk_type resource) "pd-ssd" then 0.17
          else if String.eqb (disk_type resource) "pd-balanced" then 0.1
          else 0.04)%float)
      /\ ((exists e, In e (catalog store) /\ storage_matches resource e = true) ->
          exists row,
            In row (catalog store)
            /\ storage_price_per_gb_month (fetchPricingForResource store resource)
               = Catalog.price_per_unit row
            /\ Catalog.is_active row = true
            /\ Catalog.category row = "storage"
            /\ Catalog.disk_type row = Some (disk_type resource)
            /\ (forall e, In e (catalog store) -> storage_matches resource e = true ->
                  Catalog.region e = Some (region resource) ->
                  Catalog.region row = Some (region resource)))).
Proof.
  assert (Heq : forall c v, Catalog.sql_eq c v = true <-> c = Some v).
  { intros [c|] v; simpl; [rewrite String.eqb_eq|]; split; congruence. }
  split.
  - intros Hnone. unfold fallback_pricing. ResolverTheory.run_blocks.
    rewrite Hnone. reflexivity.
  - intros Htype. destruct (machine_type resource) as [machineType|] eqn:Hmt;
      [clear Htype|congruence].
    split.
    + intros Hno. rewrite (ResolverTheory.storage_price_when_no_match store resource Hno).
      unfold getDefaultStoragePricing.
      destruct (String.eqb_spec (disk_type resource) "pd-ssd") as [->|Hssd];
        [reflexivity|].
      destruct (String.eqb_spec (disk_type resource) "pd-balanced") as [->|Hbalanced];
        [reflexivity|].
      destruct (disk_type resource) as [|a1 t1]; [reflexivity|].
      repeat match goal with
             | |- context [match ?x with _ => _ end] =>
                 match type of x with
                 | ascii => destruct x
                 | bool => destruct x
                 | string => destruct x
                 end
             end; try reflexivity; congruence.
    + intros Hmatch.
      rewrite (storage_price_when_store_answers store resource machineType Hanswers Hmt).
      unfold storage_matches in *.
      set (q := StorageQuery (disk_type resource) (region resource)) in *.
      destruct (ResolverTheory.run_query_some q (catalog store) Hmatch)
        as (row & Hq & Hin & Hw).
      rewrite Hq. exists row. split; [exact Hin|]. split; [reflexivity|].
      assert (Hmin : forall e, In e (catalog store) -> where_clause q e = true ->
                       Catalog.key_lt (order_key q e) (order_key q row) = false).
      { intros e He Hwe. apply (ResolverExtras.run_query_minimal q (catalog store)); auto.
        rewrite Hq. now left. }
      subst q. cbn [where_clause] in Hw.
      repeat (apply andb_prop in Hw as [Hw ?]).
      split; [assumption|]. split; [now apply String.eqb_eq|]. split; [now apply Heq|].
      intros e He Hwe Her. specialize (Hmin e He Hwe).
      apply ResolverExtras.key_lt_false in Hmin. simpl in Hmin. apply Heq.
      rewrite (proj2 (Heq _ _) Her) in Hmin.
      destruct (Catalog.sql_eq (Catalog.region row) (region resource)); [reflexivity|].
      simpl in Hmin. lia.
Qed.

Lemma storage_price_resolution_witness :
  storage_price_per_gb_month
    (fetchPricingForResource MoreSample.storage_store Sample.reference) = 0.044%float
  /\ storage_price_per_gb_month
       (fetchPricingForResource MoreSample.storage_store Sample.no_machine_type)
     = 0.04%float.
Proof.
  destruct (storage_price_resolution MoreSample.storage_store Sample.no_machine_type
              (fun _ => eq_refl)) as [Hnone _].
  split; [vm_compute; reflexivity|].
  rewrite (Hnone eq_refl). reflexivity.
Defined.

End StorageTheory.
